(** * Sobriety tracker: the statistics and streak engine

    A shallow embedding of the aggregation code of [app/tracker.py],
    [app/report.py] and [app/ui.py]: the monthly and yearly buckets of
    [SobrietyTracker.get_statistics], the counts and streaks of
    [SobrietyTracker.get_additional_stats], the spending loop of
    [SobrietyTracker.print_statistics], the summary block of
    [ExcelReport.generate] and the period statistics of
    [display_calendar].

    The log is a Python [dict] loaded from JSON: an insertion-ordered
    mapping from a date string to a record, the record being a [dict] of
    JSON values.  Exceptions are explicit: every operation that can raise
    in Python returns a [res]. *)

From Stdlib Require Import ZArith QArith Floats Ascii String List Bool Lia.
From Stdlib Require Import Sorted Permutation.
From stdpp Require Import gmap strings list.

Local Open Scope Z_scope.

(** ** Exceptions *)

Inductive exn : Set :=
| ValueError
| TypeError
| KeyError
| ZeroDivisionError
| OverflowError.

Inductive res (A : Type) : Type :=
| Ok (a : A)
| Raise (e : exn).

Arguments Ok {A} a.
Arguments Raise {A} e.

(** Sequencing: a raised exception skips the rest.  With the instance,
    [x ← c; k] runs [c], binds its value to [x] and goes on with [k]. *)
#[export] Instance res_bind : MBind res := fun A B k c =>
  match c with
  | Ok a => k a
  | Raise e => Raise e
  end.

#[export] Instance res_ret : MRet res := @Ok.

(** [try: c  except Exception: h] *)
Definition try_except {A : Type} (c : res A) (h : res A) : res A :=
  match c with
  | Ok a => Ok a
  | Raise _ => h
  end.

(** [for x in xs: body], the loop state threaded through the body. *)
Fixpoint for_each {S X : Type} (body : S -> X -> res S) (xs : list X) (s : S)
  : res S :=
  match xs with
  | [] => Ok s
  | x :: xs' => s' ← body s x; for_each body xs' s'
  end.

(** ** Values

    The values a record field can hold after [json.load] or after
    [log_entry] stored its arguments.  Of a JSON array or object only the
    length is kept: the code observes such a value through [bool()] and
    [float()] alone. *)

Inductive pyval : Type :=
| PNone
| PBool (b : bool)
| PInt (z : Z)
| PFloat (f : float)
| PStr (s : string)
| PList (len : nat)
| PDict (len : nat).

(** Truth value of an object, as [if v:] takes it. *)
Definition truthy (v : pyval) : bool :=
  match v with
  | PNone => false
  | PBool b => b
  | PInt z => negb (z =? 0)
  | PFloat f => negb (PrimFloat.eqb f 0%float)
  | PStr s => negb (String.eqb s "")
  | PList n => negb (Nat.eqb n 0)
  | PDict n => negb (Nat.eqb n 0)
  end.

(** [float(n)] for an [int]: the nearest binary64, [OverflowError] when
    there is none. *)
Definition float_of_int (z : Z) : res float :=
  let f := SF2Prim (binary_normalize prec emax z 0 false) in
  if PrimFloat.is_infinity f then Raise OverflowError else Ok f.

Section Float.

(** [float(s)] for a [str] is the interpreter's decimal parser, taken
    as given: [None] is its [ValueError]. *)
Variable float_of_str : string -> option float.

(** The builtin [float(v)]. *)
Definition py_float (v : pyval) : res float :=
  match v with
  | PNone => Raise TypeError
  | PBool b => Ok (if b then 1%float else 0%float)
  | PInt z => float_of_int z
  | PFloat f => Ok f
  | PStr s =>
      match float_of_str s with
      | Some f => Ok f
      | None => Raise ValueError
      end
  | PList _ => Raise TypeError
  | PDict _ => Raise TypeError
  end.

End Float.

(** [a / b] on two [int]s.  The quotient is kept exact: the binary64
    rounding of the result is monotone and is not modelled. *)
Definition truediv (a b : Z) : res Q :=
  if b =? 0 then Raise ZeroDivisionError
  else Ok (inject_Z a / inject_Z b)%Q.

(** ** Records and the log *)

(** An entry record: a [dict] from field name to value. *)
Abbreviation record := (gmap string pyval).

(** [record.get(key, dflt)] *)
Definition get (r : record) (key : string) (dflt : pyval) : pyval :=
  match r !! key with
  | Some v => v
  | None => dflt
  end.

(** The log: [data["daily_log"]], a [dict] in insertion order. *)
Abbreviation log := (list (string * record)).

Definition keys (daily_log : log) : list string := map fst daily_log.
Definition values (daily_log : log) : list record := map snd daily_log.
Definition items (daily_log : log) : list (string * record) := daily_log.

(** A [dict] holds each key once. *)
Definition wf_log (daily_log : log) : Prop := NoDup (keys daily_log).

(** [daily_log[key]] *)
Fixpoint getitem (daily_log : log) (key : string) : res record :=
  match daily_log with
  | [] => Raise KeyError
  | (k, r) :: rest => if String.eqb k key then Ok r else getitem rest key
  end.

(** [daily_log[key] = r]: a key already there keeps its place. *)
Fixpoint setitem (daily_log : log) (key : string) (r : record) : log :=
  match daily_log with
  | [] => [(key, r)]
  | (k, r0) :: rest =>
      if String.eqb k key then (k, r) :: rest
      else (k, r0) :: setitem rest key r
  end.

(** ** [sorted] on strings

    Python orders [str] by code point, a proper prefix first; the keys of
    a [dict] are distinct, so the result does not depend on the sorting
    algorithm. *)

Fixpoint insert_sorted (s : string) (l : list string) : list string :=
  match l with
  | [] => [s]
  | x :: l' => if String.leb s x then s :: l else x :: insert_sorted s l'
  end.

Fixpoint sorted (l : list string) : list string :=
  match l with
  | [] => []
  | s :: l' => insert_sorted s (sorted l')
  end.

(** [reversed(l)] *)
Definition reversed {A : Type} (l : list A) : list A := rev l.

(** ** [datetime]

    Only the calendar date of a [datetime] is observed: [strptime] with
    the format [%Y-%m-%d] leaves the time at midnight, and of
    [datetime.now()] the code reads the year and the month. *)

Record datetime : Set := mk_datetime { year : Z; month : Z; day : Z }.

Definition is_leap (y : Z) : bool :=
  (y mod 4 =? 0) && (negb (y mod 100 =? 0) || (y mod 400 =? 0)).

Definition days_in_month (y m : Z) : Z :=
  if (m =? 2) && is_leap y then 29
  else nth (Z.to_nat m) [0; 31; 28; 31; 30; 31; 30; 31; 31; 30; 31; 30; 31] 0.

Definition days_before_year (y : Z) : Z :=
  let y1 := y - 1 in y1 * 365 + y1 / 4 - y1 / 100 + y1 / 400.

Definition days_before_month (y m : Z) : Z :=
  nth (Z.to_nat m) [0; 0; 31; 59; 90; 120; 151; 181; 212; 243; 273; 304; 334] 0
  + (if (2 <? m) && is_leap y then 1 else 0).

(** [d.toordinal()] *)
Definition toordinal (d : datetime) : Z :=
  days_before_year (year d) + days_before_month (year d) (month d) + day d.

(** [(a - b).days] for two midnights. *)
Definition days_between (a b : datetime) : Z := toordinal a - toordinal b.

(** The constructor [datetime(y, m, d)] with its range checks. *)
Definition new_datetime (y m d : Z) : res datetime :=
  if (1 <=? y) && (y <=? 9999) && (1 <=? m) && (m <=? 12)
     && (1 <=? d) && (d <=? days_in_month y m)
  then Ok (mk_datetime y m d)
  else Raise ValueError.

(** *** [strptime(s, "%Y-%m-%d")]

    The format compiles to the regular expression
    [(\d\d\d\d)-(1[0-2]|0[1-9]|[1-9])-(3[0-1]|[1-2]\d|0[1-9]|[1-9]| [1-9])],
    matched at the start of the string; the alternatives of a group are
    tried in order and the whole string has to be consumed.  A key is a
    string of bytes here, and [\d] is an ASCII digit. *)

Definition cls : Type := ascii -> bool.

Definition code (c : ascii) : nat := nat_of_ascii c.

Definition in_range (lo hi : ascii) : cls :=
  fun c => (Nat.leb (code lo) (code c)) && (Nat.leb (code c) (code hi)).

Definition is_digit : cls := in_range "0" "9".

Definition lit (a : ascii) : cls := fun c => Ascii.eqb a c.

(** A sequence of character classes against the head of the input: the
    matched text and what is left. *)
Fixpoint match_seq (p : list cls) (s : list ascii)
  : option (list ascii * list ascii) :=
  match p with
  | [] => Some ([], s)
  | k :: p' =>
      match s with
      | [] => None
      | c :: s' =>
          if k c then
            match match_seq p' s' with
            | Some (txt, rest) => Some (c :: txt, rest)
            | None => None
            end
          else None
      end
  end.

(** An alternation followed by the rest of the pattern [k]: the first
    alternative after which [k] succeeds wins. *)
Fixpoint match_alts {A : Type} (alts : list (list cls)) (s : list ascii)
    (k : list ascii -> list ascii -> option A) : option A :=
  match alts with
  | [] => None
  | p :: alts' =>
      match match_seq p s with
      | Some (txt, rest) =>
          match k txt rest with
          | Some r => Some r
          | None => match_alts alts' s k
          end
      | None => match_alts alts' s k
      end
  end.

Definition re_Y : list (list cls) := [[is_digit; is_digit; is_digit; is_digit]].

Definition re_m : list (list cls) :=
  [[lit "1"; in_range "0" "2"]; [lit "0"; in_range "1" "9"]; [in_range "1" "9"]].

Definition re_d : list (list cls) :=
  [[lit "3"; in_range "0" "1"]; [in_range "1" "2"; is_digit];
   [lit "0"; in_range "1" "9"]; [in_range "1" "9"]; [lit " "; in_range "1" "9"]].

Definition re_dash : list (list cls) := [[lit "-"]].

(** [int(text)] of a matched group: decimal digits, a leading blank
    skipped. *)
Definition int_of_text (txt : list ascii) : Z :=
  fold_left (fun acc c => if is_digit c then acc * 10 + (Z.of_nat (code c) - 48) else acc)
            txt 0.

(** The groups of a match, with the unconsumed tail. *)
Definition format_regex_match (s : list ascii)
  : option (list ascii * list ascii * list ascii * list ascii) :=
  match_alts re_Y s (fun Y s1 =>
  match_alts re_dash s1 (fun _ s2 =>
  match_alts re_m s2 (fun m s3 =>
  match_alts re_dash s3 (fun _ s4 =>
  match_alts re_d s4 (fun d s5 => Some (Y, m, d, s5)))))).

Definition strptime (date_str : string) : res datetime :=
  match format_regex_match (list_ascii_of_string date_str) with
  | None => Raise ValueError
  | Some (Y, m, d, rest) =>
      match rest with
      | [] => new_datetime (int_of_text Y) (int_of_text m) (int_of_text d)
      | _ :: _ => Raise ValueError
      end
  end.

Arguments strptime : simpl never.

(** *** [strftime]: [%Y] is the year on four digits, [%m] the month on
    two.  (A C library that prints a year below 1000 without its zeros
    gives other keys, one per year all the same.) *)

Definition digit_char (n : Z) : ascii := ascii_of_nat (48 + Z.to_nat n).

Definition fmt2 (n : Z) : string :=
  String (digit_char (n / 10)) (String (digit_char (n mod 10)) EmptyString).

Definition fmt4 (n : Z) : string :=
  String (digit_char (n / 1000))
    (String (digit_char (n / 100 mod 10)) (fmt2 (n mod 100))).

(** [d.strftime("%Y")] *)
Definition strftime_Y (d : datetime) : string := fmt4 (year d).

(** [d.strftime("%Y-%m")] *)
Definition strftime_Ym (d : datetime) : string :=
  fmt4 (year d) +:+ "-" +:+ fmt2 (month d).

(** [d.strftime("%Y-%m-%d")] *)
Definition strftime_Ymd (d : datetime) : string :=
  fmt4 (year d) +:+ "-" +:+ fmt2 (month d) +:+ "-" +:+ fmt2 (day d).

Arguments strftime_Y : simpl never.
Arguments strftime_Ym : simpl never.
Arguments strftime_Ymd : simpl never.
Arguments toordinal : simpl never.

(** ** The environment of a call

    What the code reads without being handed it: the wall clock behind
    [datetime.now()] and the log in the data file behind [load_data()]. *)

Record world : Type := mk_world { clock : datetime; stored_log : log }.

Definition datetime_now (w : world) : datetime := clock w.

Definition load_daily_log (w : world) : log := stored_log w.

(** ** Aggregates *)

(** A month bucket, [{"sober_days": _, "total_days": _, "spent": _}]. *)
Record mstat : Type :=
  mk_mstat { m_sober_days : Z; m_total_days : Z; m_spent : float }.

(** A year bucket, [{"sober_days": _, "total_days": _}]. *)
Record ystat : Type := mk_ystat { y_sober_days : Z; y_total_days : Z }.

Record stats : Type :=
  mk_stats { monthly : gmap string mstat; yearly : gmap string ystat }.

Record add_stats : Type :=
  mk_add_stats {
    total_days : Z;
    percent_sober : Q;
    longest_streak : Z;
    current_streak : Z }.

(** The loop state of the longest-streak walk. *)
Record streak_state : Type :=
  mk_streak { st_longest : Z; st_current : Z; st_previous : option datetime }.

(** [m[k][field] += 1] and the like: the bucket has to be there. *)
Definition update {V : Type} (m : gmap string V) (k : string) (f : V -> V)
  : res (gmap string V) :=
  match m !! k with
  | Some b => Ok (<[k := f b]> m)
  | None => Raise KeyError
  end.

(** [if k not in m: m[k] = v] *)
Definition setdefault {V : Type} (m : gmap string V) (k : string) (v : V)
  : gmap string V :=
  match m !! k with
  | Some _ => m
  | None => <[k := v]> m
  end.

(** [record.get("sober", False)] as a condition. *)
Definition is_sober (r : record) : bool := truthy (get r "sober" (PBool false)).

(** [(sober_days / total_days * 100) if total_days else 0] *)
Definition percent (sober_days total_days : Z) : res Q :=
  if negb (total_days =? 0)
  then q ← truediv sober_days total_days; Ok (q * 100)%Q
  else Ok 0%Q.

Module SobrietyTracker.
Section Tracker.

(** [DEFAULT_AMOUNT] comes from [app/constants.py]: the default spend, a
    float, whatever its value. *)
Variable DEFAULT_AMOUNT : float.
Variable float_of_str : string -> option float.

(** [log_entry]: the log after the call.  An empty [date_str] stands
    for today; a [date_str] that [strptime] refuses leaves the log as it
    is. *)
Definition log_entry (w : world) (daily_log : log) (date_str : string)
    (sober : bool) (mood notes alcohol_type alcohol_amount : string)
    (amount_spent : float) : log :=
  let date_str :=
    if String.eqb date_str "" then strftime_Ymd (datetime_now w) else date_str in
  match strptime date_str with
  | Raise _ => daily_log
  | Ok _ =>
      setitem daily_log date_str
        {[ "sober" := PBool sober;
           "mood" := PStr mood;
           "notes" := PStr notes;
           "alcohol_type" := PStr alcohol_type;
           "alcohol_amount" := PStr alcohol_amount;
           "amount_spent" := PFloat amount_spent ]}
  end.

(** [float(record.get("amount_spent", DEFAULT_AMOUNT))] *)
Definition amount_spent (r : record) : res float :=
  py_float float_of_str (get r "amount_spent" (PFloat DEFAULT_AMOUNT)).

(** The spend of a drinking entry in [get_statistics]: the zero test
    follows the [try]. *)
Definition spend_monthly (r : record) : res float :=
  amt ← try_except (amount_spent r) (Ok DEFAULT_AMOUNT);
  Ok (if PrimFloat.eqb amt 0%float then DEFAULT_AMOUNT else amt).

(** The spend of a drinking entry in [print_statistics]: the zero test
    is inside the [try]. *)
Definition spend_overall (r : record) : res float :=
  try_except
    (amt ← amount_spent r;
     Ok (if PrimFloat.eqb amt 0%float then DEFAULT_AMOUNT else amt))
    (Ok DEFAULT_AMOUNT).

(** One turn of the loop of [get_statistics]. *)
Definition get_statistics_body (st : stats) (item : string * record)
  : res stats :=
  let '(date_str, record) := item in
  match strptime date_str with
  | Raise _ => Ok st
  | Ok date_obj =>
      let month_key := strftime_Ym date_obj in
      let m0 := setdefault (monthly st) month_key (mk_mstat 0 0 0%float) in
      m1 ← update m0 month_key
             (fun b => mk_mstat (m_sober_days b) (m_total_days b + 1) (m_spent b));
      m2 ← (if is_sober record
            then update m1 month_key
                   (fun b => mk_mstat (m_sober_days b + 1) (m_total_days b) (m_spent b))
            else
              amt ← spend_monthly record;
              update m1 month_key
                (fun b => mk_mstat (m_sober_days b) (m_total_days b)
                                   (PrimFloat.add (m_spent b) amt)));
      let year_key := strftime_Y date_obj in
      let y0 := setdefault (yearly st) year_key (mk_ystat 0 0) in
      y1 ← update y0 year_key
             (fun b => mk_ystat (y_sober_days b) (y_total_days b + 1));
      y2 ← (if is_sober record
            then update y1 year_key
                   (fun b => mk_ystat (y_sober_days b + 1) (y_total_days b))
            else Ok y1);
      Ok (mk_stats m2 y2)
  end.

Definition get_statistics (daily_log : log) : res stats :=
  for_each get_statistics_body (items daily_log) (mk_stats ∅ ∅).

(** [sum(1 for d in daily_log if daily_log[d].get("sober", False))] *)
Definition count_sober (daily_log : log) : res Z :=
  for_each (fun n d =>
              r ← getitem daily_log d;
              Ok (if is_sober r then n + 1 else n))
           (keys daily_log) 0.

(** One turn of the longest-streak loop. *)
Definition streak_body (daily_log : log) (st : streak_state)
    (date_str : string) : res streak_state :=
  match strptime date_str with
  | Raise _ => Ok st
  | Ok date_obj =>
      r ← getitem daily_log date_str;
      if is_sober r then
        let current :=
          if match st_previous st with
             | Some previous_date => days_between date_obj previous_date =? 1
             | None => false
             end
          then st_current st + 1
          else 1 in
        Ok (mk_streak (Z.max (st_longest st) current) current (Some date_obj))
      else Ok (mk_streak (st_longest st) 0 (Some date_obj))
  end.

(** The loop from the latest key backwards, left at the first entry
    that is not sober. *)
Fixpoint current_seq_loop (daily_log : log) (dates : list string)
    (current_seq : Z) : res Z :=
  match dates with
  | [] => Ok current_seq
  | date_str :: dates' =>
      r ← getitem daily_log date_str;
      if is_sober r
      then current_seq_loop daily_log dates' (current_seq + 1)
      else Ok current_seq
  end.

Definition get_additional_stats (daily_log : log) : res add_stats :=
  let sorted_dates := sorted (keys daily_log) in
  let total_days := Z.of_nat (length sorted_dates) in
  sober_days ← count_sober daily_log;
  percent_sober ← percent sober_days total_days;
  st ← for_each (streak_body daily_log) sorted_dates (mk_streak 0 0 None);
  current_seq ← current_seq_loop daily_log (reversed sorted_dates) 0;
  Ok (mk_add_stats total_days percent_sober (st_longest st) current_seq).

(** The spending totals of [print_statistics]:
    [(overall_spending, current_month_spending)].  The menu of
    [main.py] runs the same loop for its option 2. *)
Definition spending_body (now : datetime) (acc : float * float)
    (item : string * record) : res (float * float) :=
  let '(date_str, record) := item in
  let '(overall_spending, current_month_spending) := acc in
  match strptime date_str with
  | Raise _ => Ok acc
  | Ok d =>
      if negb (is_sober record) then
        amt ← spend_overall record;
        let overall_spending := PrimFloat.add overall_spending amt in
        if (year d =? year now) && (month d =? month now)
        then Ok (overall_spending, PrimFloat.add current_month_spending amt)
        else Ok (overall_spending, current_month_spending)
      else Ok acc
  end.

(** What [print_statistics] prints. *)
Record printed : Type :=
  mk_printed {
    p_monthly : list (string * mstat * Q);
    p_yearly : list (string * ystat * Q);
    p_additional : add_stats;
    p_overall_spending : float;
    p_current_month_spending : float }.

Definition print_statistics (w : world) (daily_log : log) : res printed :=
  stats ← get_statistics daily_log;
  add_stats ← get_additional_stats daily_log;
  rows_m ← for_each (fun rows month_key =>
              m_stat ← (match monthly stats !! month_key with
                        | Some b => Ok b
                        | None => Raise KeyError
                        end);
              p ← percent (m_sober_days m_stat) (m_total_days m_stat);
              Ok (rows ++ [(month_key, m_stat, p)]))
            (sorted (elements (dom (monthly stats)))) [];
  rows_y ← for_each (fun rows year_key =>
              y_stat ← (match yearly stats !! year_key with
                        | Some b => Ok b
                        | None => Raise KeyError
                        end);
              p ← percent (y_sober_days y_stat) (y_total_days y_stat);
              Ok (rows ++ [(year_key, y_stat, p)]))
            (sorted (elements (dom (yearly stats)))) [];
  let now := datetime_now w in
  '(overall_spending, current_month_spending) ←
      for_each (spending_body now) (items daily_log) (0%float, 0%float);
  Ok (mk_printed rows_m rows_y add_stats overall_spending current_month_spending).

End Tracker.
End SobrietyTracker.

Module ExcelReport.
Section Report.

Variable DEFAULT_AMOUNT : float.
Variable float_of_str : string -> option float.

Definition amount_spent (r : record) : res float :=
  py_float float_of_str (get r "amount_spent" (PFloat DEFAULT_AMOUNT)).

(** The amount written on the row of an entry: [None] is the empty
    cell of a sober day. *)
Definition row_amount (entry : record) : res (option float) :=
  if is_sober entry then Ok None
  else
    amt ← try_except
             (amount_spent ← amount_spent entry;
              Ok (if PrimFloat.eqb amount_spent 0%float
                  then DEFAULT_AMOUNT else amount_spent))
             (Ok DEFAULT_AMOUNT);
    Ok (Some amt).

(** The rows of the sheet: date, status, amount. *)
Definition rows (daily_log : log) : res (list (string * bool * option float)) :=
  for_each (fun acc date_str =>
              entry ← getitem daily_log date_str;
              a ← row_amount entry;
              Ok (acc ++ [(date_str, is_sober entry, a)]))
           (sorted (keys daily_log)) [].

(** [sum(1 for record in daily_log.values() if record.get("sober", False))] *)
Definition count_sober (daily_log : log) : Z :=
  fold_left (fun n record => if is_sober record then n + 1 else n)
            (values daily_log) 0.

(** [(sober_days / total_days * 100) if total_days > 0 else 0] *)
Definition percent_gt (sober_days total_days : Z) : res Q :=
  if 0 <? total_days
  then q ← truediv sober_days total_days; Ok (q * 100)%Q
  else Ok 0%Q.

Definition streak_body (daily_log : log) (st : streak_state)
    (date_str : string) : res streak_state :=
  match strptime date_str with
  | Raise _ => Ok st
  | Ok date_obj =>
      r ← getitem daily_log date_str;
      if is_sober r then
        let current :=
          if match st_previous st with
             | Some previous_date => days_between date_obj previous_date =? 1
             | None => false
             end
          then st_current st + 1
          else 1 in
        Ok (mk_streak (Z.max (st_longest st) current) current (Some date_obj))
      else Ok (mk_streak (st_longest st) 0 (Some date_obj))
  end.

Fixpoint current_seq_loop (daily_log : log) (dates : list string)
    (current_seq : Z) : res Z :=
  match dates with
  | [] => Ok current_seq
  | date_str :: dates' =>
      r ← getitem daily_log date_str;
      if is_sober r
      then current_seq_loop daily_log dates' (current_seq + 1)
      else Ok current_seq
  end.

(** One term of the generator under [overall_spending = sum(...)]:
    [float(a) if (not record.get("sober", True)) and float(a) > 0
     else DEFAULT_AMOUNT], with no [try] around it. *)
Definition summary_spend (record : record) : res float :=
  if negb (truthy (get record "sober" (PBool true))) then
    x ← amount_spent record;
    if PrimFloat.ltb 0%float x then amount_spent record
    else Ok DEFAULT_AMOUNT
  else Ok DEFAULT_AMOUNT.

(** [sum] adds from the left, starting at [0].  (The compensated
    summation of recent interpreters may round a long sum otherwise; a
    sum of one term is that term.) *)
Definition overall_spending (daily_log : log) : res float :=
  for_each (fun acc record =>
              if negb (is_sober record)
              then x ← summary_spend record; Ok (PrimFloat.add acc x)
              else Ok acc)
           (values daily_log) 0%float.

(** The summary block of the sheet. *)
Record summary : Type :=
  mk_summary {
    s_total_days : Z;
    s_sober_days : Z;
    s_drinking_days : Z;
    s_percent_sober : Q;
    s_longest_streak : Z;
    s_current_seq : Z;
    s_overall_spending : float }.

(** [generate]: the rows and the summary handed to the workbook.  The
    whole body sits in one [try]: [Raise] is an exception that reaches
    its [except], where the error is printed and nothing is saved. *)
Definition generate (daily_log : log)
  : res (list (string * bool * option float) * summary) :=
  sheet ← rows daily_log;
  let total_days := Z.of_nat (length daily_log) in
  let sober_days := count_sober daily_log in
  let drinking_days := total_days - sober_days in
  percent_sober ← percent_gt sober_days total_days;
  let sorted_dates := sorted (keys daily_log) in
  st ← for_each (streak_body daily_log) sorted_dates (mk_streak 0 0 None);
  current_seq ← current_seq_loop daily_log (reversed sorted_dates) 0;
  overall_spending ← overall_spending daily_log;
  Ok (sheet,
      mk_summary total_days sober_days drinking_days percent_sober
                 (st_longest st) current_seq overall_spending).

End Report.
End ExcelReport.

Module Ui.
Section Calendar.

Variable float_of_str : string -> option float.

(** The totals under the calendar: [(total, sober, spent)]. *)
Definition calendar_body (year0 month0 : Z) (acc : Z * Z * float)
    (item : string * record) : res (Z * Z * float) :=
  let '(date_str, record) := item in
  let '(total, sober, spent) := acc in
  match strptime date_str with
  | Raise _ => Ok acc
  | Ok d =>
      if (year d =? year0) && (month d =? month0) then
        if is_sober record then Ok (total + 1, sober + 1, spent)
        else
          amt ← try_except
                   (py_float float_of_str (get record "amount_spent" (PInt 40)))
                   (Ok 40%float);
          let amt := if PrimFloat.eqb amt 0%float then 40%float else amt in
          Ok (total + 1, sober, PrimFloat.add spent amt)
      else Ok acc
  end.

(** The statistics line of [display_calendar(year, month, data)]:
    [None] is the line "No data available".  The log is read again
    from the data file; the argument [data] is not used. *)
Definition display_calendar (w : world) (year0 month0 : Z) (data : log)
  : res (option (Z * Z * Q * float)) :=
  let daily_log := load_daily_log w in
  '(total, sober, spent) ←
      for_each (calendar_body year0 month0) (items daily_log) (0, 0, 0%float);
  if 0 <? total then
    q ← truediv sober total;
    Ok (Some (sober, total, (q * 100)%Q, spent))
  else Ok None.

(** [display_current_calendar]: the month of the clock. *)
Definition display_current_calendar (w : world)
  : res (option (Z * Z * Q * float)) :=
  let data := load_daily_log w in
  let now := datetime_now w in
  display_calendar w (year now) (month now) data.

End Calendar.
End Ui.

(** ** The vocabulary of the specification *)

(** The effective-spend rule: the default for an amount that does not
    convert or is zero, the amount otherwise. *)
Definition effective_spend (DEFAULT_AMOUNT : float)
    (float_of_str : string -> option float) (r : record) : float :=
  match SobrietyTracker.amount_spent DEFAULT_AMOUNT float_of_str r with
  | Ok x => if PrimFloat.eqb x 0%float then DEFAULT_AMOUNT else x
  | Raise _ => DEFAULT_AMOUNT
  end.

(** The date of an entry, when its key is one. *)
Definition date_of (item : string * record) : option datetime :=
  match strptime (fst item) with
  | Ok d => Some d
  | Raise _ => None
  end.

Definition valid_key (k : string) : bool :=
  match strptime k with
  | Ok _ => true
  | Raise _ => false
  end.

(** The entries whose key is a date. *)
Definition valid_entries (daily_log : log) : log :=
  List.filter (fun item => valid_key (fst item)) daily_log.

(** The entry is dated in month [m] of year [y]. *)
Definition in_month (y m : Z) (item : string * record) : bool :=
  match date_of item with
  | Some d => (year d =? y) && (month d =? m)
  | None => false
  end.

(** The entry is dated in year [y]. *)
Definition in_year (y : Z) (item : string * record) : bool :=
  match date_of item with
  | Some d => year d =? y
  | None => false
  end.

Definition sober_item (item : string * record) : bool := is_sober (snd item).

(** How many entries of the log satisfy [p]. *)
Definition count (p : string * record -> bool) (daily_log : log) : Z :=
  Z.of_nat (length (List.filter p daily_log)).

(** The entry falls under the month key [k] / the year key [k]. *)
Definition has_month_key (k : string) (item : string * record) : bool :=
  match date_of item with
  | Some d => String.eqb (strftime_Ym d) k
  | None => false
  end.

Definition has_year_key (k : string) (item : string * record) : bool :=
  match date_of item with
  | Some d => String.eqb (strftime_Y d) k
  | None => false
  end.

(** One turn of [get_statistics] seen from a month bucket and from a
    year bucket. *)
Definition month_turn (sober : bool) (amt : float) (b : mstat) : mstat :=
  if sober
  then mk_mstat (m_sober_days b + 1) (m_total_days b + 1) (m_spent b)
  else mk_mstat (m_sober_days b) (m_total_days b + 1) (PrimFloat.add (m_spent b) amt).

Definition year_turn (sober : bool) (b : ystat) : ystat :=
  if sober
  then mk_ystat (y_sober_days b + 1) (y_total_days b + 1)
  else mk_ystat (y_sober_days b) (y_total_days b + 1).

(** The bucket as it stands, or the fresh one. *)
Definition month_bucket (m : gmap string mstat) (k : string) : mstat :=
  match m !! k with
  | Some b => b
  | None => mk_mstat 0 0 0%float
  end.

Definition year_bucket (m : gmap string ystat) (k : string) : ystat :=
  match m !! k with
  | Some b => b
  | None => mk_ystat 0 0
  end.

(** The buckets agree with the counts over the log. *)
Definition month_counts (daily_log : log) (m : gmap string mstat) : Prop :=
  forall k,
    match m !! k with
    | Some b =>
        m_total_days b = count (has_month_key k) daily_log /\
        m_sober_days b = count (fun it => has_month_key k it && sober_item it) daily_log /\
        1 <= m_total_days b
    | None => count (has_month_key k) daily_log = 0
    end.

Definition year_counts (daily_log : log) (m : gmap string ystat) : Prop :=
  forall k,
    match m !! k with
    | Some b =>
        y_total_days b = count (has_year_key k) daily_log /\
        y_sober_days b = count (fun it => has_year_key k it && sober_item it) daily_log /\
        1 <= y_total_days b
    | None => count (has_year_key k) daily_log = 0
    end.

(** The order [sorted] puts strings in. *)
Definition str_le (a b : string) : Prop := String.leb a b = true.

(** A date of the calendar, as the constructor of [datetime] checks it. *)
Definition valid_date (d : datetime) : Prop :=
  1 <= year d <= 9999 /\ 1 <= month d <= 12 /\
  1 <= day d <= days_in_month (year d) (month d).

(** The guarded percentage, as a value. *)
Definition percent_of (sober_days total_days : Z) : Q :=
  if total_days =? 0 then 0%Q
  else (inject_Z sober_days / inject_Z total_days * 100)%Q.

(** A printed month row shows a bucket of the statistics with its
    percentage. *)
Definition month_row_ok (m : gmap string mstat) (row : string * mstat * Q) : Prop :=
  let '(k, b, p) := row in
  m !! k = Some b /\ p = percent_of (m_sober_days b) (m_total_days b).

Definition year_row_ok (m : gmap string ystat) (row : string * ystat * Q) : Prop :=
  let '(k, b, p) := row in
  m !! k = Some b /\ p = percent_of (y_sober_days b) (y_total_days b).

(** One turn of the spending loop of [print_statistics], as a value. *)
Definition spending_turn (DEFAULT_AMOUNT : float)
    (float_of_str : string -> option float) (now : datetime)
    (acc : float * float) (item : string * record) : float * float :=
  match date_of item with
  | None => acc
  | Some d =>
      if is_sober (snd item) then acc
      else
        let e := effective_spend DEFAULT_AMOUNT float_of_str (snd item) in
        (PrimFloat.add (fst acc) e,
         if (year d =? year now) && (month d =? month now)
         then PrimFloat.add (snd acc) e else snd acc)
  end.

(** Whether the entry under a key is sober. *)
Definition sober_flag (daily_log : log) (k : string) : bool :=
  match getitem daily_log k with
  | Ok r => is_sober r
  | Raise _ => false
  end.

(** The length of the run of [true] at the head of a list. *)
Fixpoint run_length (bs : list bool) : Z :=
  match bs with
  | true :: bs' => 1 + run_length bs'
  | _ => 0
  end.

(** ** The walk of the specification

    The streaks as the specification words them: over the dated entries
    in ascending order of their dates. *)

Definition dated_entries (daily_log : log) : list (datetime * bool) :=
  flat_map (fun item =>
              match date_of item with
              | Some d => [(d, sober_item item)]
              | None => []
              end)
           daily_log.

Fixpoint insert_by_date (x : datetime * bool) (l : list (datetime * bool))
  : list (datetime * bool) :=
  match l with
  | [] => [x]
  | y :: l' =>
      if toordinal (fst x) <=? toordinal (fst y) then x :: l
      else y :: insert_by_date x l'
  end.

Fixpoint sort_by_date (l : list (datetime * bool)) : list (datetime * bool) :=
  match l with
  | [] => []
  | x :: l' => insert_by_date x (sort_by_date l')
  end.

(** One step of the walk: a sober day one calendar day after the day
    examined before extends the run, any other sober day starts a run
    of one, a drinking day ends the run. *)
Definition walk_step (st : streak_state) (x : datetime * bool) : streak_state :=
  let '(d, sober) := x in
  if sober then
    let current :=
      match st_previous st with
      | Some p => if toordinal d - toordinal p =? 1 then st_current st + 1 else 1
      | None => 1
      end in
    mk_streak (Z.max (st_longest st) current) current (Some d)
  else mk_streak (st_longest st) 0 (Some d).

Definition claimed_longest_streak (daily_log : log) : Z :=
  st_longest (fold_left walk_step (sort_by_date (dated_entries daily_log))
                        (mk_streak 0 0 None)).

(** The sober entries at the end of the date-sorted log, counted from
    the most recent one backwards. *)
Definition claimed_current_streak (daily_log : log) : Z :=
  run_length (map snd (rev (sort_by_date (dated_entries daily_log)))).

(** ** Logs to run the code on *)

Definition sober_entry : record := {[ "sober" := PBool true ]}.

Definition drinking (amount : pyval) : record :=
  {[ "sober" := PBool false; "amount_spent" := amount ]}.

(** A record without the field [sober]. *)
Definition no_sober_field (amount : pyval) : record :=
  {[ "amount_spent" := amount ]}.

(** A parser that knows no string: every [float(s)] on a [str] raises. *)
Definition no_float : string -> option float := fun _ => None.

Definition scenario_A : log :=
  [("2024-01-01", sober_entry); ("2024-01-02", sober_entry);
   ("2024-01-03", drinking (PFloat 0))]%string.

Definition scenario_B : log :=
  [("2024-01-01", drinking (PFloat 0)); ("2024-01-02", drinking (PFloat 15))]%string.

Definition scenario_C : log :=
  [("2024-02-10", sober_entry); ("2024-02-12", sober_entry)]%string.

Definition scenario_E : log :=
  [("2024-01-01", drinking (PFloat 15)); ("not-a-date", sober_entry)]%string.

Definition january : world := mk_world (mk_datetime 2024 1 20) [].
Definition february : world := mk_world (mk_datetime 2024 2 20) [].

(** Two sober days logged with the dates typed without padding zeros. *)
Definition unpadded_sober : log :=
  SobrietyTracker.log_entry january
    (SobrietyTracker.log_entry january [] "2024-1-9" true "" "" "" "" 0)
    "2024-1-10" true "" "" "" "" 0.

(** A drinking day, then a sober day, logged the same way. *)
Definition unpadded_mixed : log :=
  SobrietyTracker.log_entry january
    (SobrietyTracker.log_entry january [] "2024-1-9" false "" "" "beer" "2" 15)
    "2024-1-10" true "" "" "" "" 0.

Definition unparsable_amount : log :=
  [("2024-01-01", drinking (PStr "abc"))]%string.

Definition missing_sober : log :=
  [("2024-01-01", no_sober_field (PFloat 15))]%string.

(** A drinking day logged with an amount below zero. *)
Definition negative_amount : log :=
  SobrietyTracker.log_entry january [] "2024-01-01" false "" "" "beer" "2" (-5).

(** ** Zero-padded keys *)

(** The key is a date written [YYYY-MM-DD] on ten characters, as
    [strftime] writes it. *)
Definition canonical_key (k : string) : Prop :=
  exists d, strptime k = Ok d /\ k = strftime_Ymd d.

(** Year, then month, then day. *)
Definition compare_ymd (a b : datetime) : comparison :=
  match year a ?= year b with
  | Eq =>
      match month a ?= month b with
      | Eq => day a ?= day b
      | c => c
      end
  | c => c
  end.

(** The date and the sober flag of the entry under a key. *)
Definition dated_flag (daily_log : log) (k : string) : list (datetime * bool) :=
  match strptime k with
  | Ok d => [(d, sober_flag daily_log k)]
  | Raise _ => []
  end.

(** ** Further vocabulary *)

(** The record [log_entry] stores. *)
Definition entry_record (sober : bool)
    (mood notes alcohol_type alcohol_amount : string) (amount_spent : float)
  : record :=
  {[ "sober" := PBool sober;
     "mood" := PStr mood;
     "notes" := PStr notes;
     "alcohol_type" := PStr alcohol_type;
     "alcohol_amount" := PStr alcohol_amount;
     "amount_spent" := PFloat amount_spent ]}.

(** How many flags of a list are set. *)
Definition count_true (bs : list bool) : Z :=
  Z.of_nat (length (List.filter (fun b => b) bs)).

(** The sum of [f] over the twelve months. *)
Definition sum_months (f : Z -> Z) : Z :=
  f 1 + f 2 + f 3 + f 4 + f 5 + f 6 + f 7 + f 8 + f 9 + f 10 + f 11 + f 12.

(** The month key and the year key of a period, as [strftime] writes
    them for a date of the period. *)
Definition month_key_of (y m : Z) : string := strftime_Ym (mk_datetime y m 1).

Definition year_key_of (y : Z) : string := strftime_Y (mk_datetime y 1 1).

(** The bucket of month [m] of year [y] built from the entries of the
    period alone, in the order of the log. *)
Definition period_bucket (DEFAULT_AMOUNT : float)
    (float_of_str : string -> option float) (y m : Z) (daily_log : log) : mstat :=
  fold_left
    (fun b item =>
       if in_month y m item
       then month_turn (sober_item item)
                       (effective_spend DEFAULT_AMOUNT float_of_str (snd item)) b
       else b)
    daily_log (mk_mstat 0 0 0%float).

(** One turn of the loop under the calendar, as a value. *)
Definition calendar_turn (float_of_str : string -> option float) (y m : Z)
    (acc : Z * Z * float) (item : string * record) : Z * Z * float :=
  if in_month y m item then
    if sober_item item then (fst (fst acc) + 1, snd (fst acc) + 1, snd acc)
    else (fst (fst acc) + 1, snd (fst acc),
          PrimFloat.add (snd acc) (effective_spend 40%float float_of_str (snd item)))
  else acc.



(** The sum of a figure over all the buckets of a map. *)
Definition sum_buckets {V : Type} (f : V -> Z) (m : gmap string V) : Z :=
  map_fold (fun _ b acc => f b + acc) 0 m.

(** The entry has a key that is a date. *)
Definition dated_item (item : string * record) : bool := valid_key (fst item).

(** * The model at work *)

Example strptime_padded :
  strptime "2024-02-29" = Ok (mk_datetime 2024 2 29).
Proof. reflexivity. Qed.

Example strptime_unpadded :
  strptime "2024-1-9" = Ok (mk_datetime 2024 1 9).
Proof. reflexivity. Qed.

Example strptime_not_a_date : strptime "not-a-date" = Raise ValueError.
Proof. reflexivity. Qed.

Example strptime_no_such_day : strptime "2023-02-29" = Raise ValueError.
Proof. reflexivity. Qed.

Example strptime_trailing : strptime "2024-01-011" = Raise ValueError.
Proof. reflexivity. Qed.

Example strftime_Ym_ex : strftime_Ym (mk_datetime 2024 1 9) = "2024-01"%string.
Proof. reflexivity. Qed.

Example toordinal_ex : toordinal (mk_datetime 2024 3 1) = 738946.
Proof. reflexivity. Qed.

(** Scenario A: two sober days, then a drinking day. *)
Example scenario_A_streaks :
  exists a, SobrietyTracker.get_additional_stats scenario_A = Ok a /\
            longest_streak a = 2 /\ current_streak a = 0.
Proof. eexists. split; [vm_compute; reflexivity|]. split; reflexivity. Qed.

(** Scenario B: an amount of zero is spent the default. *)
Example scenario_B_overall :
  exists out,
    SobrietyTracker.print_statistics 40%float no_float january scenario_B = Ok out /\
    SobrietyTracker.p_overall_spending out = 55%float.
Proof. eexists. split; [vm_compute; reflexivity|]. reflexivity. Qed.

(** Scenario C: two sober days, a day apart. *)
Example scenario_C_streaks :
  exists a, SobrietyTracker.get_additional_stats scenario_C = Ok a /\
            longest_streak a = 1 /\ current_streak a = 2.
Proof. eexists. split; [vm_compute; reflexivity|]. split; reflexivity. Qed.

(** Scenario D: the empty log. *)
Example scenario_D_empty :
  SobrietyTracker.get_additional_stats [] = Ok (mk_add_stats 0 0 0 0) /\
  SobrietyTracker.get_statistics 40%float no_float [] = Ok (mk_stats ∅ ∅).
Proof. split; reflexivity. Qed.

(** * Properties *)

(** ** Sequencing *)

Lemma bind_Ok {A B : Type} (a : A) (k : A -> res B) : (Ok a ≫= k) = k a.
Proof. reflexivity. Qed.

(** ** Loops *)

Lemma for_each_app {S X : Type} (body : S -> X -> res S) (xs ys : list X) (s : S) :
  for_each body (xs ++ ys) s = (s' ← for_each body xs s; for_each body ys s').
Proof.
  revert s. induction xs as [|x xs IH]; intros s; simpl; [reflexivity|].
  destruct (body s x) as [s1|e]; simpl; [apply IH|reflexivity].
Qed.

Lemma for_each_snoc {S X : Type} (body : S -> X -> res S) (xs : list X) (x : X) (s : S) :
  for_each body (xs ++ [x]) s = (s' ← for_each body xs s; body s' x).
Proof.
  rewrite for_each_app. destruct (for_each body xs s) as [s1|e]; simpl; [|reflexivity].
  destruct (body s1 x); reflexivity.
Qed.

(** A loop whose body never raises never raises. *)
Lemma for_each_total {S X : Type} (body : S -> X -> res S) (xs : list X) :
  (forall s x, In x xs -> exists s', body s x = Ok s') ->
  forall s, exists s', for_each body xs s = Ok s'.
Proof.
  induction xs as [|x xs IH]; intros Hb s; simpl; [eauto|].
  destruct (Hb s x (or_introl eq_refl)) as [s1 ->]. simpl.
  apply IH. intros s2 y Hy. apply Hb. right; exact Hy.
Qed.

Lemma for_each_ext {S X : Type} (f g : S -> X -> res S) (xs : list X) :
  (forall s x, In x xs -> f s x = g s x) ->
  forall s, for_each f xs s = for_each g xs s.
Proof.
  induction xs as [|x xs IH]; intros H s; simpl; [reflexivity|].
  rewrite (H s x (or_introl eq_refl)).
  destruct (g s x) as [s1|e]; simpl; [|reflexivity].
  apply IH. intros s2 y Hy. apply H. right; exact Hy.
Qed.

(** Turns that leave the state alone can be dropped. *)
Lemma for_each_skip {S X : Type} (body : S -> X -> res S) (keep : X -> bool)
    (xs : list X) :
  (forall s x, keep x = false -> body s x = Ok s) ->
  forall s, for_each body xs s = for_each body (List.filter keep xs) s.
Proof.
  intros Hskip. induction xs as [|x xs IH]; intros s; simpl; [reflexivity|].
  destruct (keep x) eqn:K; simpl.
  - destruct (body s x) as [s1|e]; simpl; [apply IH|reflexivity].
  - rewrite (Hskip s x K). simpl. apply IH.
Qed.

(** ** The log as a dictionary *)

Lemma getitem_key (daily_log : log) (k : string) :
  In k (keys daily_log) -> exists r, getitem daily_log k = Ok r /\ In (k, r) daily_log.
Proof.
  induction daily_log as [|[k0 r0] l IH]; simpl; [tauto|].
  intros H. destruct (String.eqb_spec k0 k) as [->|Hne].
  - exists r0. split; [reflexivity|left; reflexivity].
  - destruct H as [H|H]; [congruence|].
    destruct (IH H) as (r & Hr & Hin). exists r. split; [exact Hr|right; exact Hin].
Qed.

Lemma getitem_wf (daily_log : log) (k : string) (r : record) :
  wf_log daily_log -> In (k, r) daily_log -> getitem daily_log k = Ok r.
Proof.
  unfold wf_log, keys.
  induction daily_log as [|[k0 r0] l IH]; simpl; [tauto|].
  intros Hnd Hin. apply NoDup_cons in Hnd as [Hk0 Hnd].
  destruct Hin as [[= -> ->]|Hin].
  - rewrite String.eqb_refl. reflexivity.
  - destruct (String.eqb_spec k0 k) as [->|Hne].
    + exfalso. apply Hk0. apply list_elem_of_In.
      change k with (fst (k, r)). apply in_map. exact Hin.
    + apply IH; assumption.
Qed.

Lemma getitem_filter (keep : string -> bool) (daily_log : log) (k : string) :
  keep k = true ->
  getitem (List.filter (fun it => keep (fst it)) daily_log) k = getitem daily_log k.
Proof.
  intros Hk. induction daily_log as [|[k0 r0] l IH]; simpl; [reflexivity|].
  destruct (keep k0) eqn:K0; simpl.
  - rewrite IH. reflexivity.
  - destruct (String.eqb_spec k0 k) as [->|Hne]; [congruence|exact IH].
Qed.

Lemma keys_filter (keep : string -> bool) (daily_log : log) :
  keys (List.filter (fun it => keep (fst it)) daily_log) = List.filter keep (keys daily_log).
Proof.
  unfold keys. induction daily_log as [|[k0 r0] l IH]; simpl; [reflexivity|].
  destruct (keep k0); simpl; rewrite IH; reflexivity.
Qed.

(** Assignment to a key: the key reads back, the others are untouched,
    and the keys stay distinct. *)
Lemma getitem_setitem_eq (daily_log : log) (k : string) (r : record) :
  getitem (setitem daily_log k r) k = Ok r.
Proof.
  induction daily_log as [|[k0 r0] l IH]; cbn [setitem getitem].
  - rewrite String.eqb_refl. reflexivity.
  - destruct (String.eqb k0 k) eqn:E; cbn [getitem]; rewrite E; [reflexivity|exact IH].
Qed.

Lemma getitem_setitem_ne (daily_log : log) (k k' : string) (r : record) :
  k <> k' -> getitem (setitem daily_log k r) k' = getitem daily_log k'.
Proof.
  intros Hne. induction daily_log as [|[k0 r0] l IH]; cbn [setitem getitem].
  - destruct (String.eqb_spec k k'); [congruence|reflexivity].
  - destruct (String.eqb_spec k0 k) as [->|Hk]; cbn [getitem].
    + destruct (String.eqb_spec k k'); [congruence|reflexivity].
    + rewrite IH. reflexivity.
Qed.

Lemma keys_setitem (daily_log : log) (k : string) (r : record) :
  keys (setitem daily_log k r) =
  if bool_decide (k ∈ keys daily_log) then keys daily_log
  else keys daily_log ++ [k].
Proof.
  unfold keys. induction daily_log as [|[k0 r0] l IH]; cbn [setitem map fst].
  - rewrite bool_decide_eq_false_2 by apply not_elem_of_nil. reflexivity.
  - destruct (String.eqb_spec k0 k) as [->|Hk]; cbn [map fst].
    + rewrite bool_decide_eq_true_2 by (apply elem_of_cons; left; reflexivity).
      reflexivity.
    + rewrite IH. destruct (bool_decide (k ∈ map fst l)) eqn:E.
      * apply bool_decide_eq_true_1 in E.
        rewrite bool_decide_eq_true_2 by (apply elem_of_cons; right; exact E).
        reflexivity.
      * apply bool_decide_eq_false_1 in E.
        rewrite bool_decide_eq_false_2; [reflexivity|].
        rewrite elem_of_cons. intros [H|H]; [congruence|tauto].
Qed.

Lemma setitem_wf (daily_log : log) (k : string) (r : record) :
  wf_log daily_log -> wf_log (setitem daily_log k r).
Proof.
  unfold wf_log. intros Hwf. rewrite keys_setitem.
  destruct (bool_decide (k ∈ keys daily_log)) eqn:E; [exact Hwf|].
  apply bool_decide_eq_false_1 in E.
  apply NoDup_app. split; [exact Hwf|]. split.
  - intros x Hx Hx'. apply list_elem_of_singleton in Hx'. subst. tauto.
  - apply NoDup_singleton.
Qed.

(** [log_entry] keeps the log a dictionary. *)
Lemma log_entry_wf (w : world) (daily_log : log) (date_str : string) (sober : bool)
    (mood notes alcohol_type alcohol_amount : string) (amount_spent : float) :
  wf_log daily_log ->
  wf_log (SobrietyTracker.log_entry w daily_log date_str sober mood notes
            alcohol_type alcohol_amount amount_spent).
Proof.
  intros Hwf. unfold SobrietyTracker.log_entry. cbv zeta.
  destruct (strptime _); [apply setitem_wf; exact Hwf|exact Hwf].
Qed.

(** ** The order of strings and [sorted] *)

Lemma ascii_compare_spec (a b : ascii) :
  CompareSpec (a = b) (N_of_ascii a < N_of_ascii b)%N
              (N_of_ascii b < N_of_ascii a)%N (Ascii.compare a b).
Proof.
  unfold Ascii.compare.
  destruct (N.compare_spec (N_of_ascii a) (N_of_ascii b)) as [H|H|H];
    constructor; try assumption.
  rewrite <- (ascii_N_embedding a), <- (ascii_N_embedding b), H. reflexivity.
Qed.

Lemma str_le_refl (a : string) : str_le a a.
Proof.
  unfold str_le, String.leb.
  destruct (String.compare a a) eqn:E; try reflexivity.
  pose proof (String.compare_antisym a a) as H. rewrite E in H. discriminate.
Qed.

Lemma str_le_trans (a b c : string) : str_le a b -> str_le b c -> str_le a c.
Proof.
  unfold str_le, String.leb. revert b c.
  induction a as [|x a IH]; intros [|y b] [|z c]; simpl; try congruence.
  destruct (ascii_compare_spec x y) as [->|Hxy|Hxy]; try congruence.
  - destruct (ascii_compare_spec y z) as [->|Hyz|Hyz]; try congruence.
    apply IH.
  - destruct (ascii_compare_spec y z) as [->|Hyz|Hyz]; try congruence.
    + destruct (ascii_compare_spec x z) as [->|Hxz|Hxz]; try congruence; lia.
    + destruct (ascii_compare_spec x z) as [->|Hxz|Hxz]; try congruence; lia.
Qed.

Lemma str_le_total (a b : string) : str_le a b \/ str_le b a.
Proof. apply String.leb_total. Qed.

Lemma str_le_antisym (a b : string) : str_le a b -> str_le b a -> a = b.
Proof. apply String.leb_antisym. Qed.

Lemma insert_sorted_perm (s : string) (l : list string) :
  Permutation (s :: l) (insert_sorted s l).
Proof.
  induction l as [|x l IH]; simpl; [reflexivity|].
  destruct (String.leb s x); [reflexivity|].
  rewrite perm_swap. apply perm_skip. exact IH.
Qed.

(** [sorted] keeps the elements ... *)
Lemma sorted_perm (l : list string) : Permutation l (sorted l).
Proof.
  induction l as [|s l IH]; simpl; [reflexivity|].
  rewrite <- insert_sorted_perm. apply perm_skip. exact IH.
Qed.

Lemma sorted_In (l : list string) (s : string) : In s (sorted l) <-> In s l.
Proof.
  split; intros H.
  - eapply Permutation_in; [symmetry; apply sorted_perm|exact H].
  - eapply Permutation_in; [apply sorted_perm|exact H].
Qed.

Lemma sorted_length (l : list string) : length (sorted l) = length l.
Proof. symmetry. apply Permutation_length, sorted_perm. Qed.

Lemma insert_sorted_ok (s : string) (l : list string) :
  StronglySorted str_le l -> StronglySorted str_le (insert_sorted s l).
Proof.
  induction 1 as [|x l Hl IH Hx]; simpl.
  - constructor; constructor.
  - destruct (String.leb s x) eqn:E.
    + constructor; [constructor; assumption|].
      constructor; [exact E|].
      eapply Forall_impl; [exact Hx|]. intros y Hy. eapply str_le_trans; eauto.
    + constructor; [exact IH|].
      assert (Hxs : str_le x s).
      { destruct (str_le_total s x) as [H|H]; [unfold str_le in H; congruence|exact H]. }
      apply Forall_forall. intros y Hy. apply list_elem_of_In in Hy.
      apply (Permutation_in _ (Permutation_sym (insert_sorted_perm s l))) in Hy.
      destruct Hy as [<-|Hy]; [exact Hxs|].
      rewrite Forall_forall in Hx. apply Hx. apply list_elem_of_In. exact Hy.
Qed.

(** ... and puts them in ascending order. *)
Lemma sorted_ok (l : list string) : StronglySorted str_le (sorted l).
Proof.
  induction l as [|s l IH]; simpl; [constructor|].
  apply insert_sorted_ok. exact IH.
Qed.

Lemma insert_sorted_filter (keep : string -> bool) (s : string) (l : list string) :
  StronglySorted str_le l ->
  List.filter keep (insert_sorted s l) =
  if keep s then insert_sorted s (List.filter keep l) else List.filter keep l.
Proof.
  induction 1 as [|x l Hl IH Hx]; simpl.
  - destruct (keep s); reflexivity.
  - destruct (String.leb s x) eqn:E; simpl.
    + destruct (keep s) eqn:Ks; [|reflexivity].
      destruct (keep x) eqn:Kx; simpl; [rewrite E; reflexivity|].
      f_equal.
      (* every kept element of [l] is above [x], hence above [s] *)
      assert (Hall : Forall (str_le s) (List.filter keep l)).
      { apply Forall_forall. intros y Hy. apply list_elem_of_In in Hy.
        apply filter_In in Hy as [Hy _].
        rewrite Forall_forall in Hx.
        eapply str_le_trans; [exact E|]. apply Hx. apply list_elem_of_In. exact Hy. }
      clear -Hall Ks.
      destruct (List.filter keep l) as [|y l']; simpl; [reflexivity|].
      apply Forall_cons in Hall as [Hy _]. unfold str_le in Hy. rewrite Hy.
      reflexivity.
    + rewrite IH. destruct (keep s) eqn:Ks; destruct (keep x) eqn:Kx; simpl;
        try rewrite E; reflexivity.
Qed.

(** Sorting commutes with dropping keys. *)
Lemma sorted_filter (keep : string -> bool) (l : list string) :
  sorted (List.filter keep l) = List.filter keep (sorted l).
Proof.
  induction l as [|s l IH]; simpl; [reflexivity|].
  rewrite insert_sorted_filter by apply sorted_ok.
  destruct (keep s); simpl; rewrite IH; reflexivity.
Qed.

(** The ascending arrangement of a list is unique: whatever algorithm
    [sorted] runs, this is its result. *)
Lemma sorted_unique (l l' : list string) :
  Permutation l l' -> StronglySorted str_le l -> StronglySorted str_le l' -> l = l'.
Proof.
  revert l'. induction l as [|x l IH]; intros l' Hp Hl Hl'.
  - apply Permutation_nil in Hp. congruence.
  - destruct l' as [|y l'].
    { symmetry in Hp. apply Permutation_nil in Hp. discriminate. }
    apply StronglySorted_inv in Hl as [Hl Hx]. apply StronglySorted_inv in Hl' as [Hl' Hy].
    assert (Hxy : str_le x y).
    { assert (Hin : In y (x :: l)).
      { eapply Permutation_in; [symmetry; exact Hp|left; reflexivity]. }
      destruct Hin as [->|Hin]; [apply str_le_refl|].
      rewrite Forall_forall in Hx. apply Hx, list_elem_of_In, Hin. }
    assert (Hyx : str_le y x).
    { assert (Hin : In x (y :: l')).
      { eapply Permutation_in; [exact Hp|left; reflexivity]. }
      destruct Hin as [->|Hin]; [apply str_le_refl|].
      rewrite Forall_forall in Hy. apply Hy, list_elem_of_In, Hin. }
    pose proof (str_le_antisym x y Hxy Hyx) as ->.
    f_equal. apply IH; try assumption.
    eapply Permutation_cons_inv. exact Hp.
Qed.

Lemma sorted_spec (l l' : list string) :
  Permutation l l' -> StronglySorted str_le l' -> l' = sorted l.
Proof.
  intros Hp Hl'. apply sorted_unique; [|exact Hl'|apply sorted_ok].
  rewrite <- Hp. apply sorted_perm.
Qed.

(** ** Dates and bucket keys *)

Lemma new_datetime_valid (y m d : Z) (dt : datetime) :
  new_datetime y m d = Ok dt -> dt = mk_datetime y m d /\ valid_date dt.
Proof.
  unfold new_datetime, valid_date.
  destruct (_ && _) eqn:E; [|discriminate].
  intros [= <-]. simpl. split; [reflexivity|].
  repeat (apply andb_prop in E as [E ?]). lia.
Qed.

(** What [strptime] returns is a date of the calendar. *)
Lemma strptime_valid (s : string) (d : datetime) :
  strptime s = Ok d -> valid_date d.
Proof.
  unfold strptime.
  destruct (format_regex_match _) as [[[[Y m] dd] rest]|]; [|discriminate].
  destruct rest; [|discriminate].
  intros H. apply new_datetime_valid in H as [_ H]. exact H.
Qed.

(** Linear arithmetic with quotients and remainders by constants. *)
Ltac dlia := Z.div_mod_to_equations; lia.

Lemma digit_char_inj (a b : Z) :
  0 <= a <= 9 -> 0 <= b <= 9 -> digit_char a = digit_char b -> a = b.
Proof.
  unfold digit_char. intros Ha Hb H.
  apply (f_equal nat_of_ascii) in H.
  rewrite !nat_ascii_embedding in H by lia. lia.
Qed.

Lemma fmt2_inj (a b : Z) : 0 <= a <= 99 -> 0 <= b <= 99 -> fmt2 a = fmt2 b -> a = b.
Proof.
  unfold fmt2. intros Ha Hb [= H1 H2].
  apply digit_char_inj in H1; [|dlia..].
  apply digit_char_inj in H2; [|dlia..].
  dlia.
Qed.

Lemma fmt4_inj (a b : Z) :
  0 <= a <= 9999 -> 0 <= b <= 9999 -> fmt4 a = fmt4 b -> a = b.
Proof.
  unfold fmt4, fmt2. intros Ha Hb [= H1 H2 H3 H4].
  apply digit_char_inj in H1; [|dlia..].
  apply digit_char_inj in H2; [|dlia..].
  apply digit_char_inj in H3; [|dlia..].
  apply digit_char_inj in H4; [|dlia..].
  dlia.
Qed.

(** A year key names one year ... *)
Lemma strftime_Y_inj (d d' : datetime) :
  valid_date d -> valid_date d' ->
  strftime_Y d = strftime_Y d' <-> year d = year d'.
Proof.
  unfold strftime_Y, valid_date. intros Hd Hd'. split.
  - apply fmt4_inj; lia.
  - intros ->. reflexivity.
Qed.

(** ... and a month key one month of one year. *)
Lemma strftime_Ym_inj (d d' : datetime) :
  valid_date d -> valid_date d' ->
  strftime_Ym d = strftime_Ym d' <-> year d = year d' /\ month d = month d'.
Proof.
  unfold strftime_Ym, valid_date. intros Hd Hd'. split.
  - unfold fmt4, fmt2. simpl. intros [= H1 H2 H3 H4 H5 H6].
    split.
    + apply fmt4_inj; [lia..|]. unfold fmt4, fmt2. congruence.
    + apply fmt2_inj; [lia..|]. unfold fmt2. congruence.
  - intros [-> ->]. reflexivity.
Qed.

(** ** Counting *)

Lemma count_nil (p : string * record -> bool) : count p [] = 0.
Proof. reflexivity. Qed.

Lemma count_snoc (p : string * record -> bool) (l : log) (x : string * record) :
  count p (l ++ [x]) = count p l + (if p x then 1 else 0).
Proof.
  unfold count. rewrite List.filter_app, length_app. simpl.
  destruct (p x); simpl; lia.
Qed.

Lemma count_cons (p : string * record -> bool) (l : log) (x : string * record) :
  count p (x :: l) = (if p x then 1 else 0) + count p l.
Proof. unfold count. simpl. destruct (p x); simpl; lia. Qed.

Lemma count_nonneg (p : string * record -> bool) (l : log) : 0 <= count p l.
Proof. unfold count. lia. Qed.

Lemma count_ext (p q : string * record -> bool) (l : log) :
  (forall x, In x l -> p x = q x) -> count p l = count q l.
Proof.
  intros H. unfold count. f_equal. f_equal. apply List.filter_ext_in. exact H.
Qed.

Lemma count_le (p q : string * record -> bool) (l : log) :
  (forall x, p x = true -> q x = true) -> count p l <= count q l.
Proof.
  intros H. induction l as [|x l IH]; [reflexivity|].
  rewrite !count_cons. destruct (p x) eqn:P.
  - rewrite (H x P). lia.
  - destruct (q x); lia.
Qed.

Lemma count_split (p q : string * record -> bool) (l : log) :
  count (fun x => p x && q x) l + count (fun x => p x && negb (q x)) l = count p l.
Proof.
  induction l as [|x l IH]; [reflexivity|].
  rewrite !count_cons. destruct (p x), (q x); simpl; lia.
Qed.

Lemma count_pos (p : string * record -> bool) (l : log) :
  1 <= count p l <-> exists x, In x l /\ p x = true.
Proof.
  induction l as [|x l IH].
  - rewrite count_nil. split; [lia|]. intros (x & [] & _).
  - rewrite count_cons. pose proof (count_nonneg p l). split.
    + destruct (p x) eqn:P.
      * intros _. exists x. split; [left; reflexivity|exact P].
      * intros H1. destruct IH as [IH _]. destruct IH as (y & Hy & Py); [lia|].
        exists y. split; [right; exact Hy|exact Py].
    + intros (y & [<-|Hy] & Py).
      * rewrite Py. lia.
      * destruct IH as [_ IH]. specialize (IH (ex_intro _ y (conj Hy Py))).
        destruct (p x); lia.
Qed.

(** ** The spend of one entry *)

Section Spend.

Variable DEFAULT_AMOUNT : float.
Variable float_of_str : string -> option float.

Lemma spend_monthly_eq (r : record) :
  SobrietyTracker.spend_monthly DEFAULT_AMOUNT float_of_str r =
  Ok (effective_spend DEFAULT_AMOUNT float_of_str r).
Proof.
  unfold SobrietyTracker.spend_monthly, effective_spend.
  destruct (SobrietyTracker.amount_spent _ _ r) as [x|e]; simpl; [reflexivity|].
  unfold effective_spend. destruct (PrimFloat.eqb DEFAULT_AMOUNT 0); reflexivity.
Qed.

Lemma spend_overall_eq (r : record) :
  SobrietyTracker.spend_overall DEFAULT_AMOUNT float_of_str r =
  Ok (effective_spend DEFAULT_AMOUNT float_of_str r).
Proof.
  unfold SobrietyTracker.spend_overall, effective_spend.
  destruct (SobrietyTracker.amount_spent _ _ r) as [x|e]; reflexivity.
Qed.

(** ** One turn of [get_statistics] *)

Lemma update_setdefault {V : Type} (m : gmap string V) (k : string) (v : V) (f : V -> V) :
  update (setdefault m k v) k f =
  Ok (<[k := f (match m !! k with Some b => b | None => v end)]> m).
Proof.
  unfold update, setdefault. destruct (m !! k) as [b|] eqn:E.
  - rewrite E. reflexivity.
  - rewrite lookup_insert_eq, insert_insert_eq. reflexivity.
Qed.

Lemma update_insert {V : Type} (m : gmap string V) (k : string) (v : V) (f : V -> V) :
  update (<[k := v]> m) k f = Ok (<[k := f v]> m).
Proof. unfold update. rewrite lookup_insert_eq, insert_insert_eq. reflexivity. Qed.

Lemma get_statistics_body_invalid (st : stats) (date_str : string) (r : record) :
  valid_key date_str = false ->
  SobrietyTracker.get_statistics_body DEFAULT_AMOUNT float_of_str st (date_str, r) = Ok st.
Proof.
  unfold valid_key, SobrietyTracker.get_statistics_body.
  destruct (strptime date_str); [discriminate|reflexivity].
Qed.

Lemma get_statistics_body_valid (st : stats) (date_str : string) (r : record)
    (d : datetime) :
  strptime date_str = Ok d ->
  SobrietyTracker.get_statistics_body DEFAULT_AMOUNT float_of_str st (date_str, r) =
  Ok (mk_stats
        (<[strftime_Ym d :=
             month_turn (is_sober r) (effective_spend DEFAULT_AMOUNT float_of_str r)
                        (month_bucket (monthly st) (strftime_Ym d))]> (monthly st))
        (<[strftime_Y d :=
             year_turn (is_sober r) (year_bucket (yearly st) (strftime_Y d))]>
           (yearly st))).
Proof.
  intros Hd. unfold SobrietyTracker.get_statistics_body. rewrite Hd.
  cbv zeta. rewrite !update_setdefault, bind_Ok. cbv beta.
  unfold month_turn, year_turn, month_bucket, year_bucket.
  destruct (is_sober r) eqn:Hs.
  - rewrite update_insert, bind_Ok, bind_Ok, update_insert, bind_Ok.
    reflexivity.
  - rewrite spend_monthly_eq, bind_Ok, update_insert, bind_Ok, bind_Ok, bind_Ok.
    reflexivity.
Qed.

(** ** [get_statistics] never raises, and its buckets are the counts *)

Lemma has_month_key_date (k date_str : string) (r : record) (d : datetime) :
  strptime date_str = Ok d ->
  has_month_key k (date_str, r) = String.eqb (strftime_Ym d) k.
Proof. intros H. unfold has_month_key, date_of. cbn [fst]. rewrite H. reflexivity. Qed.

Lemma has_year_key_date (k date_str : string) (r : record) (d : datetime) :
  strptime date_str = Ok d ->
  has_year_key k (date_str, r) = String.eqb (strftime_Y d) k.
Proof. intros H. unfold has_year_key, date_of. cbn [fst]. rewrite H. reflexivity. Qed.

Lemma month_counts_turn (l : log) (m : gmap string mstat) (date_str : string)
    (r : record) (d : datetime) (amt : float) :
  strptime date_str = Ok d ->
  month_counts l m ->
  month_counts (l ++ [(date_str, r)])
    (<[strftime_Ym d := month_turn (is_sober r) amt (month_bucket m (strftime_Ym d))]> m).
Proof.
  intros Hd Hm k. rewrite !count_snoc.
  rewrite (has_month_key_date k _ r d Hd). unfold sober_item at 2. cbn [snd].
  specialize (Hm k). unfold month_bucket.
  destruct (String.eqb_spec (strftime_Ym d) k) as [->|Hne].
  - rewrite lookup_insert_eq.
    pose proof (count_nonneg (has_month_key k) l) as Hnn.
    destruct (m !! k) as [b|]; unfold month_turn; destruct (is_sober r);
      cbn [m_total_days m_sober_days m_spent andb].
    + lia.
    + lia.
    + assert (H0 : count (fun it => has_month_key k it && sober_item it) l = 0).
      { pose proof (count_le (fun it => has_month_key k it && sober_item it)
                             (has_month_key k) l) as Hle.
        pose proof (count_nonneg (fun it => has_month_key k it && sober_item it) l).
        assert (count (fun it => has_month_key k it && sober_item it) l
                <= count (has_month_key k) l).
        { apply Hle. intros x Hx. apply andb_prop in Hx as [Hx _]. exact Hx. }
        lia. }
      lia.
    + assert (H0 : count (fun it => has_month_key k it && sober_item it) l = 0).
      { pose proof (count_nonneg (fun it => has_month_key k it && sober_item it) l).
        assert (count (fun it => has_month_key k it && sober_item it) l
                <= count (has_month_key k) l).
        { apply count_le. intros x Hx. apply andb_prop in Hx as [Hx _]. exact Hx. }
        lia. }
      lia.
  - rewrite lookup_insert_ne by exact Hne. cbn [andb].
    destruct (m !! k) as [b|]; lia.
Qed.

Lemma year_counts_turn (l : log) (m : gmap string ystat) (date_str : string)
    (r : record) (d : datetime) :
  strptime date_str = Ok d ->
  year_counts l m ->
  year_counts (l ++ [(date_str, r)])
    (<[strftime_Y d := year_turn (is_sober r) (year_bucket m (strftime_Y d))]> m).
Proof.
  intros Hd Hm k. rewrite !count_snoc.
  rewrite (has_year_key_date k _ r d Hd). unfold sober_item at 2. cbn [snd].
  specialize (Hm k). unfold year_bucket.
  assert (Hle : 0 <= count (fun it => has_year_key k it && sober_item it) l
                <= count (has_year_key k) l).
  { split; [apply count_nonneg|].
    apply count_le. intros x Hx. apply andb_prop in Hx as [Hx _]. exact Hx. }
  destruct (String.eqb_spec (strftime_Y d) k) as [->|Hne].
  - rewrite lookup_insert_eq.
    destruct (m !! k) as [b|]; unfold year_turn; destruct (is_sober r);
      cbn [y_total_days y_sober_days andb]; lia.
  - rewrite lookup_insert_ne by exact Hne. cbn [andb].
    destruct (m !! k) as [b|]; lia.
Qed.

Lemma counts_skip (l : log) (date_str : string) (r : record) (st : stats) :
  valid_key date_str = false ->
  month_counts l (monthly st) /\ year_counts l (yearly st) ->
  month_counts (l ++ [(date_str, r)]) (monthly st) /\
  year_counts (l ++ [(date_str, r)]) (yearly st).
Proof.
  unfold valid_key. intros Hv [Hm Hy].
  assert (Hnone : date_of (date_str, r) = None).
  { unfold date_of. cbn [fst]. destruct (strptime date_str); [discriminate|reflexivity]. }
  assert (Hmk : forall k, has_month_key k (date_str, r) = false).
  { intros k. unfold has_month_key. rewrite Hnone. reflexivity. }
  assert (Hyk : forall k, has_year_key k (date_str, r) = false).
  { intros k. unfold has_year_key. rewrite Hnone. reflexivity. }
  split; intros k; rewrite !count_snoc.
  - rewrite Hmk. cbn [andb].
    specialize (Hm k). destruct (monthly st !! k); lia.
  - rewrite Hyk. cbn [andb].
    specialize (Hy k). destruct (yearly st !! k); lia.
Qed.

Lemma get_statistics_counts (daily_log : log) :
  exists st,
    SobrietyTracker.get_statistics DEFAULT_AMOUNT float_of_str daily_log = Ok st /\
    month_counts daily_log (monthly st) /\ year_counts daily_log (yearly st).
Proof.
  unfold SobrietyTracker.get_statistics, items.
  induction daily_log as [|[date_str r] l IH] using rev_ind.
  - exists (mk_stats ∅ ∅). split; [reflexivity|].
    split; intros k; cbn [monthly yearly]; rewrite lookup_empty; reflexivity.
  - destruct IH as (st & Hst & Hm & Hy).
    rewrite for_each_snoc, Hst, bind_Ok.
    destruct (strptime date_str) as [d|e] eqn:Hd.
    + rewrite (get_statistics_body_valid st date_str r d Hd).
      eexists. split; [reflexivity|]. cbn [monthly yearly]. split.
      * apply month_counts_turn; assumption.
      * apply year_counts_turn; assumption.
    + rewrite get_statistics_body_invalid
        by (unfold valid_key; rewrite Hd; reflexivity).
      exists st. split; [reflexivity|].
      apply counts_skip; [unfold valid_key; rewrite Hd; reflexivity|].
      split; assumption.
Qed.

End Spend.

(** ** Percentages *)

Lemma percent_value (s t : Z) :
  percent s t =
  Ok (if t =? 0 then 0%Q else (inject_Z s / inject_Z t * 100)%Q).
Proof.
  unfold percent, truediv. destruct (t =? 0); reflexivity.
Qed.



(** ** [get_additional_stats] never raises *)

Lemma count_sober_loop (daily_log : log) (ks : list string) (n : Z) :
  (forall k, In k ks -> In k (keys daily_log)) ->
  exists z,
    for_each (fun n d => r ← getitem daily_log d; Ok (if is_sober r then n + 1 else n))
             ks n = Ok z /\
    n <= z <= n + Z.of_nat (length ks).
Proof.
  revert n. induction ks as [|k ks IH]; intros n Hk.
  - exists n. split; [reflexivity|]. cbn [length]. lia.
  - cbn [for_each].
    destruct (getitem_key daily_log k) as (r & Hr & _); [apply Hk; left; reflexivity|].
    rewrite Hr, !bind_Ok.
    destruct (IH (if is_sober r then n + 1 else n)) as (z & Hz & Hb).
    { intros k' Hk'. apply Hk. right; exact Hk'. }
    exists z. split; [exact Hz|]. cbn [length]. destruct (is_sober r); lia.
Qed.

Lemma count_sober_ok (daily_log : log) :
  exists z, SobrietyTracker.count_sober daily_log = Ok z /\
            0 <= z <= Z.of_nat (length daily_log).
Proof.
  unfold SobrietyTracker.count_sober.
  destruct (count_sober_loop daily_log (keys daily_log) 0) as (z & Hz & Hb);
    [auto|].
  exists z. split; [exact Hz|]. unfold keys in Hb. rewrite length_map in Hb. lia.
Qed.

(** On a dictionary the loop over the keys counts the sober entries. *)
Lemma count_sober_wf_loop (daily_log : log) (l : log) (n : Z) :
  wf_log daily_log -> (forall it, In it l -> In it daily_log) ->
  for_each (fun n d => r ← getitem daily_log d; Ok (if is_sober r then n + 1 else n))
           (keys l) n = Ok (n + count sober_item l).
Proof.
  intros Hwf. revert n. induction l as [|[k r] l IH]; intros n Hin.
  - cbn. f_equal. rewrite count_nil. lia.
  - cbn [keys map for_each fst].
    rewrite (getitem_wf daily_log k r Hwf) by (apply Hin; left; reflexivity).
    rewrite !bind_Ok. fold (keys l). rewrite IH by (intros it Hit; apply Hin; right; exact Hit).
    f_equal. rewrite count_cons. unfold sober_item at 2. cbn [snd].
    destruct (is_sober r); lia.
Qed.

Lemma count_sober_wf (daily_log : log) :
  wf_log daily_log ->
  SobrietyTracker.count_sober daily_log = Ok (count sober_item daily_log).
Proof.
  intros Hwf. unfold SobrietyTracker.count_sober.
  rewrite (count_sober_wf_loop daily_log daily_log 0 Hwf) by auto.
  reflexivity.
Qed.

Lemma streak_body_ok (daily_log : log) (st : streak_state) (k : string) :
  In k (keys daily_log) ->
  exists st', SobrietyTracker.streak_body daily_log st k = Ok st'.
Proof.
  intros Hk. unfold SobrietyTracker.streak_body.
  destruct (strptime k) as [d|e]; [|eauto].
  destruct (getitem_key daily_log k Hk) as (r & Hr & _). rewrite Hr, bind_Ok.
  destruct (is_sober r); eauto.
Qed.

Lemma streak_loop_ok (daily_log : log) (ks : list string) (st : streak_state) :
  (forall k, In k ks -> In k (keys daily_log)) ->
  exists st', for_each (SobrietyTracker.streak_body daily_log) ks st = Ok st'.
Proof.
  intros Hk. apply for_each_total. intros s k Hin. apply streak_body_ok. auto.
Qed.

Lemma current_seq_loop_ok (daily_log : log) (ks : list string) (n : Z) :
  (forall k, In k ks -> In k (keys daily_log)) ->
  exists z, SobrietyTracker.current_seq_loop daily_log ks n = Ok z /\ n <= z.
Proof.
  revert n. induction ks as [|k ks IH]; intros n Hk.
  - exists n. split; [reflexivity|lia].
  - cbn [SobrietyTracker.current_seq_loop].
    destruct (getitem_key daily_log k) as (r & Hr & _); [apply Hk; left; reflexivity|].
    rewrite Hr, bind_Ok. destruct (is_sober r).
    + destruct (IH (n + 1)) as (z & Hz & Hb); [intros k' Hk'; apply Hk; right; exact Hk'|].
      exists z. split; [exact Hz|lia].
    + exists n. split; [reflexivity|lia].
Qed.

Lemma sorted_keys_In (daily_log : log) (k : string) :
  In k (sorted (keys daily_log)) -> In k (keys daily_log).
Proof. apply sorted_In. Qed.

Lemma reversed_sorted_keys_In (daily_log : log) (k : string) :
  In k (reversed (sorted (keys daily_log))) -> In k (keys daily_log).
Proof. unfold reversed. rewrite <- in_rev. apply sorted_In. Qed.

(** The parts of [get_additional_stats], each of them returned. *)
Lemma get_additional_stats_parts (daily_log : log) :
  exists sober_days st current_seq,
    SobrietyTracker.count_sober daily_log = Ok sober_days /\
    0 <= sober_days <= Z.of_nat (length daily_log) /\
    for_each (SobrietyTracker.streak_body daily_log) (sorted (keys daily_log))
             (mk_streak 0 0 None) = Ok st /\
    SobrietyTracker.current_seq_loop daily_log (reversed (sorted (keys daily_log))) 0
      = Ok current_seq /\
    0 <= current_seq /\
    SobrietyTracker.get_additional_stats daily_log =
    Ok (mk_add_stats
          (Z.of_nat (length daily_log))
          (if Z.of_nat (length daily_log) =? 0 then 0%Q
           else (inject_Z sober_days / inject_Z (Z.of_nat (length daily_log)) * 100)%Q)
          (st_longest st) current_seq).
Proof.
  destruct (count_sober_ok daily_log) as (s & Hs & Hsb).
  destruct (streak_loop_ok daily_log (sorted (keys daily_log)) (mk_streak 0 0 None)
              (sorted_keys_In daily_log)) as (st & Hst).
  destruct (current_seq_loop_ok daily_log (reversed (sorted (keys daily_log))) 0
              (reversed_sorted_keys_In daily_log)) as (c & Hc & Hcb).
  exists s, st, c. repeat split; try assumption; try lia.
  unfold SobrietyTracker.get_additional_stats. cbv zeta.
  assert (Hlen : length (sorted (keys daily_log)) = length daily_log).
  { rewrite sorted_length. unfold keys. apply length_map. }
  rewrite Hs, bind_Ok, Hlen.
  rewrite percent_value, bind_Ok, Hst, bind_Ok, Hc, bind_Ok.
  reflexivity.
Qed.

(** ** [print_statistics] never raises *)

Lemma month_rows_loop (m : gmap string mstat) (ks : list string)
    (rows0 : list (string * mstat * Q)) :
  (forall k, In k ks -> is_Some (m !! k)) ->
  exists rows,
    for_each (fun rows month_key =>
                m_stat ← (match m !! month_key with
                          | Some b => Ok b
                          | None => Raise KeyError
                          end);
                p ← percent (m_sober_days m_stat) (m_total_days m_stat);
                Ok (rows ++ [(month_key, m_stat, p)]))
             ks rows0 = Ok (rows0 ++ rows) /\
    map (fun row => fst (fst row)) rows = ks /\
    Forall (month_row_ok m) rows.
Proof.
  revert rows0. induction ks as [|k ks IH]; intros rows0 Hk.
  - exists []. rewrite app_nil_r. repeat split. constructor.
  - cbn [for_each]. destruct (Hk k (or_introl eq_refl)) as [b Hb].
    rewrite Hb, bind_Ok, percent_value, bind_Ok, bind_Ok.
    destruct (IH (rows0 ++ [(k, b, percent_of (m_sober_days b) (m_total_days b))]))
      as (rows & Hrows & Hkeys & Hok).
    { intros k' Hk'. apply Hk. right; exact Hk'. }
    exists ((k, b, percent_of (m_sober_days b) (m_total_days b)) :: rows).
    split; [|split].
    + unfold percent_of in Hrows. rewrite Hrows, <- app_assoc. reflexivity.
    + cbn [map fst]. rewrite Hkeys. reflexivity.
    + constructor; [|exact Hok]. split; [exact Hb|reflexivity].
Qed.

Lemma year_rows_loop (m : gmap string ystat) (ks : list string)
    (rows0 : list (string * ystat * Q)) :
  (forall k, In k ks -> is_Some (m !! k)) ->
  exists rows,
    for_each (fun rows year_key =>
                y_stat ← (match m !! year_key with
                          | Some b => Ok b
                          | None => Raise KeyError
                          end);
                p ← percent (y_sober_days y_stat) (y_total_days y_stat);
                Ok (rows ++ [(year_key, y_stat, p)]))
             ks rows0 = Ok (rows0 ++ rows) /\
    map (fun row => fst (fst row)) rows = ks /\
    Forall (year_row_ok m) rows.
Proof.
  revert rows0. induction ks as [|k ks IH]; intros rows0 Hk.
  - exists []. rewrite app_nil_r. repeat split. constructor.
  - cbn [for_each]. destruct (Hk k (or_introl eq_refl)) as [b Hb].
    rewrite Hb, bind_Ok, percent_value, bind_Ok, bind_Ok.
    destruct (IH (rows0 ++ [(k, b, percent_of (y_sober_days b) (y_total_days b))]))
      as (rows & Hrows & Hkeys & Hok).
    { intros k' Hk'. apply Hk. right; exact Hk'. }
    exists ((k, b, percent_of (y_sober_days b) (y_total_days b)) :: rows).
    split; [|split].
    + unfold percent_of in Hrows. rewrite Hrows, <- app_assoc. reflexivity.
    + cbn [map fst]. rewrite Hkeys. reflexivity.
    + constructor; [|exact Hok]. split; [exact Hb|reflexivity].
Qed.

Lemma sorted_dom_In {V : Type} (m : gmap string V) (k : string) :
  In k (sorted (elements (dom m))) <-> is_Some (m !! k).
Proof.
  rewrite sorted_In, <- list_elem_of_In, elem_of_elements, elem_of_dom. reflexivity.
Qed.

Section Spending.

Variable DEFAULT_AMOUNT : float.
Variable float_of_str : string -> option float.

Lemma spending_body_eq (now : datetime) (acc : float * float)
    (item : string * record) :
  SobrietyTracker.spending_body DEFAULT_AMOUNT float_of_str now acc item =
  Ok (spending_turn DEFAULT_AMOUNT float_of_str now acc item).
Proof.
  destruct item as [date_str r]. destruct acc as [o c].
  unfold SobrietyTracker.spending_body, spending_turn, date_of. cbn [fst snd].
  destruct (strptime date_str) as [d|e]; [|reflexivity].
  destruct (is_sober r); cbn [negb]; [reflexivity|].
  rewrite spend_overall_eq, bind_Ok.
  destruct ((year d =? year now) && (month d =? month now)); reflexivity.
Qed.

(** The spending loop is a plain fold of [spending_turn]. *)
Lemma spending_loop_eq (now : datetime) (l : log) (acc : float * float) :
  for_each (SobrietyTracker.spending_body DEFAULT_AMOUNT float_of_str now) l acc =
  Ok (fold_left (spending_turn DEFAULT_AMOUNT float_of_str now) l acc).
Proof.
  revert acc. induction l as [|x l IH]; intros acc; [reflexivity|].
  cbn [for_each fold_left]. rewrite spending_body_eq, bind_Ok. apply IH.
Qed.

Lemma print_statistics_parts (w : world) (daily_log : log) :
  exists st a rows_m rows_y,
    SobrietyTracker.get_statistics DEFAULT_AMOUNT float_of_str daily_log = Ok st /\
    SobrietyTracker.get_additional_stats daily_log = Ok a /\
    map (fun row => fst (fst row)) rows_m = sorted (elements (dom (monthly st))) /\
    Forall (month_row_ok (monthly st)) rows_m /\
    map (fun row => fst (fst row)) rows_y = sorted (elements (dom (yearly st))) /\
    Forall (year_row_ok (yearly st)) rows_y /\
    SobrietyTracker.print_statistics DEFAULT_AMOUNT float_of_str w daily_log =
    Ok (SobrietyTracker.mk_printed rows_m rows_y a
          (fst (fold_left (spending_turn DEFAULT_AMOUNT float_of_str (clock w))
                          daily_log (0%float, 0%float)))
          (snd (fold_left (spending_turn DEFAULT_AMOUNT float_of_str (clock w))
                          daily_log (0%float, 0%float)))).
Proof.
  destruct (get_statistics_counts DEFAULT_AMOUNT float_of_str daily_log)
    as (st & Hst & _ & _).
  destruct (get_additional_stats_parts daily_log) as (s & ss & c & _ & _ & _ & _ & _ & Ha).
  destruct (month_rows_loop (monthly st) (sorted (elements (dom (monthly st)))) [])
    as (rows_m & Hm & Hmk & Hmok); [intros k; apply sorted_dom_In|].
  destruct (year_rows_loop (yearly st) (sorted (elements (dom (yearly st)))) [])
    as (rows_y & Hy & Hyk & Hyok); [intros k; apply sorted_dom_In|].
  eexists st, _, rows_m, rows_y.
  split; [exact Hst|]. split; [exact Ha|].
  repeat (split; [assumption|]).
  unfold SobrietyTracker.print_statistics.
  rewrite Hst, bind_Ok, Ha, bind_Ok, Hm, bind_Ok, Hy, bind_Ok.
  cbv zeta. unfold datetime_now, items. rewrite spending_loop_eq, bind_Ok.
  destruct (fold_left _ daily_log _) as [o cm]. reflexivity.
Qed.

End Spending.

(** ** Keys and periods *)

Lemma date_of_valid (item : string * record) (d : datetime) :
  date_of item = Some d -> valid_date d.
Proof.
  unfold date_of. destruct (strptime (fst item)) as [d'|e] eqn:E; [|discriminate].
  intros [= <-]. eapply strptime_valid; exact E.
Qed.

Lemma has_month_key_in_month (d : datetime) (item : string * record) :
  valid_date d ->
  has_month_key (strftime_Ym d) item = in_month (year d) (month d) item.
Proof.
  intros Hd. unfold has_month_key, in_month.
  destruct (date_of item) as [d'|] eqn:E; [|reflexivity].
  pose proof (strftime_Ym_inj d' d (date_of_valid _ _ E) Hd) as Hinj.
  destruct (String.eqb_spec (strftime_Ym d') (strftime_Ym d)) as [Heq|Hne].
  - apply Hinj in Heq as [-> ->]. rewrite !Z.eqb_refl. reflexivity.
  - symmetry. apply andb_false_iff.
    destruct (Z.eqb_spec (year d') (year d)) as [Hy|]; [|left; reflexivity].
    destruct (Z.eqb_spec (month d') (month d)) as [Hm|]; [|right; reflexivity].
    exfalso. apply Hne, Hinj. split; assumption.
Qed.

Lemma has_year_key_in_year (d : datetime) (item : string * record) :
  valid_date d ->
  has_year_key (strftime_Y d) item = in_year (year d) item.
Proof.
  intros Hd. unfold has_year_key, in_year.
  destruct (date_of item) as [d'|] eqn:E; [|reflexivity].
  pose proof (strftime_Y_inj d' d (date_of_valid _ _ E) Hd) as Hinj.
  destruct (String.eqb_spec (strftime_Y d') (strftime_Y d)) as [Heq|Hne].
  - apply Hinj in Heq as ->. rewrite Z.eqb_refl. reflexivity.
  - symmetry. apply Z.eqb_neq. intros Hy. apply Hne, Hinj. exact Hy.
Qed.

Lemma count_sober_le (p : string * record -> bool) (l : log) :
  0 <= count (fun it => p it && sober_item it) l <= count p l.
Proof.
  split; [apply count_nonneg|].
  apply count_le. intros x Hx. apply andb_prop in Hx as [Hx _]. exact Hx.
Qed.

(** ** The buckets of [get_statistics] *)

(** C7. Whatever the log, [get_statistics] returns, and its buckets are
    the counts of the dated entries: in the bucket of a month (of a
    year) [total_days] is the number of entries dated in it,
    [sober_days] the number of sober ones among them, so that
    [sober_days] plus the number of the others is [total_days] and
    [0 <= sober_days <= total_days]; the month (the year) has a bucket
    exactly when an entry is dated in it, a bucket has [total_days >= 1],
    and every bucket is the bucket of the period of some dated entry. *)
Theorem C7_buckets_count_dated_entries
    (DEFAULT_AMOUNT : float) (float_of_str : string -> option float)
    (daily_log : log) :
  exists st,
    SobrietyTracker.get_statistics DEFAULT_AMOUNT float_of_str daily_log = Ok st /\
    (forall d, valid_date d ->
       let inp := in_month (year d) (month d) in
       match monthly st !! strftime_Ym d with
       | Some b =>
           m_total_days b = count inp daily_log /\
           m_sober_days b = count (fun it => inp it && sober_item it) daily_log /\
           m_sober_days b + count (fun it => inp it && negb (sober_item it)) daily_log
             = m_total_days b /\
           0 <= m_sober_days b <= m_total_days b /\
           1 <= m_total_days b
       | None => count inp daily_log = 0
       end) /\
    (forall d, valid_date d ->
       let inp := in_year (year d) in
       match yearly st !! strftime_Y d with
       | Some b =>
           y_total_days b = count inp daily_log /\
           y_sober_days b = count (fun it => inp it && sober_item it) daily_log /\
           y_sober_days b + count (fun it => inp it && negb (sober_item it)) daily_log
             = y_total_days b /\
           0 <= y_sober_days b <= y_total_days b /\
           1 <= y_total_days b
       | None => count inp daily_log = 0
       end) /\
    (forall k b, monthly st !! k = Some b ->
       exists item d, In item daily_log /\ date_of item = Some d /\ k = strftime_Ym d) /\
    (forall k b, yearly st !! k = Some b ->
       exists item d, In item daily_log /\ date_of item = Some d /\ k = strftime_Y d).
Proof.
  destruct (get_statistics_counts DEFAULT_AMOUNT float_of_str daily_log)
    as (st & Hst & Hm & Hy).
  exists st. split; [exact Hst|]. split; [|split; [|split]].
  - intros d Hd inp. specialize (Hm (strftime_Ym d)).
    assert (E1 : count (has_month_key (strftime_Ym d)) daily_log = count inp daily_log).
    { apply count_ext. intros x _. apply has_month_key_in_month, Hd. }
    assert (E2 : count (fun it => has_month_key (strftime_Ym d) it && sober_item it) daily_log
                 = count (fun it => inp it && sober_item it) daily_log).
    { apply count_ext. intros x _. rewrite has_month_key_in_month by exact Hd. reflexivity. }
    pose proof (count_split inp sober_item daily_log) as Hsplit.
    pose proof (count_sober_le inp daily_log) as Hle.
    destruct (monthly st !! strftime_Ym d) as [b|].
    + destruct Hm as (Ht & Hs & H1). rewrite E1 in Ht. rewrite E2 in Hs.
      repeat split; lia.
    + lia.
  - intros d Hd inp. specialize (Hy (strftime_Y d)).
    assert (E1 : count (has_year_key (strftime_Y d)) daily_log = count inp daily_log).
    { apply count_ext. intros x _. apply has_year_key_in_year, Hd. }
    assert (E2 : count (fun it => has_year_key (strftime_Y d) it && sober_item it) daily_log
                 = count (fun it => inp it && sober_item it) daily_log).
    { apply count_ext. intros x _. rewrite has_year_key_in_year by exact Hd. reflexivity. }
    pose proof (count_split inp sober_item daily_log) as Hsplit.
    pose proof (count_sober_le inp daily_log) as Hle.
    destruct (yearly st !! strftime_Y d) as [b|].
    + destruct Hy as (Ht & Hs & H1). rewrite E1 in Ht. rewrite E2 in Hs.
      repeat split; lia.
    + lia.
  - intros k b Hb. specialize (Hm k). rewrite Hb in Hm. destruct Hm as (Ht & _ & H1).
    rewrite Ht in H1. apply count_pos in H1 as (item & Hin & Hk).
    unfold has_month_key in Hk. destruct (date_of item) as [d|] eqn:E; [|discriminate].
    exists item, d. split; [exact Hin|]. split; [exact E|].
    symmetry. apply String.eqb_eq. exact Hk.
  - intros k b Hb. specialize (Hy k). rewrite Hb in Hy. destruct Hy as (Ht & _ & H1).
    rewrite Ht in H1. apply count_pos in H1 as (item & Hin & Hk).
    unfold has_year_key in Hk. destruct (date_of item) as [d|] eqn:E; [|discriminate].
    exists item, d. split; [exact Hin|]. split; [exact E|].
    symmetry. apply String.eqb_eq. exact Hk.
Qed.

(** ** Percentages of the aggregates *)






Section Calendar.

Variable float_of_str : string -> option float.




End Calendar.


(** ** The effective spend *)


Section Rule.

Variable DEFAULT_AMOUNT : float.
Variable float_of_str : string -> option float.





End Rule.

(** ** Entries whose key is not a date *)

Lemma streak_body_invalid (daily_log : log) (st : streak_state) (k : string) :
  valid_key k = false -> SobrietyTracker.streak_body daily_log st k = Ok st.
Proof.
  unfold valid_key, SobrietyTracker.streak_body.
  destruct (strptime k); [discriminate|reflexivity].
Qed.

Lemma streak_body_valid_entries (daily_log : log) (st : streak_state) (k : string) :
  valid_key k = true ->
  SobrietyTracker.streak_body (valid_entries daily_log) st k =
  SobrietyTracker.streak_body daily_log st k.
Proof.
  intros Hk. unfold SobrietyTracker.streak_body, valid_entries.
  rewrite (getitem_filter valid_key daily_log k Hk). reflexivity.
Qed.

Lemma sorted_keys_valid_entries (daily_log : log) :
  sorted (keys (valid_entries daily_log)) =
  List.filter valid_key (sorted (keys daily_log)).
Proof. unfold valid_entries. rewrite keys_filter. apply sorted_filter. Qed.

(** The longest-streak walk sees the dated entries only. *)
Lemma streak_loop_valid_entries (daily_log : log) (st : streak_state) :
  for_each (SobrietyTracker.streak_body (valid_entries daily_log))
           (sorted (keys (valid_entries daily_log))) st =
  for_each (SobrietyTracker.streak_body daily_log) (sorted (keys daily_log)) st.
Proof.
  rewrite sorted_keys_valid_entries.
  rewrite (for_each_skip (SobrietyTracker.streak_body daily_log) valid_key
             (sorted (keys daily_log)))
    by (intros s x; apply streak_body_invalid).
  apply for_each_ext. intros s x Hx. apply filter_In in Hx as [_ Hx].
  apply streak_body_valid_entries. exact Hx.
Qed.

(** The loop from the latest key backwards counts the sober run at the
    end of the keys in order, dated or not. *)
Lemma current_seq_loop_run (daily_log : log) (ks : list string) (n : Z) :
  (forall k, In k ks -> In k (keys daily_log)) ->
  SobrietyTracker.current_seq_loop daily_log ks n =
  Ok (n + run_length (map (sober_flag daily_log) ks)).
Proof.
  revert n. induction ks as [|k ks IH]; intros n Hk.
  - cbn. f_equal. lia.
  - cbn [SobrietyTracker.current_seq_loop map run_length].
    destruct (getitem_key daily_log k) as (r & Hr & _); [apply Hk; left; reflexivity|].
    unfold sober_flag at 1. rewrite Hr, bind_Ok. destruct (is_sober r).
    + rewrite IH by (intros k' Hk'; apply Hk; right; exact Hk'). f_equal. lia.
    + f_equal. lia.
Qed.

Section Undated.

Variable DEFAULT_AMOUNT : float.
Variable float_of_str : string -> option float.

Lemma get_statistics_valid_entries (daily_log : log) :
  SobrietyTracker.get_statistics DEFAULT_AMOUNT float_of_str (valid_entries daily_log) =
  SobrietyTracker.get_statistics DEFAULT_AMOUNT float_of_str daily_log.
Proof.
  unfold SobrietyTracker.get_statistics, items, valid_entries.
  symmetry. apply for_each_skip. intros s [k r] Hk.
  apply get_statistics_body_invalid. exact Hk.
Qed.

Lemma spending_turn_invalid (now : datetime) (acc : float * float)
    (item : string * record) :
  valid_key (fst item) = false ->
  spending_turn DEFAULT_AMOUNT float_of_str now acc item = acc.
Proof.
  unfold valid_key, spending_turn, date_of.
  destruct (strptime (fst item)); [discriminate|reflexivity].
Qed.

Lemma spending_valid_entries (now : datetime) (daily_log : log) (acc : float * float) :
  fold_left (spending_turn DEFAULT_AMOUNT float_of_str now) (valid_entries daily_log) acc =
  fold_left (spending_turn DEFAULT_AMOUNT float_of_str now) daily_log acc.
Proof.
  unfold valid_entries. revert acc.
  induction daily_log as [|x l IH]; intros acc; [reflexivity|].
  cbn [List.filter fold_left]. destruct (valid_key (fst x)) eqn:K.
  - cbn [fold_left]. apply IH.
  - rewrite (spending_turn_invalid now acc x K). apply IH.
Qed.

(** What [print_statistics] shows of the buckets and of the spending
    depends on the log through [get_statistics] and the spending loop
    alone. *)
Lemma print_statistics_rows (w : world) (l1 l2 : log) :
  SobrietyTracker.get_statistics DEFAULT_AMOUNT float_of_str l1 =
  SobrietyTracker.get_statistics DEFAULT_AMOUNT float_of_str l2 ->
  exists out1 out2,
    SobrietyTracker.print_statistics DEFAULT_AMOUNT float_of_str w l1 = Ok out1 /\
    SobrietyTracker.print_statistics DEFAULT_AMOUNT float_of_str w l2 = Ok out2 /\
    SobrietyTracker.p_monthly out1 = SobrietyTracker.p_monthly out2 /\
    SobrietyTracker.p_yearly out1 = SobrietyTracker.p_yearly out2.
Proof.
  intros HG.
  destruct (get_statistics_counts DEFAULT_AMOUNT float_of_str l2) as (st & Hst & _ & _).
  destruct (get_additional_stats_parts l1) as (? & ? & ? & _ & _ & _ & _ & _ & Ha1).
  destruct (get_additional_stats_parts l2) as (? & ? & ? & _ & _ & _ & _ & _ & Ha2).
  destruct (month_rows_loop (monthly st) (sorted (elements (dom (monthly st)))) [])
    as (rows_m & Hm & _ & _); [intros k; apply sorted_dom_In|].
  destruct (year_rows_loop (yearly st) (sorted (elements (dom (yearly st)))) [])
    as (rows_y & Hy & _ & _); [intros k; apply sorted_dom_In|].
  unfold SobrietyTracker.print_statistics.
  rewrite HG, Hst, !bind_Ok, Ha1, Ha2, !bind_Ok, Hm, !bind_Ok, Hy, !bind_Ok.
  cbv zeta. unfold items. rewrite !spending_loop_eq, !bind_Ok.
  destruct (fold_left _ l1 _) as [o1 c1]. destruct (fold_left _ l2 _) as [o2 c2].
  eexists. eexists. split; [reflexivity|]. split; [reflexivity|].
  split; reflexivity.
Qed.

End Undated.

(** C1, as the code has it. An entry whose key is not a date is left
    out of every monthly and yearly bucket, of the longest-streak walk
    and of the spending totals, and no operation raises on it: the
    buckets, the longest streak and the totals are those of the log
    without such entries.  [total_days], [percent_sober] and
    [current_streak] of the additional statistics are taken over all
    the entries, whether their key is a date or not. *)
Theorem C1_undated_entries_skipped_by_dated_aggregates
    (DEFAULT_AMOUNT : float) (float_of_str : string -> option float)
    (w : world) (daily_log : log) :
  let dated := valid_entries daily_log in
  (exists st,
     SobrietyTracker.get_statistics DEFAULT_AMOUNT float_of_str daily_log = Ok st /\
     SobrietyTracker.get_statistics DEFAULT_AMOUNT float_of_str dated = Ok st) /\
  (exists a a',
     SobrietyTracker.get_additional_stats daily_log = Ok a /\
     SobrietyTracker.get_additional_stats dated = Ok a' /\
     longest_streak a = longest_streak a') /\
  (exists out out',
     SobrietyTracker.print_statistics DEFAULT_AMOUNT float_of_str w daily_log = Ok out /\
     SobrietyTracker.print_statistics DEFAULT_AMOUNT float_of_str w dated = Ok out' /\
     SobrietyTracker.p_monthly out = SobrietyTracker.p_monthly out' /\
     SobrietyTracker.p_yearly out = SobrietyTracker.p_yearly out' /\
     SobrietyTracker.p_overall_spending out = SobrietyTracker.p_overall_spending out' /\
     SobrietyTracker.p_current_month_spending out =
       SobrietyTracker.p_current_month_spending out') /\
  (exists a sober_days,
     SobrietyTracker.get_additional_stats daily_log = Ok a /\
     SobrietyTracker.count_sober daily_log = Ok sober_days /\
     (wf_log daily_log -> sober_days = count sober_item daily_log) /\
     total_days a = Z.of_nat (length daily_log) /\
     percent_sober a = percent_of sober_days (Z.of_nat (length daily_log)) /\
     current_streak a =
       run_length (map (sober_flag daily_log) (reversed (sorted (keys daily_log))))).
Proof.
  intros dated. split; [|split; [|split]].
  - destruct (get_statistics_counts DEFAULT_AMOUNT float_of_str daily_log)
      as (st & Hst & _).
    exists st. split; [exact Hst|].
    unfold dated. rewrite get_statistics_valid_entries. exact Hst.
  - destruct (get_additional_stats_parts daily_log)
      as (s & st & c & _ & _ & Hloop & _ & _ & Ha).
    destruct (get_additional_stats_parts dated)
      as (s' & st' & c' & _ & _ & Hloop' & _ & _ & Ha').
    eexists. eexists. split; [exact Ha|]. split; [exact Ha'|].
    cbn [longest_streak]. unfold dated in Hloop'.
    rewrite streak_loop_valid_entries, Hloop in Hloop'. congruence.
  - destruct (print_statistics_parts DEFAULT_AMOUNT float_of_str w daily_log)
      as (st & a & rm & ry & _ & _ & _ & _ & _ & _ & Hp).
    destruct (print_statistics_parts DEFAULT_AMOUNT float_of_str w dated)
      as (st' & a' & rm' & ry' & _ & _ & _ & _ & _ & _ & Hp').
    destruct (print_statistics_rows DEFAULT_AMOUNT float_of_str w daily_log dated)
      as (o1 & o2 & H1 & H2 & Hm & Hy).
    { unfold dated. symmetry. apply get_statistics_valid_entries. }
    exists o1, o2. split; [exact H1|]. split; [exact H2|].
    split; [exact Hm|]. split; [exact Hy|].
    rewrite Hp in H1. rewrite Hp' in H2. injection H1 as <-. injection H2 as <-.
    cbn [SobrietyTracker.p_overall_spending SobrietyTracker.p_current_month_spending].
    unfold dated. rewrite spending_valid_entries. split; reflexivity.
  - destruct (get_additional_stats_parts daily_log)
      as (s & st & c & Hs & _ & _ & Hc & _ & Ha).
    eexists. exists s. split; [exact Ha|]. split; [exact Hs|].
    cbn [total_days percent_sober current_streak]. split; [|split; [|split]].
    + intros Hwf. rewrite (count_sober_wf daily_log Hwf) in Hs. congruence.
    + reflexivity.
    + reflexivity.
    + rewrite current_seq_loop_run in Hc by apply reversed_sorted_keys_In.
      injection Hc as <-. lia.
Qed.

(** C1 as stated fails: an undated sober entry after a dated drinking
    day moves [total_days] from 1 to 2, [percent_sober] from 0 to 50 and
    [current_streak] from 0 to 1. *)
Lemma C1_undated_entry_is_counted :
  strptime "not-a-date" = Raise ValueError /\
  valid_entries scenario_E = [("2024-01-01"%string, drinking (PFloat 15))] /\
  exists a a',
    SobrietyTracker.get_additional_stats scenario_E = Ok a /\
    SobrietyTracker.get_additional_stats (valid_entries scenario_E) = Ok a' /\
    total_days a = 2 /\ total_days a' = 1 /\
    (percent_sober a == 50)%Q /\ (percent_sober a' == 0)%Q /\
    current_streak a = 1 /\ current_streak a' = 0.
Proof.
  split; [reflexivity|]. split; [reflexivity|].
  eexists. eexists. split; [vm_compute; reflexivity|].
  split; [vm_compute; reflexivity|].
  cbn [total_days percent_sober current_streak].
  repeat split.
Qed.

(** ** The clock *)

Section Clock.

Variable DEFAULT_AMOUNT : float.
Variable float_of_str : string -> option float.

Lemma spending_turn_same_month (now1 now2 : datetime) (acc : float * float)
    (item : string * record) :
  year now1 = year now2 -> month now1 = month now2 ->
  spending_turn DEFAULT_AMOUNT float_of_str now1 acc item =
  spending_turn DEFAULT_AMOUNT float_of_str now2 acc item.
Proof. unfold spending_turn. intros -> ->. reflexivity. Qed.

Lemma spending_same_month (now1 now2 : datetime) (l : log) (acc : float * float) :
  year now1 = year now2 -> month now1 = month now2 ->
  fold_left (spending_turn DEFAULT_AMOUNT float_of_str now1) l acc =
  fold_left (spending_turn DEFAULT_AMOUNT float_of_str now2) l acc.
Proof.
  intros Hy Hm. revert acc. induction l as [|x l IH]; intros acc; [reflexivity|].
  cbn [fold_left]. rewrite (spending_turn_same_month now1 now2 acc x Hy Hm). apply IH.
Qed.

(** The overall total is the same under every clock. *)
Lemma overall_any_clock (now1 now2 : datetime) (l : log) (acc1 acc2 : float * float) :
  fst acc1 = fst acc2 ->
  fst (fold_left (spending_turn DEFAULT_AMOUNT float_of_str now1) l acc1) =
  fst (fold_left (spending_turn DEFAULT_AMOUNT float_of_str now2) l acc2).
Proof.
  revert acc1 acc2. induction l as [|x l IH]; intros acc1 acc2 H; [exact H|].
  cbn [fold_left]. apply IH. unfold spending_turn.
  destruct (date_of x) as [d|]; [|exact H].
  destruct (is_sober (snd x)); [exact H|]. cbn [fst]. rewrite H. reflexivity.
Qed.

(** Apart from the spending totals, what [print_statistics] computes
    does not involve the clock. *)
Lemma print_statistics_clock (w1 w2 : world) (daily_log : log) :
  fold_left (spending_turn DEFAULT_AMOUNT float_of_str (clock w1)) daily_log
            (0%float, 0%float) =
  fold_left (spending_turn DEFAULT_AMOUNT float_of_str (clock w2)) daily_log
            (0%float, 0%float) ->
  SobrietyTracker.print_statistics DEFAULT_AMOUNT float_of_str w1 daily_log =
  SobrietyTracker.print_statistics DEFAULT_AMOUNT float_of_str w2 daily_log.
Proof.
  intros H. unfold SobrietyTracker.print_statistics.
  destruct (SobrietyTracker.get_statistics _ _ daily_log) as [st|e]; [|reflexivity].
  rewrite !bind_Ok.
  destruct (SobrietyTracker.get_additional_stats daily_log) as [a|e]; [|reflexivity].
  rewrite !bind_Ok.
  destruct (for_each _ (sorted (elements (dom (monthly st)))) []) as [rm|e];
    [|reflexivity].
  rewrite !bind_Ok.
  destruct (for_each _ (sorted (elements (dom (yearly st)))) []) as [ry|e];
    [|reflexivity].
  rewrite !bind_Ok. cbv zeta. unfold datetime_now, items.
  rewrite !spending_loop_eq, H. reflexivity.
Qed.

(** C6, as the code has it. [print_statistics] takes no reference
    period: it reads the clock itself, and its current-month total is a
    function of the log and of the year and month of that reading.  For
    a fixed log, runs under clocks in the same month of the same year
    print the same, and the overall total is the same under every
    clock.  [display_calendar] takes the year and the month from its
    caller and reads the log from the data file: its result is a
    function of these alone, whatever the clock and whatever log it is
    handed. *)
Theorem C6_current_month_total_follows_the_clock
    (w1 w2 : world) (daily_log : log) :
  year (clock w1) = year (clock w2) ->
  month (clock w1) = month (clock w2) ->
  SobrietyTracker.print_statistics DEFAULT_AMOUNT float_of_str w1 daily_log =
  SobrietyTracker.print_statistics DEFAULT_AMOUNT float_of_str w2 daily_log /\
  (forall w3 w4,
     exists out3 out4,
       SobrietyTracker.print_statistics DEFAULT_AMOUNT float_of_str w3 daily_log
         = Ok out3 /\
       SobrietyTracker.print_statistics DEFAULT_AMOUNT float_of_str w4 daily_log
         = Ok out4 /\
       SobrietyTracker.p_overall_spending out3 =
       SobrietyTracker.p_overall_spending out4) /\
  (forall w3 w4 y m data3 data4,
     stored_log w3 = stored_log w4 ->
     Ui.display_calendar float_of_str w3 y m data3 =
     Ui.display_calendar float_of_str w4 y m data4).
Proof.
  intros Hy Hm. split; [|split].
  - apply print_statistics_clock. apply spending_same_month; assumption.
  - intros w3 w4.
    destruct (print_statistics_parts DEFAULT_AMOUNT float_of_str w3 daily_log)
      as (st & a & rm & ry & _ & _ & _ & _ & _ & _ & Hp).
    destruct (print_statistics_parts DEFAULT_AMOUNT float_of_str w4 daily_log)
      as (st' & a' & rm' & ry' & _ & _ & _ & _ & _ & _ & Hp').
    eexists. eexists. split; [exact Hp|]. split; [exact Hp'|].
    cbn [SobrietyTracker.p_overall_spending]. apply overall_any_clock. reflexivity.
  - intros w3 w4 y m data3 data4 H. unfold Ui.display_calendar, load_daily_log.
    rewrite H. reflexivity.
Qed.

End Clock.

(** C6 as stated fails on [print_statistics]: one log, two readings of
    the clock, two current-month totals. *)
Lemma C6_two_clocks_two_totals :
  exists out1 out2,
    SobrietyTracker.print_statistics 40%float no_float january missing_sober = Ok out1 /\
    SobrietyTracker.print_statistics 40%float no_float february missing_sober = Ok out2 /\
    SobrietyTracker.p_current_month_spending out1 = 15%float /\
    SobrietyTracker.p_current_month_spending out2 = 0%float.
Proof.
  eexists. eexists. split; [vm_compute; reflexivity|].
  split; [vm_compute; reflexivity|]. split; reflexivity.
Qed.

Lemma C6_witness :
  let w1 := mk_world (mk_datetime 2024 1 5) [] in
  let w2 := mk_world (mk_datetime 2024 1 31) scenario_A in
  year (clock w1) = year (clock w2) /\
  month (clock w1) = month (clock w2) /\
  SobrietyTracker.print_statistics 40%float no_float w1 scenario_B =
  SobrietyTracker.print_statistics 40%float no_float w2 scenario_B.
Proof.
  intros w1 w2. split; [reflexivity|]. split; [reflexivity|].
  apply (C6_current_month_total_follows_the_clock 40%float no_float w1 w2 scenario_B);
    reflexivity.
Defined.


(** ** Zero-padded keys sort by date *)

Lemma append_String (c : ascii) (s t : string) :
  String c s +:+ t = String c (s +:+ t).
Proof. reflexivity. Qed.

Lemma append_Empty (t : string) : "" +:+ t = t.
Proof. reflexivity. Qed.

Lemma compare_String (c c' : ascii) (s t : string) :
  String.compare (String c s) (String c' t) =
  match Ascii.compare c c' with Eq => String.compare s t | x => x end.
Proof. reflexivity. Qed.

Lemma digit_char_compare (a b : Z) :
  0 <= a <= 9 -> 0 <= b <= 9 ->
  Ascii.compare (digit_char a) (digit_char b) = (a ?= b).
Proof.
  intros Ha Hb. unfold Ascii.compare, digit_char, ascii_of_nat.
  rewrite !N_ascii_embedding by lia.
  destruct (Z.compare_spec a b) as [H|H|H].
  - subst. apply N.compare_refl.
  - apply N.compare_lt_iff. lia.
  - apply N.compare_gt_iff. lia.
Qed.

Lemma compare_lex2 (a1 a0 b1 b0 : Z) (c : comparison) :
  0 <= a0 <= 9 -> 0 <= b0 <= 9 ->
  match a1 ?= b1 with
  | Eq => match a0 ?= b0 with Eq => c | x => x end
  | x => x
  end =
  match (10 * a1 + a0) ?= (10 * b1 + b0) with Eq => c | x => x end.
Proof.
  intros Ha Hb.
  destruct (Z.compare_spec a1 b1) as [H1|H1|H1];
    destruct (Z.compare_spec a0 b0) as [H0|H0|H0];
    destruct (Z.compare_spec (10 * a1 + a0) (10 * b1 + b0)) as [H|H|H];
    try reflexivity; lia.
Qed.

Lemma fmt2_compare (a b : Z) (s t : string) :
  0 <= a <= 99 -> 0 <= b <= 99 ->
  String.compare (fmt2 a +:+ s) (fmt2 b +:+ t) =
  match a ?= b with Eq => String.compare s t | c => c end.
Proof.
  intros Ha Hb. unfold fmt2.
  rewrite !append_String, !append_Empty, !compare_String.
  rewrite !digit_char_compare by dlia.
  transitivity (match a / 10 ?= b / 10 with
                | Eq => match a mod 10 ?= b mod 10 with
                        | Eq => String.compare s t
                        | x => x
                        end
                | x => x
                end).
  { reflexivity. }
  rewrite compare_lex2 by dlia.
  replace (10 * (a / 10) + a mod 10) with a by dlia.
  replace (10 * (b / 10) + b mod 10) with b by dlia.
  reflexivity.
Qed.

Lemma fmt4_compare (a b : Z) (s t : string) :
  0 <= a <= 9999 -> 0 <= b <= 9999 ->
  String.compare (fmt4 a +:+ s) (fmt4 b +:+ t) =
  match a ?= b with Eq => String.compare s t | c => c end.
Proof.
  intros Ha Hb. unfold fmt4.
  rewrite !append_String, !compare_String.
  rewrite !digit_char_compare by dlia.
  rewrite fmt2_compare by dlia.
  transitivity (match a / 1000 ?= b / 1000 with
                | Eq => match (a / 100) mod 10 ?= (b / 100) mod 10 with
                        | Eq => match a mod 100 ?= b mod 100 with
                                | Eq => String.compare s t
                                | x => x
                                end
                        | x => x
                        end
                | x => x
                end).
  { reflexivity. }
  destruct (Z.compare_spec (a / 1000) (b / 1000)) as [H1|H1|H1];
    destruct (Z.compare_spec ((a / 100) mod 10) ((b / 100) mod 10)) as [H2|H2|H2];
    destruct (Z.compare_spec (a mod 100) (b mod 100)) as [H3|H3|H3];
    destruct (Z.compare_spec a b) as [H|H|H];
    try reflexivity; exfalso; dlia.
Qed.

Lemma month_cases (m : Z) :
  1 <= m <= 12 ->
  m = 1 \/ m = 2 \/ m = 3 \/ m = 4 \/ m = 5 \/ m = 6 \/
  m = 7 \/ m = 8 \/ m = 9 \/ m = 10 \/ m = 11 \/ m = 12.
Proof. lia. Qed.

Ltac each_month m H :=
  destruct (month_cases m H) as
    [->|[->|[->|[->|[->|[->|[->|[->|[->|[->|[->| ->]]]]]]]]]]].

Lemma days_in_month_le (y m : Z) : 1 <= m <= 12 -> days_in_month y m <= 31.
Proof.
  intros H. unfold days_in_month.
  each_month m H; destruct (is_leap y); vm_compute; discriminate.
Qed.

(** The order of two zero-padded keys is the order of year, month and
    day. *)
Lemma strftime_Ymd_compare (a b : datetime) :
  valid_date a -> valid_date b ->
  String.compare (strftime_Ymd a) (strftime_Ymd b) = compare_ymd a b.
Proof.
  unfold valid_date, strftime_Ymd, compare_ymd. intros Ha Hb.
  assert (Hda : 1 <= day a <= 31).
  { pose proof (days_in_month_le (year a) (month a)). lia. }
  assert (Hdb : 1 <= day b <= 31).
  { pose proof (days_in_month_le (year b) (month b)). lia. }
  rewrite fmt4_compare by lia.
  destruct (year a ?= year b); try reflexivity.
  rewrite ?append_String, ?append_Empty, compare_String.
  change (Ascii.compare "-" "-") with Eq. cbv iota.
  rewrite fmt2_compare by lia.
  destruct (month a ?= month b); try reflexivity.
  rewrite ?append_String, ?append_Empty, compare_String.
  change (Ascii.compare "-" "-") with Eq. cbv iota.
  change (fmt2 (day a)) with (fmt2 (day a) +:+ "").
  change (fmt2 (day b)) with (fmt2 (day b) +:+ "").
  rewrite fmt2_compare by lia.
  destruct (day a ?= day b); reflexivity.
Qed.

(** ** The ordinal of a date grows with year, month and day *)

Ltac month_tables y :=
  change (days_in_month y 1) with 31 in *;
  change (days_in_month y 2) with (if is_leap y then 29 else 28) in *;
  change (days_in_month y 3) with 31 in *;
  change (days_in_month y 4) with 30 in *;
  change (days_in_month y 5) with 31 in *;
  change (days_in_month y 6) with 30 in *;
  change (days_in_month y 7) with 31 in *;
  change (days_in_month y 8) with 31 in *;
  change (days_in_month y 9) with 30 in *;
  change (days_in_month y 10) with 31 in *;
  change (days_in_month y 11) with 30 in *;
  change (days_in_month y 12) with 31 in *;
  change (days_before_month y 1) with (0 + 0) in *;
  change (days_before_month y 2) with (31 + 0) in *;
  change (days_before_month y 3) with (59 + if is_leap y then 1 else 0) in *;
  change (days_before_month y 4) with (90 + if is_leap y then 1 else 0) in *;
  change (days_before_month y 5) with (120 + if is_leap y then 1 else 0) in *;
  change (days_before_month y 6) with (151 + if is_leap y then 1 else 0) in *;
  change (days_before_month y 7) with (181 + if is_leap y then 1 else 0) in *;
  change (days_before_month y 8) with (212 + if is_leap y then 1 else 0) in *;
  change (days_before_month y 9) with (243 + if is_leap y then 1 else 0) in *;
  change (days_before_month y 10) with (273 + if is_leap y then 1 else 0) in *;
  change (days_before_month y 11) with (304 + if is_leap y then 1 else 0) in *;
  change (days_before_month y 12) with (334 + if is_leap y then 1 else 0) in *.

(** The day of the year is between 1 and the length of the year. *)
Lemma day_of_year_bounds (y m d : Z) :
  1 <= m <= 12 -> 1 <= d <= days_in_month y m ->
  1 <= days_before_month y m + d <= 365 + (if is_leap y then 1 else 0).
Proof.
  intros Hm Hd. each_month m Hm; month_tables y; destruct (is_leap y); lia.
Qed.

Lemma day_of_year_mono (y m1 d1 m2 d2 : Z) :
  1 <= m1 <= 12 -> 1 <= m2 <= 12 ->
  1 <= d1 <= days_in_month y m1 -> 1 <= d2 <= days_in_month y m2 ->
  m1 < m2 ->
  days_before_month y m1 + d1 < days_before_month y m2 + d2.
Proof.
  intros Hm1 Hm2 Hd1 Hd2 Hlt.
  each_month m1 Hm1; each_month m2 Hm2; try lia;
    month_tables y; destruct (is_leap y); lia.
Qed.

Lemma days_before_year_succ (y : Z) :
  days_before_year (y + 1) = days_before_year y + 365 + (if is_leap y then 1 else 0).
Proof.
  unfold days_before_year, is_leap. cbv zeta.
  replace (y + 1 - 1) with y by lia.
  destruct (Z.eqb_spec (y mod 4) 0), (Z.eqb_spec (y mod 100) 0),
           (Z.eqb_spec (y mod 400) 0); cbn [negb andb orb]; dlia.
Qed.

Lemma days_before_year_mono (y y' : Z) :
  y <= y' -> days_before_year y <= days_before_year y'.
Proof. unfold days_before_year. cbv zeta. intros H. dlia. Qed.

(** Year, month and day order the dates as their ordinals do. *)
Lemma toordinal_compare (a b : datetime) :
  valid_date a -> valid_date b ->
  (toordinal a ?= toordinal b) = compare_ymd a b.
Proof.
  unfold valid_date, compare_ymd, toordinal.
  intros (Hya & Hma & Hda) (Hyb & Hmb & Hdb).
  pose proof (day_of_year_bounds _ _ _ Hma Hda) as Ba.
  pose proof (day_of_year_bounds _ _ _ Hmb Hdb) as Bb.
  destruct (Z.compare_spec (year a) (year b)) as [Hy|Hy|Hy].
  - rewrite Hy in *.
    destruct (Z.compare_spec (month a) (month b)) as [Hm|Hm|Hm].
    + rewrite Hm in *.
      destruct (Z.compare_spec (day a) (day b)) as [Hd|Hd|Hd].
      * rewrite Hd. apply Z.compare_refl.
      * apply Z.compare_lt_iff. lia.
      * apply Z.compare_gt_iff. lia.
    + apply Z.compare_lt_iff.
      pose proof (day_of_year_mono (year b) _ _ _ _ Hma Hmb Hda Hdb Hm). lia.
    + apply Z.compare_gt_iff.
      pose proof (day_of_year_mono (year b) _ _ _ _ Hmb Hma Hdb Hda Hm). lia.
  - apply Z.compare_lt_iff.
    pose proof (days_before_year_succ (year a)).
    pose proof (days_before_year_mono (year a + 1) (year b)). lia.
  - apply Z.compare_gt_iff.
    pose proof (days_before_year_succ (year b)).
    pose proof (days_before_year_mono (year b + 1) (year a)). lia.
Qed.

(** Two zero-padded keys are in the order of their dates. *)
Lemma canonical_leb (k1 k2 : string) (d1 d2 : datetime) :
  strptime k1 = Ok d1 -> k1 = strftime_Ymd d1 ->
  strptime k2 = Ok d2 -> k2 = strftime_Ymd d2 ->
  String.leb k1 k2 = (toordinal d1 <=? toordinal d2).
Proof.
  intros H1 E1 H2 E2.
  pose proof (strptime_valid _ _ H1) as V1. pose proof (strptime_valid _ _ H2) as V2.
  unfold String.leb, Z.leb. rewrite E1, E2.
  rewrite strftime_Ymd_compare, toordinal_compare by assumption.
  reflexivity.
Qed.

(** ** The walks of the code on zero-padded keys *)

Lemma sober_flag_wf (daily_log : log) (k : string) (r : record) :
  wf_log daily_log -> In (k, r) daily_log -> sober_flag daily_log k = is_sober r.
Proof.
  intros Hwf Hin. unfold sober_flag. rewrite (getitem_wf daily_log k r Hwf Hin).
  reflexivity.
Qed.

Lemma dated_entries_sub (daily_log l : log) :
  wf_log daily_log -> (forall it, In it l -> In it daily_log) ->
  dated_entries l = flat_map (dated_flag daily_log) (keys l).
Proof.
  intros Hwf. induction l as [|[k r] l IH]; intros Hin; [reflexivity|].
  unfold dated_entries in *. cbn [flat_map keys map fst].
  fold (keys l). rewrite IH by (intros it Hit; apply Hin; right; exact Hit).
  f_equal. unfold date_of, dated_flag, sober_item. cbn [fst snd].
  rewrite (sober_flag_wf daily_log k r Hwf) by (apply Hin; left; reflexivity).
  destruct (strptime k); reflexivity.
Qed.

(** On a dictionary, the dated entries are the dated keys with their
    flags. *)
Lemma dated_entries_keys (daily_log : log) :
  wf_log daily_log ->
  dated_entries daily_log = flat_map (dated_flag daily_log) (keys daily_log).
Proof. intros Hwf. apply dated_entries_sub; auto. Qed.

Lemma streak_body_walk (daily_log : log) (st : streak_state) (k : string) :
  In k (keys daily_log) ->
  SobrietyTracker.streak_body daily_log st k =
  Ok (fold_left walk_step (dated_flag daily_log k) st).
Proof.
  intros Hk. unfold SobrietyTracker.streak_body, dated_flag, sober_flag.
  destruct (strptime k) as [d|e]; [|reflexivity].
  destruct (getitem_key daily_log k Hk) as (r & Hr & _). rewrite Hr, bind_Ok.
  cbn [fold_left]. unfold walk_step, days_between.
  destruct (is_sober r); [|reflexivity].
  destruct (st_previous st) as [p|]; [|reflexivity].
  destruct (toordinal d - toordinal p =? 1); reflexivity.
Qed.

(** The longest-streak loop is the walk of the specification over the
    dated keys in the order they come. *)
Lemma streak_loop_walk (daily_log : log) (ks : list string) (st : streak_state) :
  (forall k, In k ks -> In k (keys daily_log)) ->
  for_each (SobrietyTracker.streak_body daily_log) ks st =
  Ok (fold_left walk_step (flat_map (dated_flag daily_log) ks) st).
Proof.
  revert st. induction ks as [|k ks IH]; intros st Hk; [reflexivity|].
  cbn [for_each flat_map]. rewrite streak_body_walk by (apply Hk; left; reflexivity).
  rewrite bind_Ok, fold_left_app.
  apply IH. intros k' Hk'. apply Hk. right; exact Hk'.
Qed.

Lemma dated_flag_filter (daily_log : log) (ks : list string) :
  flat_map (dated_flag daily_log) ks =
  flat_map (dated_flag daily_log) (List.filter valid_key ks).
Proof.
  induction ks as [|k ks IH]; [reflexivity|].
  cbn [flat_map List.filter]. unfold valid_key at 1, dated_flag at 1.
  destruct (strptime k) as [d|e] eqn:E.
  - cbn [flat_map]. unfold dated_flag at 2. rewrite E, IH. reflexivity.
  - exact IH.
Qed.

Lemma insert_sorted_by_date (daily_log : log) (k : string) (d : datetime)
    (l : list string) :
  strptime k = Ok d -> k = strftime_Ymd d ->
  (forall x, In x l -> canonical_key x) ->
  flat_map (dated_flag daily_log) (insert_sorted k l) =
  insert_by_date (d, sober_flag daily_log k) (flat_map (dated_flag daily_log) l).
Proof.
  intros Hk Ek.
  assert (Fk : dated_flag daily_log k = [(d, sober_flag daily_log k)]).
  { unfold dated_flag. rewrite Hk. reflexivity. }
  induction l as [|x l IH]; intros Hl.
  - cbn [insert_sorted flat_map insert_by_date]. rewrite Fk. reflexivity.
  - destruct (Hl x (or_introl eq_refl)) as (dx & Hx & Ex).
    assert (Fx : dated_flag daily_log x = [(dx, sober_flag daily_log x)]).
    { unfold dated_flag. rewrite Hx. reflexivity. }
    cbn [insert_sorted]. rewrite (canonical_leb k x d dx Hk Ek Hx Ex).
    cbn [flat_map]. rewrite Fx. cbn [app insert_by_date fst].
    destruct (toordinal d <=? toordinal dx).
    + cbn [flat_map]. rewrite Fk, Fx. reflexivity.
    + cbn [flat_map]. rewrite Fx, IH by (intros y Hy; apply Hl; right; exact Hy).
      reflexivity.
Qed.

(** Sorting zero-padded keys sorts their entries by date. *)
Lemma sorted_by_date (daily_log : log) (ks : list string) :
  (forall k, In k ks -> canonical_key k) ->
  flat_map (dated_flag daily_log) (sorted ks) =
  sort_by_date (flat_map (dated_flag daily_log) ks).
Proof.
  induction ks as [|k ks IH]; intros Hks; [reflexivity|].
  destruct (Hks k (or_introl eq_refl)) as (d & Hk & Ek).
  cbn [sorted flat_map].
  rewrite (insert_sorted_by_date daily_log k d (sorted ks) Hk Ek).
  - rewrite IH by (intros x Hx; apply Hks; right; exact Hx).
    assert (Fk : dated_flag daily_log k = [(d, sober_flag daily_log k)]).
    { unfold dated_flag. rewrite Hk. reflexivity. }
    rewrite Fk. reflexivity.
  - intros x Hx. apply Hks. right. apply sorted_In. exact Hx.
Qed.

Lemma dated_keys_sorted_by_date (daily_log : log) :
  wf_log daily_log ->
  (forall k, In k (keys daily_log) -> valid_key k = true -> canonical_key k) ->
  flat_map (dated_flag daily_log) (sorted (keys daily_log)) =
  sort_by_date (dated_entries daily_log).
Proof.
  intros Hwf Hc.
  rewrite (dated_entries_keys daily_log Hwf).
  rewrite (dated_flag_filter daily_log (sorted (keys daily_log))).
  rewrite (dated_flag_filter daily_log (keys daily_log)).
  rewrite <- sorted_filter. apply sorted_by_date.
  intros k Hk. apply filter_In in Hk as [Hk Hv]. apply Hc; assumption.
Qed.

(** On a log whose dated keys are written [YYYY-MM-DD] on ten
    characters, [longest_streak] is the longest run met by the walk of
    the specification over the dated entries in ascending date order. *)
Theorem longest_streak_in_date_order (daily_log : log) :
  wf_log daily_log ->
  (forall k, In k (keys daily_log) -> valid_key k = true -> canonical_key k) ->
  exists a,
    SobrietyTracker.get_additional_stats daily_log = Ok a /\
    longest_streak a = claimed_longest_streak daily_log.
Proof.
  intros Hwf Hc.
  destruct (get_additional_stats_parts daily_log)
    as (s & st & c & _ & _ & Hloop & _ & _ & Ha).
  eexists. split; [exact Ha|]. cbn [longest_streak].
  rewrite streak_loop_walk in Hloop by apply sorted_keys_In.
  injection Hloop as <-.
  rewrite (dated_keys_sorted_by_date daily_log Hwf Hc). reflexivity.
Qed.

Lemma dated_flag_flags (daily_log : log) (ks : list string) :
  (forall k, In k ks -> valid_key k = true) ->
  map snd (flat_map (dated_flag daily_log) ks) = map (sober_flag daily_log) ks.
Proof.
  induction ks as [|k ks IH]; intros Hks; [reflexivity|].
  cbn [flat_map map]. rewrite map_app, IH by (intros x Hx; apply Hks; right; exact Hx).
  specialize (Hks k (or_introl eq_refl)). unfold valid_key in Hks. unfold dated_flag.
  destruct (strptime k); [reflexivity|discriminate].
Qed.

Lemma canonical_key_valid (k : string) : canonical_key k -> valid_key k = true.
Proof. intros (d & Hd & _). unfold valid_key. rewrite Hd. reflexivity. Qed.

(** On a log whose keys are all written [YYYY-MM-DD] on ten
    characters, [current_streak] is the number of sober entries at the
    end of the log in date order, counted from the most recent one
    backwards. *)
Theorem current_streak_in_date_order (daily_log : log) :
  wf_log daily_log ->
  (forall k, In k (keys daily_log) -> canonical_key k) ->
  exists a,
    SobrietyTracker.get_additional_stats daily_log = Ok a /\
    current_streak a = claimed_current_streak daily_log.
Proof.
  intros Hwf Hc.
  destruct (get_additional_stats_parts daily_log)
    as (s & st & c & _ & _ & _ & Hcur & _ & Ha).
  eexists. split; [exact Ha|]. cbn [current_streak].
  rewrite current_seq_loop_run in Hcur by apply reversed_sorted_keys_In.
  injection Hcur as <-. unfold claimed_current_streak, reversed.
  rewrite <- dated_keys_sorted_by_date
    by (try assumption; intros k Hk _; apply Hc; exact Hk).
  rewrite !map_rev, dated_flag_flags; [lia|].
  intros k Hk. apply canonical_key_valid, Hc, sorted_In. exact Hk.
Qed.

Lemma scenario_A_well_formed :
  wf_log scenario_A /\ (forall k, In k (keys scenario_A) -> canonical_key k).
Proof.
  split.
  - unfold wf_log. apply (bool_decide_unpack (NoDup (keys scenario_A))).
    vm_compute. reflexivity.
  - intros k [<-|[<-|[<-|[]]]]; eexists; split; reflexivity.
Qed.

(** Scenario A again, through the walk in date order. *)
Example scenario_A_in_date_order :
  exists a,
    SobrietyTracker.get_additional_stats scenario_A = Ok a /\
    longest_streak a = claimed_longest_streak scenario_A /\
    current_streak a = claimed_current_streak scenario_A.
Proof.
  destruct scenario_A_well_formed as [Hwf Hc].
  destruct (longest_streak_in_date_order scenario_A Hwf (fun k Hk _ => Hc k Hk))
    as (a & Ha & Hl).
  destruct (current_streak_in_date_order scenario_A Hwf Hc) as (a' & Ha' & Hc').
  exists a. split; [exact Ha|]. split; [exact Hl|]. congruence.
Qed.

(** ** Where the code leaves the specification *)

(** C3 on keys without padding zeros. [log_entry] has logged two sober
    days under the dates ["2024-1-9"] and ["2024-1-10"], which it
    accepts: [strptime] takes them for 9 and 10 January.  [sorted] puts
    the second key before the first, and the walk meets 10 January, then
    9 January: two sober days in a row give a longest streak of 1 where
    the walk in date order gives 2. *)
Lemma C3_unpadded_keys_break_the_streak :
  keys unpadded_sober = ["2024-1-9"; "2024-1-10"]%string /\
  strptime "2024-1-9" = Ok (mk_datetime 2024 1 9) /\
  strptime "2024-1-10" = Ok (mk_datetime 2024 1 10) /\
  sorted (keys unpadded_sober) = ["2024-1-10"; "2024-1-9"]%string /\
  (exists a, SobrietyTracker.get_additional_stats unpadded_sober = Ok a /\
             longest_streak a = 1) /\
  claimed_longest_streak unpadded_sober = 2.
Proof.
  split; [reflexivity|].
  split; [reflexivity|]. split; [reflexivity|]. split; [reflexivity|].
  split; [|reflexivity].
  eexists. split; [vm_compute; reflexivity|]. reflexivity.
Qed.

(** C4 on keys without padding zeros. [log_entry] has logged a
    drinking day under ["2024-1-9"] and a sober day under ["2024-1-10"].
    The most recent entry, 10 January, is sober, but the loop starts from the key that sorts last,
    9 January, a drinking day: the current streak is 0 where the count
    from the most recent entry backwards gives 1. *)
Lemma C4_unpadded_keys_hide_the_last_day :
  keys unpadded_mixed = ["2024-1-9"; "2024-1-10"]%string /\
  strptime "2024-1-9" = Ok (mk_datetime 2024 1 9) /\
  strptime "2024-1-10" = Ok (mk_datetime 2024 1 10) /\
  reversed (sorted (keys unpadded_mixed)) = ["2024-1-9"; "2024-1-10"]%string /\
  (exists a, SobrietyTracker.get_additional_stats unpadded_mixed = Ok a /\
             current_streak a = 0) /\
  claimed_current_streak unpadded_mixed = 1.
Proof.
  split; [reflexivity|].
  split; [reflexivity|]. split; [reflexivity|]. split; [reflexivity|].
  split; [|reflexivity].
  eexists. split; [vm_compute; reflexivity|]. reflexivity.
Qed.

(** C5 in the summary of the report. On a drinking entry whose amount
    is the string ["abc"], the tracker and the rows of the report put
    the default amount; the sum under [overall_spending] calls [float]
    outside any [try], the [ValueError] reaches the handler of
    [generate] and no report is written. *)
Lemma C5_report_summary_aborts
    (DEFAULT_AMOUNT : float) (float_of_str : string -> option float) :
  float_of_str "abc" = None ->
  SobrietyTracker.spend_monthly DEFAULT_AMOUNT float_of_str (drinking (PStr "abc"))
    = Ok DEFAULT_AMOUNT /\
  SobrietyTracker.spend_overall DEFAULT_AMOUNT float_of_str (drinking (PStr "abc"))
    = Ok DEFAULT_AMOUNT /\
  ExcelReport.rows DEFAULT_AMOUNT float_of_str unparsable_amount
    = Ok [("2024-01-01"%string, false, Some DEFAULT_AMOUNT)] /\
  ExcelReport.overall_spending DEFAULT_AMOUNT float_of_str unparsable_amount
    = Raise ValueError /\
  ExcelReport.generate DEFAULT_AMOUNT float_of_str unparsable_amount
    = Raise ValueError.
Proof.
  intros H.
  assert (Ha : SobrietyTracker.amount_spent DEFAULT_AMOUNT float_of_str
                 (drinking (PStr "abc")) = Raise ValueError).
  { unfold SobrietyTracker.amount_spent.
    change (get (drinking (PStr "abc")) "amount_spent" (PFloat DEFAULT_AMOUNT))
      with (PStr "abc").
    cbn [py_float]. rewrite H. reflexivity. }
  assert (Hb : ExcelReport.amount_spent DEFAULT_AMOUNT float_of_str
                 (drinking (PStr "abc")) = Raise ValueError) by exact Ha.
  assert (Hrows : ExcelReport.rows DEFAULT_AMOUNT float_of_str unparsable_amount
                  = Ok [("2024-01-01"%string, false, Some DEFAULT_AMOUNT)]).
  { unfold ExcelReport.rows, unparsable_amount.
    change (sorted (keys [("2024-01-01"%string, drinking (PStr "abc"))]))
      with ["2024-01-01"%string].
    cbn [for_each]. change (getitem _ "2024-01-01") with (Ok (drinking (PStr "abc"))).
    rewrite bind_Ok. unfold ExcelReport.row_amount.
    change (is_sober (drinking (PStr "abc"))) with false. cbn iota.
    rewrite Hb. reflexivity. }
  assert (Hsum : ExcelReport.overall_spending DEFAULT_AMOUNT float_of_str
                   unparsable_amount = Raise ValueError).
  { unfold ExcelReport.overall_spending, unparsable_amount. cbn [values map snd for_each].
    change (is_sober (drinking (PStr "abc"))) with false. cbn [negb].
    unfold ExcelReport.summary_spend.
    change (truthy (get (drinking (PStr "abc")) "sober" (PBool true))) with false.
    cbn [negb]. rewrite Hb. reflexivity. }
  split; [|split; [|split; [exact Hrows|split; [exact Hsum|]]]].
  - unfold SobrietyTracker.spend_monthly. rewrite Ha. cbn [try_except].
    rewrite bind_Ok. destruct (PrimFloat.eqb DEFAULT_AMOUNT 0); reflexivity.
  - unfold SobrietyTracker.spend_overall. rewrite Ha. reflexivity.
  - unfold ExcelReport.generate. rewrite Hrows, bind_Ok. cbv zeta.
    change (ExcelReport.percent_gt _ _) with (Ok 0%Q). rewrite bind_Ok.
    change (for_each (ExcelReport.streak_body unparsable_amount)
                     (sorted (keys unparsable_amount)) (mk_streak 0 0 None))
      with (Ok (mk_streak 0 0 (Some (mk_datetime 2024 1 1)))).
    rewrite bind_Ok.
    change (ExcelReport.current_seq_loop unparsable_amount
              (reversed (sorted (keys unparsable_amount))) 0) with (Ok 0).
    rewrite bind_Ok, Hsum. reflexivity.
Qed.

Lemma C5_witness :
  no_float "abc" = None /\
  ExcelReport.generate 40%float no_float unparsable_amount = Raise ValueError.
Proof.
  split; [reflexivity|].
  apply (C5_report_summary_aborts 40%float no_float). reflexivity.
Defined.

(** An entry without the field [sober] is a drinking day for every
    test on [record.get("sober", False)]. *)
Lemma missing_sober_is_drinking (r : record) :
  r !! "sober"%string = None -> is_sober r = false.
Proof. unfold is_sober, get. intros ->. reflexivity. Qed.

(** The two streak loops of the report are those of the tracker, on
    every log. *)
Lemma report_streak_loops (daily_log : log) (ks : list string)
    (st : streak_state) (n : Z) :
  for_each (ExcelReport.streak_body daily_log) ks st =
  for_each (SobrietyTracker.streak_body daily_log) ks st /\
  ExcelReport.current_seq_loop daily_log ks n =
  SobrietyTracker.current_seq_loop daily_log ks n.
Proof. split; reflexivity. Qed.

(** C9 on an entry without the field [sober] and an amount of 15, the
    default being 40: the streaks of the report are those of the
    tracker, the overall spending is 40 in the report and 15 in the
    tracker.  On a drinking entry with an amount of -5 the report has 40
    again and the tracker -5. *)
Lemma C9_report_and_tracker_totals_differ :
  (exists out sheet summary a,
     SobrietyTracker.print_statistics 40%float no_float january missing_sober = Ok out /\
     SobrietyTracker.get_additional_stats missing_sober = Ok a /\
     ExcelReport.generate 40%float no_float missing_sober = Ok (sheet, summary) /\
     ExcelReport.s_longest_streak summary = longest_streak a /\
     ExcelReport.s_current_seq summary = current_streak a /\
     SobrietyTracker.p_overall_spending out = 15%float /\
     ExcelReport.s_overall_spending summary = 40%float) /\
  (exists out sheet summary,
     SobrietyTracker.print_statistics 40%float no_float january negative_amount = Ok out /\
     ExcelReport.generate 40%float no_float negative_amount = Ok (sheet, summary) /\
     SobrietyTracker.p_overall_spending out = (-5)%float /\
     ExcelReport.s_overall_spending summary = 40%float).
Proof.
  split.
  - eexists. eexists. eexists. eexists.
    split; [vm_compute; reflexivity|]. split; [vm_compute; reflexivity|].
    split; [vm_compute; reflexivity|]. repeat split.
  - eexists. eexists. eexists.
    split; [vm_compute; reflexivity|]. split; [vm_compute; reflexivity|].
    split; reflexivity.
Qed.

(** C10 on the same entry: it is a drinking day in the buckets, in the
    streaks and in the rows of the report, the tracker spends its 15,
    and the summary of the report spends the default 40 in its place. *)
Lemma C10_summary_ignores_the_amount :
  is_sober (no_sober_field (PFloat 15)) = false /\
  effective_spend 40%float no_float (no_sober_field (PFloat 15)) = 15%float /\
  SobrietyTracker.spend_monthly 40%float no_float (no_sober_field (PFloat 15))
    = Ok 15%float /\
  SobrietyTracker.spend_overall 40%float no_float (no_sober_field (PFloat 15))
    = Ok 15%float /\
  ExcelReport.row_amount 40%float no_float (no_sober_field (PFloat 15))
    = Ok (Some 15%float) /\
  ExcelReport.summary_spend 40%float no_float (no_sober_field (PFloat 15))
    = Ok 40%float /\
  ExcelReport.overall_spending 40%float no_float missing_sober = Ok 40%float.
Proof. repeat split. Qed.

(** * Further properties of the code *)

(** ** Logging an entry *)

Lemma log_entry_dated (w : world) (daily_log : log) (date_str : string)
    (sober : bool) (mood notes alcohol_type alcohol_amount : string)
    (amount_spent : float) (d : datetime) :
  date_str <> ""%string -> strptime date_str = Ok d ->
  SobrietyTracker.log_entry w daily_log date_str sober mood notes
    alcohol_type alcohol_amount amount_spent =
  setitem daily_log date_str
    (entry_record sober mood notes alcohol_type alcohol_amount amount_spent).
Proof.
  intros Hne Hd. unfold SobrietyTracker.log_entry. cbv zeta.
  destruct (String.eqb_spec date_str "") as [E|_]; [congruence|].
  rewrite Hd. reflexivity.
Qed.

(** With a date given, [log_entry] either refuses it and leaves the log
    as it is, or stores the record under the date as typed: the date
    then reads back the record, whatever was there before, and every
    other key reads as it did. *)
Theorem log_entry_reads_back (w : world) (daily_log : log) (date_str : string)
    (sober : bool) (mood notes alcohol_type alcohol_amount : string)
    (amount_spent : float) :
  date_str <> ""%string ->
  let daily_log' :=
    SobrietyTracker.log_entry w daily_log date_str sober mood notes
      alcohol_type alcohol_amount amount_spent in
  match strptime date_str with
  | Raise _ => daily_log' = daily_log
  | Ok _ =>
      getitem daily_log' date_str =
        Ok (entry_record sober mood notes alcohol_type alcohol_amount amount_spent) /\
      forall k, k <> date_str -> getitem daily_log' k = getitem daily_log k
  end.
Proof.
  intros Hne daily_log'. destruct (strptime date_str) as [d|e] eqn:Hd.
  - unfold daily_log'. rewrite (log_entry_dated _ _ _ _ _ _ _ _ _ d Hne Hd). split.
    + apply getitem_setitem_eq.
    + intros k Hk. apply getitem_setitem_ne. congruence.
  - unfold daily_log', SobrietyTracker.log_entry. cbv zeta.
    destruct (String.eqb_spec date_str "") as [E|_]; [congruence|].
    rewrite Hd. reflexivity.
Qed.

Lemma log_entry_reads_back_witness :
  "2024-03-05"%string <> ""%string /\
  getitem (SobrietyTracker.log_entry january scenario_A "2024-03-05" false
             "low" "party" "beer" "2" 12)
          "2024-03-05" =
  Ok (entry_record false "low" "party" "beer" "2" 12).
Proof.
  assert (Hne : "2024-03-05"%string <> ""%string) by discriminate.
  split; [exact Hne|].
  exact (proj1 (log_entry_reads_back january scenario_A "2024-03-05" false
                  "low" "party" "beer" "2" 12 Hne)).
Defined.

(** [log_entry] keeps one entry per key.  A date that is new to the log
    goes after the others, a date already there keeps its place, so the
    log grows by one entry at most. *)
Theorem log_entry_keys (w : world) (daily_log : log) (date_str : string)
    (sober : bool) (mood notes alcohol_type alcohol_amount : string)
    (amount_spent : float) (d : datetime) :
  wf_log daily_log ->
  date_str <> ""%string ->
  strptime date_str = Ok d ->
  let daily_log' :=
    SobrietyTracker.log_entry w daily_log date_str sober mood notes
      alcohol_type alcohol_amount amount_spent in
  wf_log daily_log' /\
  (In date_str (keys daily_log) -> keys daily_log' = keys daily_log) /\
  (~ In date_str (keys daily_log) ->
     daily_log' =
     daily_log ++ [(date_str,
                    entry_record sober mood notes alcohol_type alcohol_amount
                                 amount_spent)]).
Proof.
  intros Hwf Hne Hd daily_log'. split; [apply log_entry_wf; exact Hwf|].
  unfold daily_log'. rewrite (log_entry_dated _ _ _ _ _ _ _ _ _ d Hne Hd). split.
  - intros Hin. rewrite keys_setitem.
    rewrite bool_decide_eq_true_2 by (apply list_elem_of_In; exact Hin). reflexivity.
  - intros Hnin. clear -Hnin. induction daily_log as [|[k0 r0] l IH]; [reflexivity|].
    cbn [setitem app]. cbn [keys map fst] in Hnin.
    destruct (String.eqb_spec k0 date_str) as [->|Hk].
    + exfalso. apply Hnin. left; reflexivity.
    + f_equal. apply IH. intros H. apply Hnin. right; exact H.
Qed.

Lemma log_entry_keys_witness :
  wf_log scenario_A /\ "2024-03-05"%string <> ""%string /\
  strptime "2024-03-05" = Ok (mk_datetime 2024 3 5) /\
  wf_log (SobrietyTracker.log_entry january scenario_A "2024-03-05" true
            "fine" "" "" "" 0).
Proof.
  assert (Hwf : wf_log scenario_A) by exact (proj1 scenario_A_well_formed).
  assert (Hne : "2024-03-05"%string <> ""%string) by discriminate.
  assert (Hd : strptime "2024-03-05" = Ok (mk_datetime 2024 3 5)) by reflexivity.
  split; [exact Hwf|]. split; [exact Hne|]. split; [exact Hd|].
  exact (proj1 (log_entry_keys january scenario_A "2024-03-05" true
                  "fine" "" "" "" 0 (mk_datetime 2024 3 5) Hwf Hne Hd)).
Defined.

(** ** [strptime] reads what [strftime] writes *)

Lemma code_digit_char (n : Z) : 0 <= n <= 9 -> code (digit_char n) = (48 + Z.to_nat n)%nat.
Proof. intros H. unfold code, digit_char. apply nat_ascii_embedding. lia. Qed.

Lemma is_digit_digit_char (n : Z) : 0 <= n <= 9 -> is_digit (digit_char n) = true.
Proof.
  intros H. unfold is_digit, in_range. rewrite code_digit_char by exact H.
  change (code "0") with 48%nat. change (code "9") with 57%nat.
  apply andb_true_intro. split; apply Nat.leb_le; lia.
Qed.

Lemma re_Y_match {A : Type} (a b c e : Z) (rest : list ascii)
    (k : list ascii -> list ascii -> option A) :
  0 <= a <= 9 -> 0 <= b <= 9 -> 0 <= c <= 9 -> 0 <= e <= 9 ->
  match_alts re_Y (digit_char a :: digit_char b :: digit_char c :: digit_char e :: rest) k =
  k [digit_char a; digit_char b; digit_char c; digit_char e] rest.
Proof.
  intros Ha Hb Hc He. unfold re_Y. cbn [match_alts match_seq].
  rewrite !is_digit_digit_char by assumption.
  destruct (k _ rest); reflexivity.
Qed.

Lemma re_dash_match {A : Type} (rest : list ascii)
    (k : list ascii -> list ascii -> option A) :
  match_alts re_dash ("-"%char :: rest) k = k ["-"%char] rest.
Proof.
  unfold re_dash. cbn [match_alts match_seq].
  change (lit "-"%char "-"%char) with true. cbv iota. destruct (k _ rest); reflexivity.
Qed.

Lemma int_of_text_4 (a b c e : Z) :
  0 <= a <= 9 -> 0 <= b <= 9 -> 0 <= c <= 9 -> 0 <= e <= 9 ->
  int_of_text [digit_char a; digit_char b; digit_char c; digit_char e] =
  1000 * a + 100 * b + 10 * c + e.
Proof.
  intros Ha Hb Hc He. unfold int_of_text. cbn [fold_left].
  rewrite !is_digit_digit_char, !code_digit_char by assumption. lia.
Qed.

Lemma int_of_text_2 (a b : Z) :
  0 <= a <= 9 -> 0 <= b <= 9 ->
  int_of_text [digit_char a; digit_char b] = 10 * a + b.
Proof.
  intros Ha Hb. unfold int_of_text. cbn [fold_left].
  rewrite !is_digit_digit_char, !code_digit_char by assumption. lia.
Qed.

Lemma re_m_match {A : Type} (m : Z) (rest : list ascii)
    (k : list ascii -> list ascii -> option A) (r : A) :
  1 <= m <= 12 ->
  k [digit_char (m / 10); digit_char (m mod 10)] rest = Some r ->
  match_alts re_m (digit_char (m / 10) :: digit_char (m mod 10) :: rest) k = Some r.
Proof.
  intros Hm Hk. each_month m Hm; vm_compute in Hk |- *; rewrite Hk; reflexivity.
Qed.

Lemma day_cases (d : Z) :
  1 <= d <= 31 ->
  d = 1 \/ d = 2 \/ d = 3 \/ d = 4 \/ d = 5 \/ d = 6 \/ d = 7 \/ d = 8 \/
  d = 9 \/ d = 10 \/ d = 11 \/ d = 12 \/ d = 13 \/ d = 14 \/ d = 15 \/
  d = 16 \/ d = 17 \/ d = 18 \/ d = 19 \/ d = 20 \/ d = 21 \/ d = 22 \/
  d = 23 \/ d = 24 \/ d = 25 \/ d = 26 \/ d = 27 \/ d = 28 \/ d = 29 \/
  d = 30 \/ d = 31.
Proof. lia. Qed.

Lemma re_d_match {A : Type} (d : Z) (rest : list ascii)
    (k : list ascii -> list ascii -> option A) (r : A) :
  1 <= d <= 31 ->
  k [digit_char (d / 10); digit_char (d mod 10)] rest = Some r ->
  match_alts re_d (digit_char (d / 10) :: digit_char (d mod 10) :: rest) k = Some r.
Proof.
  intros Hd Hk.
  destruct (day_cases d Hd) as
    [->|[->|[->|[->|[->|[->|[->|[->|[->|[->|[->|[->|[->|[->|[->|[->|[->|[->|[->|[->|
     [->|[->|[->|[->|[->|[->|[->|[->|[->|[->| ->]]]]]]]]]]]]]]]]]]]]]]]]]]]]]];
    vm_compute in Hk |- *; rewrite Hk; reflexivity.
Qed.

Lemma chars_strftime_Ymd (d : datetime) :
  list_ascii_of_string (strftime_Ymd d) =
  [digit_char (year d / 1000); digit_char (year d / 100 mod 10);
   digit_char (year d mod 100 / 10); digit_char (year d mod 100 mod 10);
   "-"%char;
   digit_char (month d / 10); digit_char (month d mod 10);
   "-"%char;
   digit_char (day d / 10); digit_char (day d mod 10)].
Proof. reflexivity. Qed.

(** A date written by [strftime("%Y-%m-%d")] is read back by
    [strptime] as the same date. *)
Theorem strptime_strftime (d : datetime) :
  valid_date d -> strptime (strftime_Ymd d) = Ok d.
Proof.
  intros Hv. pose proof Hv as (Hy & Hm & Hd).
  assert (Hd31 : 1 <= day d <= 31).
  { pose proof (days_in_month_le (year d) (month d) Hm). lia. }
  unfold strptime, format_regex_match. rewrite chars_strftime_Ymd.
  rewrite re_Y_match by dlia. rewrite re_dash_match.
  erewrite re_m_match; [|exact Hm|].
  2:{ rewrite re_dash_match. erewrite re_d_match; [reflexivity|exact Hd31|reflexivity]. }
  cbv iota beta.
  rewrite int_of_text_4, !int_of_text_2 by dlia.
  replace (1000 * (year d / 1000) + 100 * (year d / 100 mod 10) +
           10 * (year d mod 100 / 10) + year d mod 100 mod 10) with (year d) by dlia.
  replace (10 * (month d / 10) + month d mod 10) with (month d) by dlia.
  replace (10 * (day d / 10) + day d mod 10) with (day d) by dlia.
  unfold new_datetime.
  replace ((1 <=? year d) && (year d <=? 9999) && (1 <=? month d) && (month d <=? 12)
           && (1 <=? day d) && (day d <=? days_in_month (year d) (month d)))
    with true.
  - destruct d; reflexivity.
  - symmetry. repeat (apply andb_true_intro; split); apply Z.leb_le; lia.
Qed.

Lemma strptime_strftime_witness :
  valid_date (mk_datetime 2024 2 29) /\
  strptime (strftime_Ymd (mk_datetime 2024 2 29)) = Ok (mk_datetime 2024 2 29).
Proof.
  assert (Hv : valid_date (mk_datetime 2024 2 29)).
  { unfold valid_date. cbn [year month day].
    change (days_in_month 2024 2) with 29. lia. }
  split; [exact Hv|]. exact (strptime_strftime (mk_datetime 2024 2 29) Hv).
Defined.

(** Logged without a date, an entry goes under the date of the clock
    written [YYYY-MM-DD]: the call is never refused, the key is
    zero-padded, and it reads back the record. *)
Theorem log_entry_today (w : world) (daily_log : log)
    (sober : bool) (mood notes alcohol_type alcohol_amount : string)
    (amount_spent : float) :
  valid_date (clock w) ->
  let today := strftime_Ymd (clock w) in
  let daily_log' :=
    SobrietyTracker.log_entry w daily_log "" sober mood notes
      alcohol_type alcohol_amount amount_spent in
  canonical_key today /\
  daily_log' =
    setitem daily_log today
      (entry_record sober mood notes alcohol_type alcohol_amount amount_spent) /\
  getitem daily_log' today =
    Ok (entry_record sober mood notes alcohol_type alcohol_amount amount_spent).
Proof.
  intros Hv today daily_log'.
  assert (Hd : strptime today = Ok (clock w)) by (apply strptime_strftime; exact Hv).
  assert (E : daily_log' =
              setitem daily_log today
                (entry_record sober mood notes alcohol_type alcohol_amount amount_spent)).
  { unfold daily_log', SobrietyTracker.log_entry. cbv zeta.
    change (String.eqb "" "") with true. cbv iota.
    unfold datetime_now. fold today. rewrite Hd. reflexivity. }
  split; [exists (clock w); split; [exact Hd|reflexivity]|].
  split; [exact E|]. rewrite E. apply getitem_setitem_eq.
Qed.

Lemma log_entry_today_witness :
  valid_date (clock january) /\
  keys (SobrietyTracker.log_entry january [] "" true "" "" "" "" 0) =
  ["2024-01-20"%string].
Proof.
  assert (Hv : valid_date (clock january)).
  { unfold valid_date. cbn [clock january year month day].
    change (days_in_month 2024 1) with 31. lia. }
  split; [exact Hv|].
  rewrite (proj1 (proj2 (log_entry_today january [] true "" "" "" "" 0 Hv))).
  reflexivity.
Defined.

(** ** The streaks against the counts *)

Lemma count_true_cons (b : bool) (bs : list bool) :
  count_true (b :: bs) = (if b then 1 else 0) + count_true bs.
Proof. unfold count_true. cbn [List.filter]. destruct b; cbn [length]; lia. Qed.

Lemma count_true_app (bs cs : list bool) :
  count_true (bs ++ cs) = count_true bs + count_true cs.
Proof. unfold count_true. rewrite List.filter_app, length_app. lia. Qed.

Lemma count_true_nonneg (bs : list bool) : 0 <= count_true bs.
Proof. unfold count_true. lia. Qed.

Lemma count_true_perm (bs cs : list bool) :
  Permutation bs cs -> count_true bs = count_true cs.
Proof.
  induction 1 as [|b bs cs _ IH|a b bs|bs cs ds _ IH1 _ IH2].
  - reflexivity.
  - rewrite !count_true_cons, IH. reflexivity.
  - rewrite !count_true_cons. lia.
  - congruence.
Qed.

Lemma count_true_zero (bs : list bool) :
  count_true bs = 0 <-> forall b, In b bs -> b = false.
Proof.
  induction bs as [|b bs IH].
  - split; [intros _ b []|reflexivity].
  - rewrite count_true_cons. pose proof (count_true_nonneg bs). split.
    + intros H0 c [<-|Hc].
      * destruct b; [lia|reflexivity].
      * apply IH; [destruct b; lia|exact Hc].
    + intros Hall. rewrite (Hall b (or_introl eq_refl)).
      destruct IH as [_ IH]. rewrite IH; [reflexivity|].
      intros c Hc. apply Hall. right; exact Hc.
Qed.

Lemma run_length_le (bs : list bool) : 0 <= run_length bs <= count_true bs.
Proof.
  induction bs as [|b bs IH];
    [cbn [run_length]; unfold count_true; cbn [List.filter length]; lia|].
  rewrite count_true_cons. pose proof (count_true_nonneg bs).
  destruct b; cbn [run_length]; lia.
Qed.

(** The count of sober entries of [get_additional_stats] is the number
    of keys under which the log reads a sober entry. *)
Lemma count_sober_flags (daily_log : log) (ks : list string) (n : Z) :
  (forall k, In k ks -> In k (keys daily_log)) ->
  for_each (fun n d => r ← getitem daily_log d; Ok (if is_sober r then n + 1 else n))
           ks n = Ok (n + count_true (map (sober_flag daily_log) ks)).
Proof.
  revert n. induction ks as [|k ks IH]; intros n Hk.
  - cbn [for_each map]. change (count_true []) with 0. f_equal. lia.
  - cbn [for_each map]. rewrite count_true_cons.
    destruct (getitem_key daily_log k) as (r & Hr & _); [apply Hk; left; reflexivity|].
    unfold sober_flag at 1. rewrite Hr, !bind_Ok.
    rewrite IH by (intros k' Hk'; apply Hk; right; exact Hk').
    f_equal. destruct (is_sober r); lia.
Qed.

Lemma walk_step_bounds (st : streak_state) (x : datetime * bool) (n : Z) :
  0 <= st_current st <= st_longest st -> st_longest st <= n ->
  let st' := walk_step st x in
  0 <= st_current st' <= st_longest st' /\
  st_longest st' <= n + (if snd x then 1 else 0) /\
  st_longest st <= st_longest st' <= st_longest st + 1.
Proof.
  intros Hc Hn. destruct x as [d sober]. unfold walk_step. cbn [snd].
  destruct sober.
  - destruct (st_previous st) as [p|];
      [destruct (toordinal d - toordinal p =? 1)|]; cbn [st_current st_longest]; lia.
  - cbn [st_current st_longest]. lia.
Qed.

Lemma walk_bounds (l : list (datetime * bool)) (st : streak_state) (n : Z) :
  0 <= st_current st <= st_longest st -> st_longest st <= n ->
  let st' := fold_left walk_step l st in
  0 <= st_current st' <= st_longest st' /\
  st_longest st <= st_longest st' <= n + count_true (map snd l).
Proof.
  revert st n. induction l as [|x l IH]; intros st n Hc Hn.
  - cbn [fold_left map]. change (count_true []) with 0. cbv zeta. lia.
  - cbn [fold_left map]. rewrite count_true_cons.
    pose proof (walk_step_bounds st x n Hc Hn) as (H1 & H2 & H3).
    specialize (IH (walk_step st x) (n + (if snd x then 1 else 0)) H1 H2).
    cbv zeta in IH. destruct IH as (I1 & I2). cbv zeta. lia.
Qed.

(** A walk that meets a sober day ends with a longest streak of one at
    least. *)
Lemma walk_positive (l : list (datetime * bool)) (st : streak_state) :
  0 <= st_current st <= st_longest st ->
  (exists x, In x l /\ snd x = true) ->
  1 <= st_longest (fold_left walk_step l st).
Proof.
  revert st. induction l as [|x l IH]; intros st Hc (y & Hy & Sy); [destruct Hy|].
  cbn [fold_left].
  pose proof (walk_step_bounds st x (st_longest st) Hc (Z.le_refl _)) as (H1 & _ & H3).
  destruct Hy as [->|Hy].
  - pose proof (walk_bounds l (walk_step st y) (st_longest (walk_step st y)) H1
                  (Z.le_refl _)) as (_ & H4 & _). cbv zeta in H4.
    assert (1 <= st_longest (walk_step st y)).
    { destruct y as [d s]. cbn [snd] in Sy. subst s. unfold walk_step.
      destruct (st_previous st) as [p|];
        [destruct (toordinal d - toordinal p =? 1)|]; cbn [st_longest]; lia. }
    lia.
  - apply IH; [exact H1|]. exists y. split; assumption.
Qed.

Lemma dated_flags_count (daily_log : log) (ks : list string) :
  count_true (map snd (flat_map (dated_flag daily_log) ks)) <=
  count_true (map (sober_flag daily_log) ks).
Proof.
  induction ks as [|k ks IH]; [reflexivity|].
  cbn [flat_map map]. rewrite map_app, count_true_app, count_true_cons.
  unfold dated_flag at 1. destruct (strptime k); cbn [map snd].
  - rewrite count_true_cons. change (count_true []) with 0.
    destruct (sober_flag daily_log k); lia.
  - change (count_true []) with 0. destruct (sober_flag daily_log k); lia.
Qed.

Lemma dated_flag_In (daily_log : log) (ks : list string) (x : datetime * bool) :
  In x (flat_map (dated_flag daily_log) ks) <->
  exists k, In k ks /\ strptime k = Ok (fst x) /\ snd x = sober_flag daily_log k.
Proof.
  rewrite in_flat_map. split.
  - intros (k & Hk & Hx). exists k. split; [exact Hk|]. unfold dated_flag in Hx.
    destruct (strptime k) as [d|e]; [|destruct Hx].
    destruct Hx as [<-|[]]. split; reflexivity.
  - intros (k & Hk & Hd & Hs). exists k. split; [exact Hk|]. unfold dated_flag.
    rewrite Hd. left. destruct x; cbn [fst snd] in *. congruence.
Qed.

(** Both streaks are between 0 and the number of sober days, which is
    at most the number of days in the log; the longest streak is 0
    exactly when no entry with a date for key is sober. *)
Theorem streaks_within_sober_days (daily_log : log) :
  exists a sober_days,
    SobrietyTracker.get_additional_stats daily_log = Ok a /\
    SobrietyTracker.count_sober daily_log = Ok sober_days /\
    0 <= current_streak a <= sober_days /\
    0 <= longest_streak a <= sober_days /\
    sober_days <= total_days a /\
    (longest_streak a = 0 <->
     forall k, In k (keys daily_log) -> valid_key k = true ->
               sober_flag daily_log k = false).
Proof.
  destruct (get_additional_stats_parts daily_log)
    as (s & st & c & Hs & Hsb & Hloop & Hcur & _ & Ha).
  exists (mk_add_stats (Z.of_nat (length daily_log))
            (if Z.of_nat (length daily_log) =? 0 then 0%Q
             else (inject_Z s / inject_Z (Z.of_nat (length daily_log)) * 100)%Q)
            (st_longest st) c), s.
  split; [exact Ha|]. split; [exact Hs|].
  cbn [current_streak longest_streak total_days].
  assert (Es : s = count_true (map (sober_flag daily_log) (keys daily_log))).
  { unfold SobrietyTracker.count_sober in Hs.
    rewrite count_sober_flags in Hs by auto. injection Hs as <-. lia. }
  assert (Ep : count_true (map (sober_flag daily_log) (sorted (keys daily_log))) = s).
  { rewrite Es. apply count_true_perm, Permutation_map. symmetry. apply sorted_perm. }
  rewrite current_seq_loop_run in Hcur by apply reversed_sorted_keys_In.
  injection Hcur as <-.
  rewrite streak_loop_walk in Hloop by apply sorted_keys_In.
  injection Hloop as <-.
  pose proof (walk_bounds (flat_map (dated_flag daily_log) (sorted (keys daily_log)))
                (mk_streak 0 0 None) 0) as Hw.
  cbn [st_current st_longest] in Hw. cbv zeta in Hw.
  destruct Hw as (Hw1 & Hw2); [lia|lia|].
  pose proof (dated_flags_count daily_log (sorted (keys daily_log))) as Hdc.
  split; [|split; [|split]].
  - pose proof (run_length_le
                  (map (sober_flag daily_log) (reversed (sorted (keys daily_log))))) as Hr.
    assert (count_true (map (sober_flag daily_log) (reversed (sorted (keys daily_log))))
            = s).
    { rewrite <- Ep. apply count_true_perm, Permutation_map.
      unfold reversed. symmetry. apply Permutation_rev. }
    lia.
  - lia.
  - lia.
  - split.
    + intros H0 k Hk Hv.
      destruct (sober_flag daily_log k) eqn:Hf; [|reflexivity]. exfalso.
      unfold valid_key in Hv. destruct (strptime k) as [d|e] eqn:Hd; [|discriminate].
      assert (1 <= st_longest
                     (fold_left walk_step
                        (flat_map (dated_flag daily_log) (sorted (keys daily_log)))
                        (mk_streak 0 0 None))).
      { apply walk_positive; [cbn; lia|]. exists (d, true). split; [|reflexivity].
        apply dated_flag_In. exists k. cbn [fst snd].
        split; [apply sorted_In; exact Hk|]. split; [exact Hd|]. symmetry; exact Hf. }
      lia.
    + intros Hall.
      assert (count_true (map snd (flat_map (dated_flag daily_log)
                                            (sorted (keys daily_log)))) = 0).
      { apply count_true_zero. intros b Hb. apply in_map_iff in Hb as (x & <- & Hx).
        apply dated_flag_In in Hx as (k & Hk & Hd & Hsx). rewrite Hsx.
        apply Hall; [apply sorted_In; exact Hk|].
        unfold valid_key. rewrite Hd. reflexivity. }
      lia.
Qed.

(** ** Logging a day after all the others *)

Lemma setitem_fresh (daily_log : log) (k : string) (r : record) :
  ~ In k (keys daily_log) -> setitem daily_log k r = daily_log ++ [(k, r)].
Proof.
  intros Hnin. induction daily_log as [|[k0 r0] l IH]; [reflexivity|].
  cbn [setitem app]. cbn [keys map fst] in Hnin.
  destruct (String.eqb_spec k0 k) as [->|Hk].
  - exfalso. apply Hnin. left; reflexivity.
  - f_equal. apply IH. intros H. apply Hnin. right; exact H.
Qed.

Lemma ltb_le_ne (x k : string) :
  String.ltb x k = true -> str_le x k /\ x <> k.
Proof.
  unfold String.ltb, str_le, String.leb. intros H. split.
  - destruct (String.compare x k); [reflexivity|reflexivity|discriminate].
  - intros ->. pose proof (String.compare_antisym k k) as Ha.
    destruct (String.compare k k); discriminate.
Qed.

Lemma StronglySorted_snoc (l : list string) (k : string) :
  StronglySorted str_le l -> (forall x, In x l -> str_le x k) ->
  StronglySorted str_le (l ++ [k]).
Proof.
  induction 1 as [|x l Hl IH Hx]; intros Hk; cbn [app].
  - constructor; constructor.
  - constructor.
    + apply IH. intros y Hy. apply Hk. right; exact Hy.
    + apply Forall_app. split; [exact Hx|].
      constructor; [|constructor]. apply Hk. left; reflexivity.
Qed.

(** A key above all the others sorts last. *)
Lemma sorted_snoc_max (ks : list string) (k : string) :
  (forall x, In x ks -> str_le x k) -> sorted (ks ++ [k]) = sorted ks ++ [k].
Proof.
  intros Hk. symmetry. apply sorted_spec.
  - apply Permutation_app_tail, sorted_perm.
  - apply StronglySorted_snoc; [apply sorted_ok|].
    intros x Hx. apply Hk. apply sorted_In. exact Hx.
Qed.

Lemma is_sober_entry_record (sober : bool)
    (mood notes alcohol_type alcohol_amount : string) (amount_spent : float) :
  is_sober (entry_record sober mood notes alcohol_type alcohol_amount amount_spent)
  = sober.
Proof. destruct sober; reflexivity. Qed.

Lemma sober_flag_snoc_old (daily_log : log) (k x : string) (r : record) :
  x <> k -> sober_flag (daily_log ++ [(k, r)]) x = sober_flag daily_log x.
Proof.
  intros Hne. unfold sober_flag.
  induction daily_log as [|[k0 r0] l IH]; cbn [app getitem].
  - destruct (String.eqb_spec k x); [congruence|reflexivity].
  - destruct (String.eqb k0 x); [reflexivity|exact IH].
Qed.

Lemma sober_flag_snoc_new (daily_log : log) (k : string) (r : record) :
  ~ In k (keys daily_log) -> sober_flag (daily_log ++ [(k, r)]) k = is_sober r.
Proof.
  intros Hnin. unfold sober_flag.
  induction daily_log as [|[k0 r0] l IH]; cbn [app getitem].
  - rewrite String.eqb_refl. reflexivity.
  - cbn [keys map fst] in Hnin.
    destruct (String.eqb_spec k0 k) as [->|Hk]; [exfalso; apply Hnin; left; reflexivity|].
    apply IH. intros H. apply Hnin. right; exact H.
Qed.

Lemma dated_flag_snoc_old (daily_log : log) (k : string) (r : record)
    (ks : list string) :
  ~ In k ks ->
  flat_map (dated_flag (daily_log ++ [(k, r)])) ks = flat_map (dated_flag daily_log) ks.
Proof.
  induction ks as [|x ks IH]; intros Hnin; [reflexivity|].
  cbn [flat_map]. rewrite IH by (intros H; apply Hnin; right; exact H).
  f_equal. unfold dated_flag.
  rewrite sober_flag_snoc_old by (intros ->; apply Hnin; left; reflexivity).
  reflexivity.
Qed.

(** Logging a day under a date that sorts after every key of the log:
    the log has one day more, a sober day adds one to the current
    streak and a drinking day sets it to 0, and the longest streak
    stays or grows by one. *)
Theorem log_entry_after_all (w : world) (daily_log : log) (date_str : string)
    (sober : bool) (mood notes alcohol_type alcohol_amount : string)
    (amount_spent : float) (d : datetime) :
  date_str <> ""%string ->
  strptime date_str = Ok d ->
  (forall x, In x (keys daily_log) -> String.ltb x date_str = true) ->
  let daily_log' :=
    SobrietyTracker.log_entry w daily_log date_str sober mood notes
      alcohol_type alcohol_amount amount_spent in
  exists a a',
    SobrietyTracker.get_additional_stats daily_log = Ok a /\
    SobrietyTracker.get_additional_stats daily_log' = Ok a' /\
    total_days a' = total_days a + 1 /\
    current_streak a' = (if sober then current_streak a + 1 else 0) /\
    longest_streak a <= longest_streak a' <= longest_streak a + 1.
Proof.
  intros Hne Hd Hmax daily_log'.
  set (r := entry_record sober mood notes alcohol_type alcohol_amount amount_spent).
  assert (Hfresh : ~ In date_str (keys daily_log)).
  { intros Hin. apply (proj2 (ltb_le_ne _ _ (Hmax _ Hin))). reflexivity. }
  assert (E : daily_log' = daily_log ++ [(date_str, r)]).
  { unfold daily_log'. rewrite (log_entry_dated _ _ _ _ _ _ _ _ _ d Hne Hd).
    apply setitem_fresh. exact Hfresh. }
  assert (Ek : sorted (keys daily_log') = sorted (keys daily_log) ++ [date_str]).
  { rewrite E. unfold keys. rewrite map_app. cbn [map fst].
    apply sorted_snoc_max. intros x Hx. apply (ltb_le_ne _ _ (Hmax _ Hx)). }
  assert (Hold : ~ In date_str (sorted (keys daily_log))).
  { intros H. apply Hfresh. apply sorted_In. exact H. }
  destruct (get_additional_stats_parts daily_log)
    as (s & st & c & _ & _ & Hloop & Hcur & _ & Ha).
  destruct (get_additional_stats_parts daily_log')
    as (s' & st' & c' & _ & _ & Hloop' & Hcur' & _ & Ha').
  eexists. eexists. split; [exact Ha|]. split; [exact Ha'|].
  cbn [total_days current_streak longest_streak].
  split; [|split].
  - rewrite E, length_app. cbn [length]. lia.
  - rewrite current_seq_loop_run in Hcur by apply reversed_sorted_keys_In.
    rewrite current_seq_loop_run in Hcur' by apply reversed_sorted_keys_In.
    injection Hcur as <-. injection Hcur' as <-.
    unfold reversed. rewrite Ek, rev_app_distr. cbn [rev app map run_length].
    rewrite E, sober_flag_snoc_new by exact Hfresh.
    unfold r at 1. rewrite is_sober_entry_record.
    destruct sober; [|reflexivity].
    assert (Em : map (sober_flag (daily_log ++ [(date_str, r)]))
                     (rev (sorted (keys daily_log))) =
                 map (sober_flag daily_log) (rev (sorted (keys daily_log)))).
    { apply map_ext_in. intros x Hx. apply sober_flag_snoc_old.
      intros ->. apply Hold. apply in_rev. exact Hx. }
    rewrite Em. lia.
  - rewrite streak_loop_walk in Hloop by apply sorted_keys_In.
    rewrite streak_loop_walk in Hloop' by apply sorted_keys_In.
    injection Hloop as <-. injection Hloop' as <-.
    rewrite Ek, flat_map_app, fold_left_app, E.
    rewrite (dated_flag_snoc_old daily_log date_str r (sorted (keys daily_log)) Hold).
    assert (Fk : dated_flag (daily_log ++ [(date_str, r)]) date_str =
                 [(d, sober_flag (daily_log ++ [(date_str, r)]) date_str)]).
    { unfold dated_flag. rewrite Hd. reflexivity. }
    cbn [flat_map]. rewrite !Fk. cbn [app fold_left].
    pose proof (walk_bounds (flat_map (dated_flag daily_log) (sorted (keys daily_log)))
                  (mk_streak 0 0 None) 0) as Hw.
    cbn [st_current st_longest] in Hw. cbv zeta in Hw.
    destruct Hw as (Hw1 & _); [lia|lia|].
    pose proof (walk_step_bounds _
                  (d, sober_flag (daily_log ++ [(date_str, r)]) date_str)
                  _ Hw1 (Z.le_refl _)) as (_ & _ & H3).
    exact H3.
Qed.

Lemma log_entry_after_all_witness :
  "2024-01-04"%string <> ""%string /\
  strptime "2024-01-04" = Ok (mk_datetime 2024 1 4) /\
  (forall x, In x (keys scenario_A) -> String.ltb x "2024-01-04" = true) /\
  exists a a',
    SobrietyTracker.get_additional_stats scenario_A = Ok a /\
    SobrietyTracker.get_additional_stats
      (SobrietyTracker.log_entry january scenario_A "2024-01-04" true "" "" "" "" 0)
    = Ok a' /\
    total_days a' = total_days a + 1 /\
    current_streak a' = current_streak a + 1 /\
    longest_streak a <= longest_streak a' <= longest_streak a + 1.
Proof.
  assert (Hne : "2024-01-04"%string <> ""%string) by discriminate.
  assert (Hd : strptime "2024-01-04" = Ok (mk_datetime 2024 1 4)) by reflexivity.
  assert (Hmax : forall x, In x (keys scenario_A) -> String.ltb x "2024-01-04" = true).
  { intros x [<-|[<-|[<-|[]]]]; reflexivity. }
  split; [exact Hne|]. split; [exact Hd|]. split; [exact Hmax|].
  exact (log_entry_after_all january scenario_A "2024-01-04" true "" "" "" "" 0
           (mk_datetime 2024 1 4) Hne Hd Hmax).
Defined.

(** ** Buckets, periods and totals *)

Lemma valid_first_of_month (y m : Z) :
  1 <= y <= 9999 -> 1 <= m <= 12 -> valid_date (mk_datetime y m 1).
Proof.
  intros Hy Hm. unfold valid_date. cbn [year month day].
  assert (28 <= days_in_month y m).
  { unfold days_in_month. each_month m Hm; destruct (is_leap y); vm_compute; discriminate. }
  lia.
Qed.

Lemma month_bucket_counts (l : log) (m : gmap string mstat) (k : string) :
  month_counts l m ->
  m_total_days (month_bucket m k) = count (has_month_key k) l /\
  m_sober_days (month_bucket m k) =
    count (fun it => has_month_key k it && sober_item it) l.
Proof.
  intros Hm. specialize (Hm k). unfold month_bucket.
  pose proof (count_sober_le (has_month_key k) l).
  destruct (m !! k) as [b|]; cbn [m_total_days m_sober_days]; lia.
Qed.

Lemma year_bucket_counts (l : log) (m : gmap string ystat) (k : string) :
  year_counts l m ->
  y_total_days (year_bucket m k) = count (has_year_key k) l /\
  y_sober_days (year_bucket m k) =
    count (fun it => has_year_key k it && sober_item it) l.
Proof.
  intros Hm. specialize (Hm k). unfold year_bucket.
  pose proof (count_sober_le (has_year_key k) l).
  destruct (m !! k) as [b|]; cbn [y_total_days y_sober_days]; lia.
Qed.

Lemma in_year_months (y : Z) (x : string * record) :
  (if in_year y x then 1 else 0) =
  sum_months (fun m => if in_month y m x then 1 else 0).
Proof.
  unfold in_year, in_month, sum_months.
  destruct (date_of x) as [d|] eqn:E; [|reflexivity].
  pose proof (date_of_valid x d E) as (_ & Hm & _).
  destruct d as [y0 m0 d0]. cbn [year month] in *.
  each_month m0 Hm; destruct (y0 =? y); reflexivity.
Qed.

Lemma count_sum_months (p : string * record -> bool)
    (q : Z -> string * record -> bool) (l : log) :
  (forall x, (if p x then 1 else 0) = sum_months (fun m => if q m x then 1 else 0)) ->
  count p l = sum_months (fun m => count (q m) l).
Proof.
  intros H. induction l as [|x l IH]; [reflexivity|].
  rewrite count_cons, IH, H. unfold sum_months. rewrite !count_cons. lia.
Qed.

Section Buckets.

Variable DEFAULT_AMOUNT : float.
Variable float_of_str : string -> option float.

(** The bucket of a year is the sum of the buckets of its months:
    [total_days] and [sober_days] of the year key are the sums of those
    under its twelve month keys, a month without a bucket counting for
    nothing. *)
Theorem year_bucket_sums_months (daily_log : log) :
  exists st,
    SobrietyTracker.get_statistics DEFAULT_AMOUNT float_of_str daily_log = Ok st /\
    forall y, 1 <= y <= 9999 ->
      y_total_days (year_bucket (yearly st) (year_key_of y)) =
        sum_months (fun m => m_total_days (month_bucket (monthly st) (month_key_of y m)))
      /\
      y_sober_days (year_bucket (yearly st) (year_key_of y)) =
        sum_months (fun m => m_sober_days (month_bucket (monthly st) (month_key_of y m))).
Proof.
  destruct (get_statistics_counts DEFAULT_AMOUNT float_of_str daily_log)
    as (st & Hst & Hm & Hy).
  exists st. split; [exact Hst|]. intros y Hyr.
  destruct (year_bucket_counts daily_log (yearly st) (year_key_of y) Hy) as (Yt & Ys).
  rewrite Yt, Ys.
  assert (Vy : valid_date (mk_datetime y 1 1)) by (apply valid_first_of_month; lia).
  assert (Km : forall m, 1 <= m <= 12 ->
             m_total_days (month_bucket (monthly st) (month_key_of y m)) =
               count (in_month y m) daily_log /\
             m_sober_days (month_bucket (monthly st) (month_key_of y m)) =
               count (fun it => in_month y m it && sober_item it) daily_log).
  { intros m Hmm.
    destruct (month_bucket_counts daily_log (monthly st) (month_key_of y m) Hm)
      as (Mt & Ms).
    rewrite Mt, Ms. unfold month_key_of.
    pose proof (valid_first_of_month y m Hyr Hmm) as Vm.
    split; apply count_ext; intros x _;
      rewrite (has_month_key_in_month (mk_datetime y m 1) x Vm); reflexivity. }
  assert (Ey : forall x, has_year_key (year_key_of y) x = in_year y x).
  { intros x. unfold year_key_of.
    rewrite (has_year_key_in_year (mk_datetime y 1 1) x Vy). reflexivity. }
  assert (Kt : forall m, 1 <= m <= 12 ->
             m_total_days (month_bucket (monthly st) (month_key_of y m)) =
               count (in_month y m) daily_log) by (intros m H; apply (Km m H)).
  assert (Ks : forall m, 1 <= m <= 12 ->
             m_sober_days (month_bucket (monthly st) (month_key_of y m)) =
               count (fun it => in_month y m it && sober_item it) daily_log)
    by (intros m H; apply (Km m H)).
  unfold sum_months.
  rewrite !Kt, !Ks by lia.
  split.
  - rewrite (count_ext _ (in_year y)) by (intros x _; apply Ey).
    apply (count_sum_months (in_year y) (in_month y)). apply in_year_months.
  - rewrite (count_ext _ (fun it => in_year y it && sober_item it))
      by (intros x _; rewrite Ey; reflexivity).
    apply (count_sum_months (fun it => in_year y it && sober_item it)
                            (fun m it => in_month y m it && sober_item it)).
    intros x. pose proof (in_year_months y x) as H. unfold sum_months in *.
    destruct (sober_item x).
    + rewrite !andb_true_r. exact H.
    + rewrite !andb_false_r. reflexivity.
Qed.

Lemma period_bucket_snoc (y m : Z) (l : log) (x : string * record) :
  period_bucket DEFAULT_AMOUNT float_of_str y m (l ++ [x]) =
  if in_month y m x
  then month_turn (sober_item x)
                  (effective_spend DEFAULT_AMOUNT float_of_str (snd x))
                  (period_bucket DEFAULT_AMOUNT float_of_str y m l)
  else period_bucket DEFAULT_AMOUNT float_of_str y m l.
Proof. unfold period_bucket. rewrite fold_left_app. reflexivity. Qed.

(** The bucket under a month key is built from the entries of that
    month alone, in the order of the log. *)
Lemma month_bucket_period (daily_log : log) :
  exists st,
    SobrietyTracker.get_statistics DEFAULT_AMOUNT float_of_str daily_log = Ok st /\
    forall y m, 1 <= y <= 9999 -> 1 <= m <= 12 ->
      month_bucket (monthly st) (month_key_of y m) =
      period_bucket DEFAULT_AMOUNT float_of_str y m daily_log.
Proof.
  unfold SobrietyTracker.get_statistics, items.
  induction daily_log as [|[date_str r] l IH] using rev_ind.
  - exists (mk_stats ∅ ∅). split; [reflexivity|]. intros y m _ _.
    unfold month_bucket. cbn [monthly]. rewrite lookup_empty. reflexivity.
  - destruct IH as (st & Hst & IH).
    rewrite for_each_snoc, Hst, bind_Ok.
    destruct (strptime date_str) as [d|e] eqn:Hd.
    + rewrite (get_statistics_body_valid DEFAULT_AMOUNT float_of_str st date_str r d Hd).
      eexists. split; [reflexivity|]. intros y m Hy Hm. cbn [monthly].
      rewrite period_bucket_snoc. unfold in_month, date_of, sober_item.
      cbn [fst snd]. rewrite Hd.
      pose proof (strptime_valid date_str d Hd) as Vd.
      pose proof (valid_first_of_month y m Hy Hm) as Vm.
      pose proof (strftime_Ym_inj d (mk_datetime y m 1) Vd Vm) as Hinj.
      cbn [year month] in Hinj. fold (month_key_of y m) in Hinj.
      destruct ((year d =? y) && (month d =? m)) eqn:T.
      * apply andb_true_iff in T. destruct T as [Ty Tm].
        apply Z.eqb_eq in Ty, Tm.
        assert (K : strftime_Ym d = month_key_of y m) by (apply Hinj; auto).
        rewrite K. unfold month_bucket at 1. rewrite lookup_insert_eq.
        rewrite IH by assumption. reflexivity.
      * assert (K : strftime_Ym d <> month_key_of y m).
        { intros K. apply Hinj in K. destruct K as [Ky Km].
          rewrite Ky, Km, !Z.eqb_refl in T. discriminate. }
        unfold month_bucket at 1. rewrite lookup_insert_ne by exact K.
        apply IH; assumption.
    + rewrite get_statistics_body_invalid
        by (unfold valid_key; rewrite Hd; reflexivity).
      exists st. split; [reflexivity|]. intros y m Hy Hm.
      rewrite period_bucket_snoc. unfold in_month, date_of. cbn [fst].
      rewrite Hd. apply IH; assumption.
Qed.

Lemma spending_fold_period (now : datetime) (l : log) (acc : float * float)
    (b : mstat) :
  snd acc = m_spent b ->
  snd (fold_left (spending_turn DEFAULT_AMOUNT float_of_str now) l acc) =
  m_spent
    (fold_left
       (fun b item =>
          if in_month (year now) (month now) item
          then month_turn (sober_item item)
                 (effective_spend DEFAULT_AMOUNT float_of_str (snd item)) b
          else b) l b).
Proof.
  revert acc b. induction l as [|x l IH]; intros acc b H; [exact H|].
  cbn [fold_left]. apply IH.
  unfold spending_turn, in_month, sober_item, month_turn.
  destruct (date_of x) as [d|]; [|exact H].
  destruct (is_sober (snd x)).
  - destruct ((year d =? year now) && (month d =? month now)); exact H.
  - cbn [snd]. destruct ((year d =? year now) && (month d =? month now));
      cbn [m_spent]; rewrite ?H; reflexivity.
Qed.

(** The total that [print_statistics] prints for the current month is
    the [spent] of the month bucket of [get_statistics] under the
    month key of the clock, float for float; it is 0 when the month
    has no bucket. *)
Theorem current_month_total_is_month_bucket (w : world) (daily_log : log) :
  1 <= year (clock w) <= 9999 ->
  1 <= month (clock w) <= 12 ->
  exists out st,
    SobrietyTracker.print_statistics DEFAULT_AMOUNT float_of_str w daily_log = Ok out /\
    SobrietyTracker.get_statistics DEFAULT_AMOUNT float_of_str daily_log = Ok st /\
    SobrietyTracker.p_current_month_spending out =
      m_spent (month_bucket (monthly st)
                 (month_key_of (year (clock w)) (month (clock w)))).
Proof.
  intros Hy Hm.
  destruct (print_statistics_parts DEFAULT_AMOUNT float_of_str w daily_log)
    as (st & a & rows_m & rows_y & Hst & _ & _ & _ & _ & _ & Hp).
  destruct (month_bucket_period daily_log) as (st' & Hst' & Hb).
  rewrite Hst in Hst'. injection Hst' as <-.
  eexists. exists st. split; [exact Hp|]. split; [exact Hst|].
  cbn [SobrietyTracker.p_current_month_spending].
  rewrite (Hb _ _ Hy Hm). unfold period_bucket.
  apply spending_fold_period. reflexivity.
Qed.

Lemma calendar_spend_eq (r : record) :
  (amt ← try_except (py_float float_of_str (get r "amount_spent" (PInt 40)))
                    (Ok 40%float);
   Ok (if PrimFloat.eqb amt 0%float then 40%float else amt)) =
  Ok (effective_spend 40%float float_of_str r).
Proof.
  unfold effective_spend, SobrietyTracker.amount_spent, get.
  destruct (r !! "amount_spent") as [v|].
  - destruct (py_float float_of_str v) as [x|e]; reflexivity.
  - reflexivity.
Qed.

Lemma calendar_body_eq (y m : Z) (acc : Z * Z * float) (item : string * record) :
  Ui.calendar_body float_of_str y m acc item =
  Ok (calendar_turn float_of_str y m acc item).
Proof.
  destruct item as [date_str r]. destruct acc as [[total sober] spent].
  unfold Ui.calendar_body, calendar_turn, in_month, date_of, sober_item.
  cbn [fst snd].
  destruct (strptime date_str) as [d|e]; [|reflexivity].
  destruct ((year d =? y) && (month d =? m)); [|reflexivity].
  destruct (is_sober r); [reflexivity|].
  pose proof (calendar_spend_eq r) as E.
  destruct (try_except (py_float float_of_str (get r "amount_spent" (PInt 40)))
                       (Ok 40%float)) as [amt|e].
  - rewrite bind_Ok in *. injection E as <-. reflexivity.
  - discriminate E.
Qed.

Lemma calendar_loop_eq (y m : Z) (l : log) (acc : Z * Z * float) :
  for_each (Ui.calendar_body float_of_str y m) l acc =
  Ok (fold_left (calendar_turn float_of_str y m) l acc).
Proof.
  revert acc. induction l as [|x l IH]; intros acc; [reflexivity|].
  cbn [for_each fold_left]. rewrite calendar_body_eq, bind_Ok. apply IH.
Qed.

Lemma calendar_fold_period (y m : Z) (l : log) (acc : Z * Z * float) (b : mstat) :
  fst (fst acc) = m_total_days b ->
  snd (fst acc) = m_sober_days b ->
  (DEFAULT_AMOUNT = 40%float -> snd acc = m_spent b) ->
  let acc' := fold_left (calendar_turn float_of_str y m) l acc in
  let b' :=
    fold_left
      (fun b item =>
         if in_month y m item
         then month_turn (sober_item item)
                (effective_spend DEFAULT_AMOUNT float_of_str (snd item)) b
         else b) l b in
  fst (fst acc') = m_total_days b' /\
  snd (fst acc') = m_sober_days b' /\
  (DEFAULT_AMOUNT = 40%float -> snd acc' = m_spent b').
Proof.
  revert acc b. induction l as [|x l IH]; intros acc b Ht Hs Hp; cbv zeta.
  - cbn [fold_left]. auto.
  - cbn [fold_left]. apply IH; unfold calendar_turn, month_turn;
      destruct (in_month y m x); try assumption;
      destruct (sober_item x); cbn [fst snd m_total_days m_sober_days m_spent];
      try lia; try assumption.
    intros E. rewrite (Hp E), E. reflexivity.
Qed.

(** The statistics line under the calendar of a month shows the bucket
    that [get_statistics] holds for that month in the stored log: the
    same sober days and total days, with their percentage, and the
    message for an empty month exactly when the month has no bucket.
    The amount spent is that of the bucket when the configured default
    amount is the 40 that the calendar has built in.  The argument
    [data] plays no part. *)
Theorem calendar_line_is_month_bucket (w : world) (y m : Z) (data : log) :
  1 <= y <= 9999 ->
  1 <= m <= 12 ->
  exists st,
    SobrietyTracker.get_statistics DEFAULT_AMOUNT float_of_str (stored_log w) = Ok st /\
    match monthly st !! month_key_of y m with
    | None => Ui.display_calendar float_of_str w y m data = Ok None
    | Some b =>
        exists spent,
          Ui.display_calendar float_of_str w y m data =
            Ok (Some (m_sober_days b, m_total_days b,
                      percent_of (m_sober_days b) (m_total_days b), spent)) /\
          (DEFAULT_AMOUNT = 40%float -> spent = m_spent b)
    end.
Proof.
  intros Hy Hm.
  destruct (get_statistics_counts DEFAULT_AMOUNT float_of_str (stored_log w))
    as (st & Hst & Hc & _).
  destruct (month_bucket_period (stored_log w)) as (st' & Hst' & Hb).
  rewrite Hst in Hst'. injection Hst' as <-.
  exists st. split; [exact Hst|].
  specialize (Hb y m Hy Hm). specialize (Hc (month_key_of y m)).
  unfold Ui.display_calendar. cbv zeta. unfold items, load_daily_log.
  rewrite calendar_loop_eq, bind_Ok.
  destruct (calendar_fold_period y m (stored_log w) (0, 0, 0%float)
              (mk_mstat 0 0 0%float) eq_refl eq_refl (fun _ => eq_refl))
    as (Ft & Fs & Fp).
  fold (period_bucket DEFAULT_AMOUNT float_of_str y m (stored_log w)) in Ft, Fs, Fp.
  rewrite <- Hb in Ft, Fs, Fp.
  destruct (fold_left (calendar_turn float_of_str y m) (stored_log w) (0, 0, 0%float))
    as [[total sober] spent].
  cbn [fst snd] in Ft, Fs, Fp. unfold month_bucket in Ft, Fs, Fp.
  destruct (monthly st !! month_key_of y m) as [b|].
  - destruct Hc as (_ & _ & Hpos). subst total sober.
    destruct (Z.ltb_spec 0 (m_total_days b)) as [_|Hle]; [|lia].
    unfold truediv, percent_of.
    destruct (Z.eqb_spec (m_total_days b) 0) as [E0|_]; [lia|].
    rewrite bind_Ok. exists spent. split; [reflexivity|exact Fp].
  - cbn [m_total_days] in Ft. subst total. reflexivity.
Qed.

Lemma count_perm (p : string * record -> bool) (l l' : log) :
  Permutation l l' -> count p l = count p l'.
Proof.
  intros H. induction H as [|x l l' _ IH|x y l|l l' l'' _ IH1 _ IH2].
  - reflexivity.
  - rewrite !count_cons, IH. reflexivity.
  - rewrite !count_cons. lia.
  - congruence.
Qed.

(** The buckets of [get_statistics] count the entries, so the order of
    the log does not matter to them: two logs with the same entries in
    different orders give the same yearly buckets, and month buckets
    under the same keys with the same sober days and total days. *)
Theorem bucket_counts_ignore_the_order (l l' : log) :
  Permutation l l' ->
  exists st st',
    SobrietyTracker.get_statistics DEFAULT_AMOUNT float_of_str l = Ok st /\
    SobrietyTracker.get_statistics DEFAULT_AMOUNT float_of_str l' = Ok st' /\
    yearly st = yearly st' /\
    dom (monthly st) = dom (monthly st') /\
    forall k,
      m_total_days (month_bucket (monthly st) k) =
        m_total_days (month_bucket (monthly st') k) /\
      m_sober_days (month_bucket (monthly st) k) =
        m_sober_days (month_bucket (monthly st') k).
Proof.
  intros HP.
  destruct (get_statistics_counts DEFAULT_AMOUNT float_of_str l) as (st & Hst & Hm & Hy).
  destruct (get_statistics_counts DEFAULT_AMOUNT float_of_str l') as (st' & Hst' & Hm' & Hy').
  exists st, st'. split; [exact Hst|]. split; [exact Hst'|].
  split; [|split].
  - apply map_eq. intros k. specialize (Hy k). specialize (Hy' k).
    rewrite (count_perm (has_year_key k) l l' HP) in Hy.
    rewrite (count_perm (fun it => has_year_key k it && sober_item it) l l' HP) in Hy.
    destruct (yearly st !! k) as [[s t]|], (yearly st' !! k) as [[s' t']|];
      cbn [y_total_days y_sober_days] in *.
    + f_equal. f_equal; lia.
    + lia.
    + lia.
    + reflexivity.
  - apply set_eq. intros k. rewrite !elem_of_dom.
    specialize (Hm k). specialize (Hm' k).
    rewrite (count_perm (has_month_key k) l l' HP) in Hm.
    destruct (monthly st !! k) as [b|], (monthly st' !! k) as [b'|];
      split; intros [? H]; try discriminate H; try (eexists; reflexivity); lia.
  - intros k.
    destruct (month_bucket_counts l (monthly st) k Hm) as (-> & ->).
    destruct (month_bucket_counts l' (monthly st') k Hm') as (-> & ->).
    split; apply count_perm; exact HP.
Qed.

End Buckets.

Lemma current_month_total_is_month_bucket_witness :
  1 <= year (clock january) <= 9999 /\
  1 <= month (clock january) <= 12 /\
  exists out st,
    SobrietyTracker.print_statistics 40%float no_float january scenario_B = Ok out /\
    SobrietyTracker.get_statistics 40%float no_float scenario_B = Ok st /\
    SobrietyTracker.p_current_month_spending out =
      m_spent (month_bucket (monthly st)
                 (month_key_of (year (clock january)) (month (clock january)))).
Proof.
  assert (Hy : 1 <= year (clock january) <= 9999) by (cbn; lia).
  assert (Hm : 1 <= month (clock january) <= 12) by (cbn; lia).
  split; [exact Hy|]. split; [exact Hm|].
  exact (current_month_total_is_month_bucket 40%float no_float january scenario_B Hy Hm).
Defined.

Lemma calendar_line_is_month_bucket_witness :
  let w := mk_world (mk_datetime 2024 3 1) scenario_A in
  1 <= 2024 <= 9999 /\
  1 <= 1 <= 12 /\
  exists st,
    SobrietyTracker.get_statistics 40%float no_float (stored_log w) = Ok st /\
    match monthly st !! month_key_of 2024 1 with
    | None => Ui.display_calendar no_float w 2024 1 [] = Ok None
    | Some b =>
        exists spent,
          Ui.display_calendar no_float w 2024 1 [] =
            Ok (Some (m_sober_days b, m_total_days b,
                      percent_of (m_sober_days b) (m_total_days b), spent)) /\
          (40%float = 40%float -> spent = m_spent b)
    end.
Proof.
  intros w.
  assert (Hy : 1 <= 2024 <= 9999) by lia.
  assert (Hm : 1 <= 1 <= 12) by lia.
  split; [exact Hy|]. split; [exact Hm|].
  exact (calendar_line_is_month_bucket 40%float no_float w 2024 1 [] Hy Hm).
Defined.

Lemma bucket_counts_ignore_the_order_witness :
  let l := scenario_B in
  let l' := rev scenario_B in
  Permutation l l' /\
  exists st st',
    SobrietyTracker.get_statistics 40%float no_float l = Ok st /\
    SobrietyTracker.get_statistics 40%float no_float l' = Ok st' /\
    yearly st = yearly st' /\
    dom (monthly st) = dom (monthly st') /\
    forall k,
      m_total_days (month_bucket (monthly st) k) =
        m_total_days (month_bucket (monthly st') k) /\
      m_sober_days (month_bucket (monthly st) k) =
        m_sober_days (month_bucket (monthly st') k).
Proof.
  intros l l'.
  assert (HP : Permutation l l') by apply Permutation_rev.
  split; [exact HP|].
  exact (bucket_counts_ignore_the_order 40%float no_float l l' HP).
Defined.

(** ** The report *)

Section ReportSheet.

Variable DEFAULT_AMOUNT : float.
Variable float_of_str : string -> option float.













End ReportSheet.


(** ** Every dated entry is in one bucket *)

Lemma sum_buckets_empty {V : Type} (f : V -> Z) : sum_buckets f (∅ : gmap string V) = 0.
Proof. unfold sum_buckets. apply map_fold_empty. Qed.

Lemma sum_buckets_fresh {V : Type} (f : V -> Z) (m : gmap string V) (k : string) (v : V) :
  m !! k = None -> sum_buckets f (<[k := v]> m) = f v + sum_buckets f m.
Proof.
  intros H. unfold sum_buckets.
  rewrite map_fold_insert_L; [reflexivity| |exact H].
  intros. lia.
Qed.

Lemma sum_buckets_insert {V : Type} (f : V -> Z) (m : gmap string V) (k : string) (v : V) :
  sum_buckets f (<[k := v]> m) =
  f v + sum_buckets f m - match m !! k with Some b => f b | None => 0 end.
Proof.
  destruct (m !! k) as [b|] eqn:E.
  - rewrite <- (insert_delete_id m k b E) at 2.
    rewrite <- (insert_delete_eq m k v).
    rewrite !sum_buckets_fresh by apply lookup_delete_eq. lia.
  - rewrite sum_buckets_fresh by exact E. lia.
Qed.

Section Conservation.

Variable DEFAULT_AMOUNT : float.
Variable float_of_str : string -> option float.

(** Each dated entry is counted in exactly one month bucket and one
    year bucket: over all month keys, and over all year keys, the
    [total_days] add up to the number of entries whose key is a date
    and the [sober_days] to the number of sober ones among them. *)
Theorem buckets_hold_every_dated_entry_once (daily_log : log) :
  exists st,
    SobrietyTracker.get_statistics DEFAULT_AMOUNT float_of_str daily_log = Ok st /\
    sum_buckets m_total_days (monthly st) = count dated_item daily_log /\
    sum_buckets y_total_days (yearly st) = count dated_item daily_log /\
    sum_buckets m_sober_days (monthly st) =
      count (fun it => dated_item it && sober_item it) daily_log /\
    sum_buckets y_sober_days (yearly st) =
      count (fun it => dated_item it && sober_item it) daily_log.
Proof.
  unfold SobrietyTracker.get_statistics, items.
  induction daily_log as [|[date_str r] l IH] using rev_ind.
  - exists (mk_stats ∅ ∅). split; [reflexivity|]. cbn [monthly yearly].
    rewrite !sum_buckets_empty, !count_nil. auto.
  - destruct IH as (st & Hst & M1 & Y1 & M2 & Y2).
    rewrite for_each_snoc, Hst, bind_Ok. rewrite !count_snoc. cbv beta.
    assert (Fd : dated_item (date_str, r) =
                 match strptime date_str with Ok _ => true | Raise _ => false end)
      by reflexivity.
    assert (Fs : sober_item (date_str, r) = is_sober r) by reflexivity.
    rewrite !Fd, !Fs. clear Fd Fs.
    destruct (strptime date_str) as [d|e] eqn:Hd.
    + rewrite (get_statistics_body_valid DEFAULT_AMOUNT float_of_str st date_str r d Hd).
      eexists. split; [reflexivity|]. cbn [monthly yearly].
      rewrite !sum_buckets_insert. unfold month_bucket, year_bucket, month_turn, year_turn.
      destruct (monthly st !! strftime_Ym d) as [bm|],
               (yearly st !! strftime_Y d) as [by_|],
               (is_sober r);
        cbn [m_total_days m_sober_days y_total_days y_sober_days andb];
        repeat split; lia.
    + rewrite get_statistics_body_invalid
        by (unfold valid_key; rewrite Hd; reflexivity).
      exists st. split; [reflexivity|]. cbn [andb]. repeat split; lia.
Qed.

End Conservation.
